(** * FePilot / node-dependency: a shallow embedding of the dependency tree,
      the package locator, package-manager detection, the command builder
      and the registry cache, with the properties stated about them.

    Sources embedded here:
    - [src/apps/node-dependency/src/views/node-dependencies.ts]
      (classes [DepNodeProvider] and [Dependency]),
    - [src/apps/node-dependency/src/extension.ts]
      (class [NpmQuickPickProvider]),
    - [src/apps/node-dependency/src/services/npmApiService.ts]
      (class [NpmApiService]).

    Conventions of the model:
    - strings are [string], read as the bytes of their (generalised) UTF-8
      encoding, in which a surrogate code unit without its partner shows as
      the three bytes [ED], [A0..BF], [80..BF]; paths are strings, with the
      POSIX semantics of Node's [path] module written out;
    - a JSON file is read at the type the program declares for it
      ([NpmPackageInfo]): a manifest is a record of optional fields, a
      dependency group a plain object from names to version strings, kept
      as the list of its own properties in creation order; property reads
      and [Object.keys] follow the host language (inherited members of
      [Object.prototype], truthiness, array-index keys first);
    - the registry cache (a JS [Map]) is a [gmap];
    - everything outside the program (file system, module resolver, child
      processes, task runner, network) is a field of [World], which a
      single operation only reads; the cache, the clock and the log of
      observable actions are threaded through the state monad [M]; child
      processes, tasks and requests take the time [World] gives them;
    - an exception is a [Throw] result; the methods that catch everything
      have no such result. *)

From Stdlib Require Import String Ascii ZArith List Bool Lia Permutation Sorted.
From stdpp Require Import base option gmap strings.
Import ListNotations.

Local Open Scope string_scope.
Local Open Scope list_scope.
Local Open Scope Z_scope.

(** ** String primitives of the host language *)

Module Str.

(** [s.startsWith(p)] *)
Definition startsWith (s p : string) : bool := String.prefix p s.

(** [s.includes(sub)] *)
Fixpoint includes (s sub : string) : bool :=
  String.prefix sub s ||
  match s with
  | EmptyString => false
  | String _ rest => includes rest sub
  end.

(** [s.split(c)]: the pieces between the occurrences of [c]; never empty. *)
Fixpoint split (c : ascii) (s : string) : list string :=
  match s with
  | EmptyString => [EmptyString]
  | String a rest =>
      if Ascii.eqb a c then EmptyString :: split c rest
      else match split c rest with
           | [] => [String a EmptyString]
           | piece :: pieces => String a piece :: pieces
           end
  end.

(** [s.split(c)[0]] *)
Definition split0 (c : ascii) (s : string) : string :=
  match split c s with
  | [] => EmptyString
  | piece :: _ => piece
  end.

(** [pieces.join(sep)] *)
Fixpoint join (sep : string) (pieces : list string) : string :=
  match pieces with
  | [] => EmptyString
  | [piece] => piece
  | piece :: rest => piece +:+ sep +:+ join sep rest
  end.

Definition isEmpty (s : string) : bool :=
  match s with EmptyString => true | _ => false end.

(** JS truthiness of a string: only the empty string is falsy. *)
Definition truthy (s : string) : bool := negb (isEmpty s).

Definition chars (s : string) : list ascii := list_ascii_of_string s.
Definition ofChars (l : list ascii) : string := string_of_list_ascii l.

End Str.

(** ** Node's [path] module (POSIX flavour) *)

Module Path.

Definition slash : ascii := "/"%char.

Definition isAbsolute (p : string) : bool :=
  match p with
  | String a _ => Ascii.eqb a slash
  | EmptyString => false
  end.

Definition endsWithSlash (p : string) : bool :=
  match rev (Str.chars p) with
  | a :: _ => Ascii.eqb a slash
  | [] => false
  end.

(** One step of [normalizeString]: [acc] holds the segments kept so far,
    last one first. *)
Definition normStep (allowAboveRoot : bool) (acc : list string) (seg : string)
  : list string :=
  if String.eqb seg EmptyString then acc
  else if String.eqb seg "." then acc
  else if String.eqb seg ".." then
    match acc with
    | last :: before =>
        if String.eqb last ".." then
          (if allowAboveRoot then seg :: acc else acc)
        else before
    | [] => if allowAboveRoot then [seg] else []
    end
  else seg :: acc.

Definition normalizeString (p : string) (allowAboveRoot : bool) : string :=
  Str.join "/" (rev (fold_left (normStep allowAboveRoot) (Str.split slash p) [])).

(** [path.normalize] *)
Definition normalize (p : string) : string :=
  if Str.isEmpty p then "."
  else
    let abs := isAbsolute p in
    let trailing := endsWithSlash p in
    let body := normalizeString p (negb abs) in
    if Str.isEmpty body then
      (if abs then "/" else if trailing then "./" else ".")
    else
      let body := if trailing then body +:+ "/" else body in
      if abs then "/" +:+ body else body.

(** [path.join(...parts)] *)
Definition join (parts : list string) : string :=
  let joined := Str.join "/" (List.filter Str.truthy parts) in
  if Str.isEmpty joined then "." else normalize joined.

(** The right-to-left scan of [path.resolve]: stop at the first absolute
    argument. *)
Fixpoint resolveScan (revParts : list string) (acc : string) : string * bool :=
  match revParts with
  | [] => (acc, false)
  | part :: rest =>
      if Str.isEmpty part then resolveScan rest acc
      else
        let acc := part +:+ "/" +:+ acc in
        if isAbsolute part then (acc, true) else resolveScan rest acc
  end.

(** [path.resolve(...parts)], with the process working directory [cwd]. *)
Definition resolve (cwd : string) (parts : list string) : string :=
  let '(acc, abs) := resolveScan (rev parts) EmptyString in
  let '(acc, abs) := if abs then (acc, true)
                     else (cwd +:+ "/" +:+ acc, isAbsolute cwd) in
  let body := normalizeString acc (negb abs) in
  if abs then "/" +:+ body
  else if Str.isEmpty body then "." else body.

Fixpoint dropWhile {A} (f : A -> bool) (l : list A) : list A :=
  match l with
  | [] => []
  | a :: rest => if f a then dropWhile f rest else l
  end.

Definition isSlash (a : ascii) : bool := Ascii.eqb a slash.

(** [path.dirname]: the scan runs from the last character down to the
    second one, skips trailing slashes, then the last segment, and cuts
    at the slash in front of it. *)
Definition dirname (p : string) : string :=
  match p with
  | EmptyString => "."
  | String first body =>
      let hasRoot := isSlash first in
      let scanned :=
        dropWhile (fun a => negb (isSlash a))
                  (dropWhile isSlash (rev (Str.chars body))) in
      match scanned with
      | [] => if hasRoot then "/" else "."
      | _ :: before =>
          match before with
          | [] => if hasRoot then "//" else String first EmptyString
          | _ => String first (Str.ofChars (rev before))
          end
      end
  end.

End Path.

(** ** Plain objects produced by [JSON.parse] *)

Module Js.

(** The own properties of a parsed JSON object whose values are strings
    (a dependency group: name to version range), in creation order. *)
Definition object : Type := list (string * string).

(** What a property read [o[k]] can yield. *)
Inductive value : Type :=
| undefined
| str (s : string)
| builtin (name : string).   (* a member inherited from [Object.prototype] *)

Definition truthy (v : value) : bool :=
  match v with
  | undefined => false
  | str s => Str.truthy s
  | builtin _ => true
  end.

(** String-keyed members every plain object inherits. *)
Definition Object_prototype : list string :=
  [ "constructor"; "__defineGetter__"; "__defineSetter__"; "hasOwnProperty";
    "__lookupGetter__"; "__lookupSetter__"; "isPrototypeOf";
    "propertyIsEnumerable"; "toString"; "valueOf"; "__proto__";
    "toLocaleString" ].

Definition inherited (k : string) : bool :=
  existsb (String.eqb k) Object_prototype.

Fixpoint getOwn (o : object) (k : string) : option string :=
  match o with
  | [] => None
  | (k', v) :: rest => if String.eqb k' k then Some v else getOwn rest k
  end.

(** [o[k]]: own property first, then the prototype. *)
Definition get (o : object) (k : string) : value :=
  match getOwn o k with
  | Some v => str v
  | None => if inherited k then builtin k else undefined
  end.

(** [g?.[k]] where [g] may be [undefined]. *)
Definition getOpt (g : option object) (k : string) : value :=
  match g with
  | Some o => get o k
  | None => undefined
  end.

(** [a || b] on values. *)
Definition or (a b : value) : value := if truthy a then a else b.

Definition digit (a : ascii) : option N :=
  let n := N_of_ascii a in
  if ((48 <=? n) && (n <=? 57))%N then Some (n - 48)%N else None.

Fixpoint parseDigits (acc : N) (s : string) : option N :=
  match s with
  | EmptyString => Some acc
  | String a rest =>
      match digit a with
      | Some d => parseDigits (10 * acc + d)%N rest
      | None => None
      end
  end.

(** An array index: a canonical decimal numeral below [2^32 - 1]. *)
Definition arrayIndex (k : string) : option N :=
  match k with
  | EmptyString => None
  | String a rest =>
      if Ascii.eqb a "0"%char && negb (Str.isEmpty rest) then None
      else match parseDigits 0%N k with
           | Some n => if (n <=? 4294967294)%N then Some n else None
           | None => None
           end
  end.

Definition isIndex (k : string) : bool :=
  match arrayIndex k with Some _ => true | None => false end.

Fixpoint insertIndex (n : N) (k : string) (l : list (N * string))
  : list (N * string) :=
  match l with
  | [] => [(n, k)]
  | (m, k') :: rest =>
      if (n <=? m)%N then (n, k) :: l else (m, k') :: insertIndex n k rest
  end.

Definition indexKeys (o : object) : list (N * string) :=
  fold_right
    (fun kv acc =>
       match arrayIndex (fst kv) with
       | Some n => insertIndex n (fst kv) acc
       | None => acc
       end)
    [] o.

(** [Object.keys(o)]: array-index keys in ascending numeric order, then
    the other keys in creation order. *)
Definition keys (o : object) : list string :=
  map snd (indexKeys o) ++ List.filter (fun k => negb (isIndex k)) (map fst o).

End Js.

(** ** Data model *)

(** [NpmPackageInfo]: a parsed package manifest, local or from the registry,
    with the fields the program reads. *)
Module NpmPackageInfo.
Record t : Type := mk {
  name : option string;
  version : option string;
  packageManager : option string;
  dependencies : option Js.object;
  devDependencies : option Js.object;
  peerDependencies : option Js.object
}.
End NpmPackageInfo.

(** [IPackage]: a search result of the registry. *)
Module IPackage.
Record Publisher : Type := { username : string; email : string }.
Record Links : Type :=
  { npm : string; homepage : string; repository : string; bugs : string }.
Record t : Type := mk {
  name : string;
  version : string;
  description : string;
  keywords : list string;
  date : string;
  links : Links;
  publisher : Publisher;
  maintainers : list Publisher
}.
End IPackage.

(** [type PackageManager = 'npm' | 'pnpm' | 'yarn'] *)
Inductive PackageManager : Type := npm | pnpm | yarn.

Definition PackageManager_toString (pm : PackageManager) : string :=
  match pm with npm => "npm" | pnpm => "pnpm" | yarn => "yarn" end.

(** [['npm', 'pnpm', 'yarn'].includes(s)], with the manager it names. *)
Definition PackageManager_ofString (s : string) : option PackageManager :=
  if String.eqb s "npm" then Some npm
  else if String.eqb s "pnpm" then Some pnpm
  else if String.eqb s "yarn" then Some yarn
  else None.

(** [vscode.TreeItemCollapsibleState] *)
Inductive TreeItemCollapsibleState : Type := None_ | Collapsed | Expanded.

Inductive DepType : Type := dep | dev | peer.

(** [class Dependency extends vscode.TreeItem] *)
Module Dependency.
Record t : Type := mk {
  collapsibleState : TreeItemCollapsibleState;
  label : string;
  version : Js.value;
  type : DepType;
  workspaceDir : string;
  description : Js.value;
  iconPath : string;
  contextValue : string
}.

Definition getIconPath (ty : DepType) : string :=
  match ty with
  | dev => "debug"
  | peer => "link"
  | dep => "package"
  end.

(** The constructor. *)
Definition new (state : TreeItemCollapsibleState) (label : string)
    (version : Js.value) (ty : DepType) (workspaceDir : string) : t :=
  {| collapsibleState := state;
     label := label;
     version := version;
     type := ty;
     workspaceDir := workspaceDir;
     description := version;
     iconPath := getIconPath ty;
     contextValue :=
       if Str.includes workspaceDir "node_modules"
       then "indirectDependency" else "dependency" |}.

(** The spec's [isInstalledLocally]: the node can be expanded. *)
Definition isInstalledLocally (d : t) : bool :=
  match collapsibleState d with
  | Collapsed => true
  | _ => false
  end.
End Dependency.

(** ** The environment *)

Inductive FsNode : Type :=
| Dir
| File (json : option NpmPackageInfo.t).
    (* [None]: the content is not a JSON manifest, [JSON.parse] throws *)

(** What [response.json()] gives. *)
Inductive JsonBody : Type :=
| Malformed                         (* the body is not JSON: the promise rejects *)
| Falsy                             (* [null], [false], [0] or the empty string *)
| Parsed (data : NpmPackageInfo.t). (* any other value; one that is no object
                                       reads as a manifest without fields *)

Inductive FetchOutcome : Type :=
| NetworkFailure
| Response (status : Z) (statusText : string) (body : JsonBody).

Record World : Type := {
  (** what [fs.accessSync], [fs.existsSync] and [fs.readFileSync] see at a
      path (symbolic links followed) *)
  fs : string -> option FsNode;
  (** [fs.realpathSync]; [None] when it throws *)
  realpath : string -> option string;
  (** [process.cwd()] *)
  cwd : string;
  (** [require.resolve(name, {paths: [dir]})]: the entry file; [None] when
      it throws *)
  requireResolve : string -> string -> option string;
  (** [child_process.exec(command, {cwd})] ends with exit code 0 *)
  execOk : string -> string -> bool;
  (** how long that child process runs, in milliseconds *)
  execTime : string -> string -> Z;
  (** [e.exitCode] of the task running [command] in [cwd], if its process
      ends within the 30 s guard: a number, or [None] for [undefined] *)
  taskExit : string -> string -> option (option Z);
  (** how long that process runs when it ends within the guard, in
      milliseconds *)
  taskTime : string -> string -> Z;
  (** [fetch(url)] started at a given time: its outcome and how long it
      took, in milliseconds *)
  fetch : string -> Z -> FetchOutcome * Z;
  (** [vscode.workspace.workspaceFolders], as [fsPath]s *)
  workspaceFolders : list string;
  (** [vscode.window.activeTextEditor.document.uri.fsPath] *)
  activeEditor : option string
}.

Inductive JsError : Type :=
| ReadError (path : string)        (* [readFileSync] or [JSON.parse] threw *)
| TypeError                        (* a property read off [null] *)
| FetchError                       (* [fetch] rejected *)
| BodyError                        (* [response.json()] rejected *)
| HttpError (status : Z) (statusText : string)
| URIError                         (* [encodeURIComponent] met a lone surrogate *)
| TaskFailed (exitCode : option Z).

Inductive Message : Type :=
| Text (text : string)
| TextWithError (text : string) (error : JsError).

(** The observable actions, in the order they happen.  Progress reports and
    console output are not recorded. *)
Inductive Event : Type :=
| Resolve (name dir : string)          (* a [require.resolve] probe *)
| Fetch (url : string)                 (* a request to the registry *)
| Exec (command cwd : string)          (* a child process *)
| Task (cwd command : string)          (* a shell task *)
| ShowErrorMessage (m : Message)
| ShowWarningMessage (m : Message)
| ShowInformationMessage (m : Message).

Record State : Type := {
  (** [NpmApiService.cache]: key to data and timestamp; the data are
      [None] when the registry answered with a falsy value *)
  cache : gmap string (option NpmPackageInfo.t * Z);
  (** [Date.now()] *)
  now : Z;
  log : list Event
}.

Inductive result (A : Type) : Type :=
| Ok (a : A)
| Throw (e : JsError).
Arguments Ok {A} a.
Arguments Throw {A} e.

(** ** The monad the effectful methods run in *)

Definition M (A : Type) : Type := State -> A * State.

Definition ret {A} (a : A) : M A := fun s => (a, s).

Definition bind {A B} (m : M A) (k : A -> M B) : M B :=
  fun s => let '(a, s') := m s in k a s'.

Declare Scope m_scope.
Delimit Scope m_scope with m.
Notation "x <- c ;; k" := (bind c (fun x => k))
  (at level 100, c at next level, right associativity) : m_scope.
Notation "c ;;; k" := (bind c (fun _ => k))
  (at level 100, right associativity) : m_scope.
Local Open Scope m_scope.

Definition emit (e : Event) : M unit :=
  fun s => (tt, {| cache := cache s; now := now s; log := log s ++ [e] |}).

Definition getState : M State := fun s => (s, s).

Definition setCache (c : gmap string (option NpmPackageInfo.t * Z)) : M unit :=
  fun s => (tt, {| cache := c; now := now s; log := log s |}).

Definition elapse (ms : Z) : M unit :=
  fun s => (tt, {| cache := cache s; now := now s + ms; log := log s |}).

(** [fs.accessSync(p)] does not throw; also [fs.existsSync(p)]. *)
Definition pathExists (w : World) (p : string) : bool :=
  match fs w p with Some _ => true | None => false end.

(** [JSON.parse(fs.readFileSync(p, 'utf-8'))] *)
Definition parseFile (w : World) (p : string) : result NpmPackageInfo.t :=
  match fs w p with
  | Some (File (Some json)) => Ok json
  | _ => Throw (ReadError p)
  end.

(** JS truthiness of [string | undefined]. *)
Definition truthyOpt (s : option string) : bool :=
  match s with Some s => Str.truthy s | None => false end.

(** ** [encodeURIComponent], on the UTF-8 bytes of the string *)

Module Uri.

Definition unreserved (a : ascii) : bool :=
  let n := N_of_ascii a in
  (((48 <=? n) && (n <=? 57)) || ((65 <=? n) && (n <=? 90)) ||
   ((97 <=? n) && (n <=? 122)))%N
  || existsb (Ascii.eqb a)
       ["-"; "_"; "."; "!"; "~"; "*"; "'"; "("; ")"]%char.

Definition hexDigit (n : N) : ascii :=
  if (n <? 10)%N then ascii_of_N (48 + n) else ascii_of_N (55 + n).

(** The escaping itself: unreserved characters stay, every other byte
    becomes [%XX]. *)
Fixpoint escape (s : string) : string :=
  match s with
  | EmptyString => EmptyString
  | String a rest =>
      if unreserved a then String a (escape rest)
      else
        let n := N_of_ascii a in
        String "%" (String (hexDigit (n / 16)) (String (hexDigit (n mod 16))
          (escape rest)))
  end.

(** The bytes [ED], [A0..BF] begin a surrogate code unit; paired
    surrogates are encoded together, in four bytes, so that one that shows
    has no partner. *)
Definition surrogateLead (a b : ascii) : bool :=
  ((N_of_ascii a =? 237) && (160 <=? N_of_ascii b) && (N_of_ascii b <=? 191))%N.

Fixpoint loneSurrogate (s : string) : bool :=
  match s with
  | EmptyString => false
  | String a rest =>
      match rest with
      | EmptyString => false
      | String b _ => surrogateLead a b || loneSurrogate rest
      end
  end.

(** [encodeURIComponent(s)]: throws a [URIError] on a lone surrogate. *)
Definition encodeURIComponent (s : string) : result string :=
  if loneSurrogate s then Throw URIError else Ok (escape s).

End Uri.

(** ** [class NpmApiService] *)

Module NpmApiService.

Definition NPM_REGISTRY : string := "https://registry.npmjs.org".

(** [60 * 60 * 1000]: one hour, in milliseconds *)
Definition CACHE_DURATION : Z := 60 * 60 * 1000.

(** [version ? `${packageName}@${version}` : packageName] *)
Definition cacheKey (packageName : string) (version : option string) : string :=
  match version with
  | Some v => if Str.truthy v then packageName +:+ "@" +:+ v else packageName
  | None => packageName
  end.

(** The lines of [getPackageInfo] that build the address. *)
Definition url (packageName : string) (version : option string) : result string :=
  match Uri.encodeURIComponent packageName with
  | Ok name =>
      let base := NPM_REGISTRY +:+ "/" +:+ name in
      match version with
      | Some v =>
          if Str.truthy v then
            match Uri.encodeURIComponent v with
            | Ok escaped => Ok (base +:+ "/" +:+ escaped)
            | Throw e => Throw e
            end
          else Ok base
      | None => Ok base
      end
  | Throw e => Throw e
  end.

(** The cache test of [getPackageInfo]: the data of an entry that is less
    than an hour old. *)
Definition fresh (s : State) (key : string) : option (option NpmPackageInfo.t) :=
  match cache s !! key with
  | Some (data, timestamp) =>
      if now s - timestamp <? CACHE_DURATION then Some data else None
  | None => None
  end.

(** The [catch] block of [getPackageInfo]. *)
Definition failed (e : JsError) : M (option NpmPackageInfo.t) :=
  emit (ShowErrorMessage
          (TextWithError "Failed to fetch package information: " e)) ;;;
  ret None.

(** [this.cache.set(cacheKey, { data, timestamp: Date.now() }); return data] *)
Definition store (key : string) (data : option NpmPackageInfo.t)
  : M (option NpmPackageInfo.t) :=
  s <- getState ;;
  setCache (<[key := (data, now s)]> (cache s)) ;;;
  ret data.

(** [static async getPackageInfo(packageName, version?)]; a falsy result
    is [None]. *)
Definition getPackageInfo (w : World) (packageName : string)
    (version : option string) : M (option NpmPackageInfo.t) :=
  let key := cacheKey packageName version in
  s <- getState ;;
  match fresh s key with
  | Some data => ret data
  | None =>
      match url packageName version with
      | Throw e => failed e
      | Ok u =>
          emit (Fetch u) ;;;
          let '(outcome, took) := fetch w u (now s) in
          elapse took ;;;
          match outcome with
          | NetworkFailure => failed FetchError
          | Response status statusText body =>
              if (200 <=? status) && (status <=? 299) then
                match body with
                | Malformed => failed BodyError
                | Falsy => store key None
                | Parsed data => store key (Some data)
                end
              else if status =? 404 then
                emit (ShowWarningMessage
                        (Text ("Package '" +:+ packageName +:+
                               "' not found on npm registry"))) ;;;
                ret None
              else failed (HttpError status statusText)
          end
      end
  end.

(** [static clearCache()] *)
Definition clearCache : M unit := setCache ∅.

End NpmApiService.

(** ** Walking up from a directory to the workspace root

    The loop
    [while (currentDir !== path.dirname(currentDir) &&
            currentDir.startsWith(rootPath))]
    shared by [getPackageDirectory] and [findPackageJsonUpward]; it yields
    the first directory on the way up that holds a [package.json]. *)

Fixpoint walkUp (w : World) (rootPath : string) (fuel : nat)
    (currentDir : string) : option string :=
  match fuel with
  | O => None
  | S fuel' =>
      if negb (String.eqb currentDir (Path.dirname currentDir))
         && Str.startsWith currentDir rootPath
      then
        if pathExists w (Path.join [currentDir; "package.json"])
        then Some currentDir
        else walkUp w rootPath fuel' (Path.dirname currentDir)
      else None
  end.

(** [path.dirname] shortens every path but the empty one, ["."] and ["/"], so this
    many rounds always suffice (lemma [walkUp_complete]). *)
Definition walkFuel (p : string) : nat := S (S (String.length p)).

(** [child_process.exec], promisified: resolves or rejects when the child
    process has ended. *)
Definition execAsync (w : World) (command cwd : string) : M bool :=
  emit (Exec command cwd) ;;;
  elapse (execTime w command cwd) ;;;
  ret (execOk w command cwd).

(** ** [class NpmQuickPickProvider] *)

Module NpmQuickPickProvider.

(** [private static async getPackageDirectory()] *)
Definition getPackageDirectory (w : World) : option string :=
  match workspaceFolders w with
  | [] => None
  | rootPath :: _ =>
      let atRoot :=
        if pathExists w (Path.join [rootPath; "package.json"])
        then Some rootPath else None in
      match activeEditor w with
      | Some activeFilePath =>
          if negb (Str.startsWith activeFilePath rootPath) then atRoot
          else
            match walkUp w rootPath (walkFuel activeFilePath)
                         (Path.dirname activeFilePath) with
            | Some dir => Some dir
            | None => atRoot
            end
      | None => atRoot
      end
  end.

Definition lockFiles : list (string * PackageManager) :=
  [ ("pnpm-lock.yaml", pnpm); ("yarn.lock", yarn); ("package-lock.json", npm) ].

(** The [for ... of lockFiles] loop: the first lock file present. *)
Definition byLockFile (w : World) (packageDir : string) : option PackageManager :=
  snd <$> find (fun entry => pathExists w (Path.join [packageDir; fst entry]))
               lockFiles.

(** Step 1: the [packageManager] field of [package.json]. *)
Definition byManifest (w : World) (packageDir : string)
  : result (option PackageManager) :=
  let packageJsonPath := Path.join [packageDir; "package.json"] in
  if pathExists w packageJsonPath then
    match parseFile w packageJsonPath with
    | Ok packageJson =>
        match NpmPackageInfo.packageManager packageJson with
        | Some field =>
            if Str.truthy field
            then Ok (PackageManager_ofString (Str.split0 "@" field))
            else Ok None
        | None => Ok None
        end
    | Throw e => Throw e
    end
  else Ok None.

(** [private static async detectPackageManager(packageDir)] *)
Definition detectPackageManager (w : World) (packageDir : string)
  : M PackageManager :=
  match byManifest w packageDir with
  | Throw _ => ret npm
  | Ok (Some manager) => ret manager
  | Ok None =>
      match byLockFile w packageDir with
      | Some manager => ret manager
      | None =>
          hasPnpm <- execAsync w "which pnpm" packageDir ;;
          if hasPnpm then ret pnpm
          else
            hasYarn <- execAsync w "which yarn" packageDir ;;
            if hasYarn then ret yarn else ret npm
      end
  end.

(** [private static buildInstallCommand(packageManager, pkg, installType,
    includeTypes)] *)
Definition buildInstallCommand (packageManager : PackageManager)
    (pkg : IPackage.t) (installType : string) (includeTypes : bool) : string :=
  let packageSpec := IPackage.name pkg +:+ "@" +:+ IPackage.version pkg in
  let typesPackage := "@types/" +:+ IPackage.name pkg in
  let mainCommand :=
    match packageManager with
    | pnpm =>
        if String.eqb installType "--save-dev" then "pnpm add -D " +:+ packageSpec
        else if String.eqb installType "--save-peer" then "pnpm add -P " +:+ packageSpec
        else "pnpm add " +:+ packageSpec
    | yarn =>
        if String.eqb installType "--save-dev" then "yarn add -D " +:+ packageSpec
        else if String.eqb installType "--save-peer" then "yarn add -P " +:+ packageSpec
        else "yarn add " +:+ packageSpec
    | npm =>
        if String.eqb installType "--save-dev"
        then "npm install --save-dev " +:+ packageSpec
        else if String.eqb installType "--save-peer"
        then "npm install --save-peer " +:+ packageSpec
        else "npm install " +:+ packageSpec
    end in
  if negb includeTypes || String.eqb installType "--save-peer" then mainCommand
  else
    let typesCommand :=
      match packageManager with
      | pnpm => "pnpm add -D " +:+ typesPackage
      | yarn => "yarn add -D " +:+ typesPackage
      | npm => "npm install --save-dev " +:+ typesPackage
      end in
    mainCommand +:+ " && " +:+ typesCommand.

(** [private static buildRemoveCommand(packageManager, packageName,
    hasTypesPackage)] *)
Definition buildRemoveCommand (packageManager : PackageManager)
    (packageName : string) (hasTypesPackage : bool) : string :=
  let typesPackage := "@types/" +:+ packageName in
  let mainCommand :=
    match packageManager with
    | pnpm => "pnpm remove " +:+ packageName
    | yarn => "yarn remove " +:+ packageName
    | npm => "npm uninstall " +:+ packageName
    end in
  if negb hasTypesPackage then mainCommand
  else
    let typesCommand :=
      match packageManager with
      | pnpm => "pnpm remove " +:+ typesPackage
      | yarn => "yarn remove " +:+ typesPackage
      | npm => "npm uninstall " +:+ typesPackage
      end in
    mainCommand +:+ " && " +:+ typesCommand.

(** The command of the existence probe for [@types/<packageName>]. *)
Definition checkCommand (packageManager : PackageManager) (packageName : string)
  : string :=
  let typesPackage := "@types/" +:+ packageName in
  match packageManager with
  | npm => "npm view " +:+ typesPackage +:+ " version"
  | pnpm => "pnpm view " +:+ typesPackage +:+ " version"
  | yarn => "yarn info " +:+ typesPackage +:+ " version"
  end.

(** [private static async checkTypesPackageExists(packageManager,
    packageName, cwd)] *)
Definition checkTypesPackageExists (w : World) (packageManager : PackageManager)
    (packageName cwd : string) : M bool :=
  execAsync w (checkCommand packageManager packageName) cwd.

(** [e.exitCode === 0] *)
Definition exitedZero (exitCode : option Z) : bool :=
  match exitCode with
  | Some code => code =? 0
  | None => false
  end.

(** The guard of [executeWithTask]: 30 s, in milliseconds. *)
Definition TASK_GUARD : Z := 30000.

(** [private static async executeWithTask(cwd, command, packageManager)]:
    resolves when the process ends with exit code 0 and when the 30 s
    guard runs out first, rejects when the process ends otherwise. *)
Definition executeWithTask (w : World) (cwd command : string)
    (packageManager : PackageManager) : M (result unit) :=
  emit (Task cwd command) ;;;
  match taskExit w cwd command with
  | Some exitCode =>
      elapse (taskTime w cwd command) ;;;
      if exitedZero exitCode then ret (Ok tt)
      else ret (Throw (TaskFailed exitCode))
  | None => elapse TASK_GUARD ;;; ret (Ok tt)
  end.

(** [private static async installPackage(pkg, installType)] *)
Definition installPackage (w : World) (pkg : IPackage.t) (installType : string)
  : M unit :=
  match getPackageDirectory w with
  | Some packageDir =>
      if negb (Str.truthy packageDir) then
        emit (ShowErrorMessage (Text "No package.json found in workspace"))
      else
        packageManager <- detectPackageManager w packageDir ;;
        includeTypes <-
          (if negb (String.eqb installType "--save-peer")
           then checkTypesPackageExists w packageManager (IPackage.name pkg)
                                        packageDir
           else ret false) ;;
        let installCommand :=
          buildInstallCommand packageManager pkg installType includeTypes in
        finished <- executeWithTask w packageDir installCommand packageManager ;;
        match finished with
        | Ok _ =>
            let installTypeText :=
              if Str.truthy installType then " (" +:+ installType +:+ ")"
              else EmptyString in
            let typesText :=
              if includeTypes then " and type definitions (as dev dependency)"
              else EmptyString in
            emit (ShowInformationMessage
                    (Text ("Successfully installed " +:+ IPackage.name pkg +:+
                           "@" +:+ IPackage.version pkg +:+ typesText +:+
                           installTypeText +:+ " using " +:+
                           PackageManager_toString packageManager)))
        | Throw e =>
            emit (ShowErrorMessage (TextWithError "Failed to install package: " e))
        end
  | None => emit (ShowErrorMessage (Text "No package.json found in workspace"))
  end.

(** [pkg?.dependencies?.[k]] and its two siblings. *)
Definition declared (pkg : NpmPackageInfo.t) (k : string)
  : Js.value * Js.value * Js.value :=
  (Js.getOpt (NpmPackageInfo.dependencies pkg) k,
   Js.getOpt (NpmPackageInfo.devDependencies pkg) k,
   Js.getOpt (NpmPackageInfo.peerDependencies pkg) k).

(** [static async removePackage(packageName, workspaceRoot)] *)
Definition removePackage (w : World) (packageName workspaceRoot : string)
  : M (result unit) :=
  packageManager <- detectPackageManager w workspaceRoot ;;
  let typesPackage := "@types/" +:+ packageName in
  let pkgPath := Path.join [workspaceRoot; "package.json"] in
  if negb (pathExists w pkgPath) then
    emit (ShowErrorMessage (Text "No package.json found in dir ${workspaceRoot}")) ;;;
    ret (Ok tt)
  else
    match parseFile w pkgPath with
    | Throw e =>
        emit (ShowErrorMessage (TextWithError "Failed to remove package: " e)) ;;;
        ret (Throw e)
    | Ok pkg =>
        let '(inDeps, inDev, inPeer) := declared pkg packageName in
        if negb (Js.truthy inDeps) && negb (Js.truthy inDev)
           && negb (Js.truthy inPeer)
        then
          emit (ShowErrorMessage
                  (Text ("Package " +:+ packageName +:+
                         " not found in package.json in dir " +:+ workspaceRoot))) ;;;
          ret (Ok tt)
        else
          let '(typesInDeps, typesInDev, typesInPeer) := declared pkg typesPackage in
          let hasTypesPackage := Js.or (Js.or typesInDev typesInPeer) typesInDeps in
          let removeCommand :=
            buildRemoveCommand packageManager packageName
                               (Js.truthy hasTypesPackage) in
          finished <- executeWithTask w workspaceRoot removeCommand packageManager ;;
          match finished with
          | Ok _ =>
              let typesText :=
                if Js.truthy hasTypesPackage then " and type definitions" else EmptyString in
              emit (ShowInformationMessage
                      (Text ("Successfully removed " +:+ packageName +:+ typesText +:+
                             " using " +:+ PackageManager_toString packageManager))) ;;;
              ret (Ok tt)
          | Throw e =>
              emit (ShowErrorMessage (TextWithError "Failed to remove package: " e)) ;;;
              ret (Throw e)
          end
    end.

End NpmQuickPickProvider.

(** ** [class DepNodeProvider] *)

Module DepNodeProvider.

(** The provider object; [workspaceRoot] is the first workspace folder,
    fixed at construction. *)
Record t : Type := { workspaceRoot : option string }.

(** [public readFileAsJson(filePath)]: [null] on any failure. *)
Definition readFileAsJson (w : World) (filePath : string)
  : option NpmPackageInfo.t :=
  match realpath w filePath with
  | Some real =>
      if pathExists w real then
        match parseFile w real with
        | Ok json => Some json
        | Throw _ => None
        end
      else None
  | None => None
  end.

(** The inner [toDep] of [getDepsInPackageJson]. *)
Definition toDep (w : World) (workspaceRoot workspaceDir moduleName : string)
    (version : Js.value) (ty : DepType) : Dependency.t :=
  if pathExists w (Path.join [workspaceRoot; "node_modules"; moduleName])
  then Dependency.new Collapsed moduleName version ty workspaceDir
  else Dependency.new None_ moduleName version ty workspaceDir.

(** [group ? Object.keys(group).map(dep => toDep(dep, group[dep], ty)) : []] *)
Definition groupDeps (w : World) (workspaceRoot workspaceDir : string)
    (group : option Js.object) (ty : DepType) : list Dependency.t :=
  match group with
  | Some g =>
      map (fun moduleName =>
             toDep w workspaceRoot workspaceDir moduleName (Js.get g moduleName) ty)
          (Js.keys g)
  | None => []
  end.

(** [private async getDepsInPackageJson(packageJsonPath)] *)
Definition getDepsInPackageJson (this : t) (w : World) (packageJsonPath : string)
  : result (list Dependency.t) :=
  match workspaceRoot this with
  | Some root =>
      if pathExists w packageJsonPath && Str.truthy root then
        match parseFile w packageJsonPath with
        | Ok packageJson =>
            let workspaceDir := Path.dirname packageJsonPath in
            let peerDeps :=
              groupDeps w root workspaceDir
                        (NpmPackageInfo.peerDependencies packageJson) peer in
            let deps :=
              groupDeps w root workspaceDir
                        (NpmPackageInfo.dependencies packageJson) dep in
            let devDeps :=
              groupDeps w root workspaceDir
                        (NpmPackageInfo.devDependencies packageJson) dev in
            Ok ((peerDeps ++ deps) ++ devDeps)
        | Throw e => Throw e
        end
      else Ok []
  | None => Ok []
  end.

(** [private findPackageJsonUpward(startPath)] *)
Definition findPackageJsonUpward (this : t) (w : World) (startPath : string)
  : option string :=
  match workspaceRoot this with
  | Some root =>
      if negb (Str.truthy root) then None
      else if negb (Str.startsWith startPath root) then None
      else
        match walkUp w root (walkFuel startPath) (Path.dirname startPath) with
        | Some dir => Some (Path.join [dir; "package.json"])
        | None =>
            let rootPackageJsonPath := Path.join [root; "package.json"] in
            if pathExists w rootPackageJsonPath then Some rootPackageJsonPath
            else None
        end
  | None => None
  end.

(** [private getActivePackageJsonPath()] *)
Definition getActivePackageJsonPath (this : t) (w : World) : option string :=
  match activeEditor w with
  | Some activeFilePath => findPackageJsonUpward this w activeFilePath
  | None => None
  end.

(** [public getRelevantPackageJsonPath()] *)
Definition getRelevantPackageJsonPath (this : t) (w : World) : option string :=
  match getActivePackageJsonPath this w with
  | Some activePackageJson =>
      if Str.truthy activePackageJson then Some activePackageJson
      else
        let rootPackageJson :=
          Path.join [default EmptyString (workspaceRoot this); "package.json"] in
        if pathExists w rootPackageJson then Some rootPackageJson else None
  | None =>
      let rootPackageJson :=
        Path.join [default EmptyString (workspaceRoot this); "package.json"] in
      if pathExists w rootPackageJson then Some rootPackageJson else None
  end.

(** [getChildren(element?)] *)
Definition getChildren (this : t) (w : World) (element : option Dependency.t)
  : M (result (list Dependency.t)) :=
  let emptyWorkspace :=
    emit (ShowInformationMessage (Text "No dependency in empty workspace")) ;;;
    ret (Ok []) in
  let noManifest :=
    emit (ShowInformationMessage
            (Text "No package.json found in current context")) ;;;
    ret (Ok []) in
  match workspaceRoot this with
  | Some root =>
      if negb (Str.truthy root) then emptyWorkspace
      else
        match element with
        | Some element =>
            ret (getDepsInPackageJson this w
                   (Path.join [root; "node_modules"; Dependency.label element;
                               "package.json"]))
        | None =>
            match getRelevantPackageJsonPath this w with
            | Some packageJsonPath =>
                if Str.truthy packageJsonPath
                then ret (getDepsInPackageJson this w packageJsonPath)
                else noManifest
            | None => noManifest
            end
        end
  | None => emptyWorkspace
  end.

(** [private async resolvePackageDir(moduleName, dir)] *)
Definition resolvePackageDir (this : t) (w : World) (moduleName dir : string)
  : M (option string) :=
  if Str.includes moduleName "@types/" then ret None
  else
    emit (Resolve moduleName dir) ;;;
    match requireResolve w moduleName dir with
    | Some entry => ret (realpath w (Path.dirname entry))
    | None => ret None
    end.

(** One manifest probe of [findPackageJson]: the file is there, can be
    read, and carries the expected name. *)
Definition named (w : World) (moduleName packageJsonPath : string)
  : option NpmPackageInfo.t :=
  if pathExists w packageJsonPath then
    match readFileAsJson w packageJsonPath with
    | Some packageInfo =>
        match NpmPackageInfo.name packageInfo with
        | Some name =>
            if String.eqb name moduleName then Some packageInfo else None
        | None => None
        end
    | None => None
    end
  else None.

(** The third probe of [findPackageJson]: [Some r] when the manifest under
    the workspace root's [node_modules] exists, [r] being whatever reading
    it gave. *)
Definition atRoot (this : t) (w : World) (moduleName : string)
  : option (option NpmPackageInfo.t) :=
  match workspaceRoot this with
  | Some root =>
      if Str.truthy root then
        let rootNodeModulesPath :=
          Path.resolve (cwd w) [root; "node_modules"; moduleName; "package.json"] in
        if pathExists w rootNodeModulesPath
        then Some (readFileAsJson w rootNodeModulesPath)
        else None
      else None
  | None => None
  end.

(** [private async findPackageJson(moduleName, startDir)] *)
Definition findPackageJson (this : t) (w : World) (moduleName startDir : string)
  : M (option NpmPackageInfo.t) :=
  let currentPackageJson := Path.join [startDir; "package.json"] in
  match named w moduleName currentPackageJson with
  | Some packageInfo => ret (Some packageInfo)
  | None =>
      let nodeModulesPath := Path.resolve (cwd w) [startDir; ".."; "package.json"] in
      match named w moduleName nodeModulesPath with
      | Some packageInfo => ret (Some packageInfo)
      | None =>
          match atRoot this w moduleName with
          | Some packageInfo => ret packageInfo
          | None => NpmApiService.getPackageInfo w moduleName None
          end
      end
  end.

(** [private async getPackageJsonFromPath(moduleName, dir)] *)
Definition getPackageJsonFromPath (this : t) (w : World) (moduleName dir : string)
  : M (option NpmPackageInfo.t) :=
  pkgDir <- resolvePackageDir this w moduleName dir ;;
  if truthyOpt pkgDir
  then findPackageJson this w moduleName (default EmptyString pkgDir)
  else findPackageJson this w moduleName dir.

(** [private async getLocalPackageInfo(moduleName, dir)] *)
Definition getLocalPackageInfo (this : t) (w : World) (moduleName dir : string)
  : M (option NpmPackageInfo.t) :=
  getPackageJsonFromPath this w moduleName dir.

(** Step 1 of [detectPackageManager]; reading [packageManager] off the
    [null] that [readFileAsJson] gives on failure throws. *)
Definition byManifest (w : World) (workspaceRoot : string)
  : result (option PackageManager) :=
  let packageJsonPath := Path.join [workspaceRoot; "package.json"] in
  if pathExists w packageJsonPath then
    match readFileAsJson w packageJsonPath with
    | Some packageJson =>
        match NpmPackageInfo.packageManager packageJson with
        | Some field =>
            if Str.truthy field
            then Ok (PackageManager_ofString (Str.split0 "@" field))
            else Ok None
        | None => Ok None
        end
    | None => Throw TypeError
    end
  else Ok None.

(** [private async detectPackageManager(workspaceRoot)] *)
Definition detectPackageManager (w : World) (workspaceRoot : string)
  : PackageManager :=
  match byManifest w workspaceRoot with
  | Throw _ => npm
  | Ok (Some manager) => manager
  | Ok None =>
      match NpmQuickPickProvider.byLockFile w workspaceRoot with
      | Some manager => manager
      | None => npm
      end
  end.

End DepNodeProvider.


(** ** What a computation adds to the log *)

(** Every event [m] appends satisfies [P]. *)
Definition emits {A} (P : Event -> Prop) (m : M A) : Prop :=
  forall s, exists evs, log (snd (m s)) = log s ++ evs /\ Forall P evs.

(** A run of the existence probe for some types companion package. *)
Definition isTypesProbe (e : Event) : Prop :=
  exists manager packageName cwd,
    e = Exec (NpmQuickPickProvider.checkCommand manager packageName) cwd.

Definition isResolve (e : Event) : Prop := exists name dir, e = Resolve name dir.
Definition isFetch (e : Event) : Prop := exists url, e = Fetch url.

(** ** Signals of the package-manager detector *)



(** ** Example environments *)

Definition manifest (name : string) (packageManager : option string)
    (dependencies devDependencies peerDependencies : option Js.object)
  : NpmPackageInfo.t :=
  NpmPackageInfo.mk (Some name) (Some "1.0.0") packageManager
                    dependencies devDependencies peerDependencies.

Fixpoint lookupFile (files : list (string * FsNode)) (p : string) : option FsNode :=
  match files with
  | [] => None
  | (q, node) :: rest => if String.eqb q p then Some node else lookupFile rest p
  end.

(** A machine with the given files, no symbolic links, no resolvable
    module, no [pnpm] or [yarn] on the path, and an unreachable registry;
    a child process takes 40 ms, a task two seconds. *)
Definition machine (files : list (string * FsNode)) (folders : list string)
    (editor : option string) : World :=
  {| fs := lookupFile files;
     realpath := fun p => match lookupFile files p with
                         | Some _ => Some p
                         | None => None
                         end;
     cwd := "/";
     requireResolve := fun _ _ => None;
     execOk := fun _ _ => false;
     execTime := fun _ _ => 40;
     taskExit := fun _ _ => Some (Some 0);
     taskTime := fun _ _ => 2000;
     fetch := fun _ _ => (NetworkFailure, 0);
     workspaceFolders := folders;
     activeEditor := editor |}.

Definition start : State := {| cache := ∅; now := 0; log := [] |}.



(** A project with a manifest and nothing else. *)
Definition bareProject : World :=
  machine [ ("/proj", Dir);
            ("/proj/package.json",
             File (Some (manifest "proj" None None None None))) ]
          ["/proj"] None.




Definition provider (root : string) : DepNodeProvider.t :=
  {| DepNodeProvider.workspaceRoot := Some root |}.

(** ** Reading the tree *)

(** Name and group of the nodes, in order. *)
Definition tags (nodes : list Dependency.t) : list (string * DepType) :=
  map (fun d => (Dependency.label d, Dependency.type d)) nodes.

(** The keys of a dependency group as [Object.keys] lists them. *)
Definition enumerationOrder (group : option Js.object) : list string :=
  match group with Some g => Js.keys g | None => [] end.

(** The keys of a dependency group in the order the manifest inserted them. *)
Definition insertionOrder (group : option Js.object) : list string :=
  match group with Some g => map fst g | None => [] end.

Definition tagged (ty : DepType) (names : list string) : list (string * DepType) :=
  map (fun name => (name, ty)) names.

(** No dependency name of the group is an array index. *)
Definition plainKeys (group : option Js.object) : bool :=
  forallb (fun k => negb (Js.isIndex k)) (insertionOrder group).

(** The names a manifest declares, group by group. *)
Definition declaredNames (m : NpmPackageInfo.t) : list string :=
  enumerationOrder (NpmPackageInfo.peerDependencies m) ++
  enumerationOrder (NpmPackageInfo.dependencies m) ++
  enumerationOrder (NpmPackageInfo.devDependencies m).

Definition isDirectory (w : World) (p : string) : bool :=
  match fs w p with Some Dir => true | _ => false end.

(** [<ownerDir>/node_modules/<name>], the owner being the directory of the
    manifest that declared the node. *)
Definition ownerInstallPath (d : Dependency.t) : string :=
  Path.join [Dependency.workspaceDir d; "node_modules"; Dependency.label d].

(** [<workspaceRoot>/node_modules/<name>] *)
Definition rootInstallPath (root : string) (d : Dependency.t) : string :=
  Path.join [root; "node_modules"; Dependency.label d].

(** A workspace [/ws] with a member package [/ws/packages/a], which declares
    [x] (installed under the workspace root only), [y] (installed under the
    member only) and [z] (installed in both places, in different versions
    with different dependencies).  The active editor shows a file of the
    member package. *)
Definition monorepo : World :=
  machine
    [ ("/ws", Dir);
      ("/ws/package.json", File (Some (manifest "root" None None None None)));
      ("/ws/node_modules", Dir);
      ("/ws/node_modules/x", Dir);
      ("/ws/node_modules/z", Dir);
      ("/ws/node_modules/z/package.json",
       File (Some (manifest "z" None (Some [("q", "^2.0.0")]) None None)));
      ("/ws/packages", Dir);
      ("/ws/packages/a", Dir);
      ("/ws/packages/a/package.json",
       File (Some (manifest "a" None
                     (Some [("x", "^1.0.0"); ("y", "^1.0.0"); ("z", "^1.0.0")])
                     None None)));
      ("/ws/packages/a/node_modules", Dir);
      ("/ws/packages/a/node_modules/y", Dir);
      ("/ws/packages/a/node_modules/z", Dir);
      ("/ws/packages/a/node_modules/z/package.json",
       File (Some (manifest "z" None (Some [("p", "^1.0.0")]) None None)));
      ("/ws/packages/a/src", Dir);
      ("/ws/packages/a/src/index.ts", File None) ]
    ["/ws"] (Some "/ws/packages/a/src/index.ts").

(** The node of [z] as the tree shows it under the member package. *)
Definition zNode : Dependency.t :=
  Dependency.new Collapsed "z" (Js.str "^1.0.0") dep "/ws/packages/a".

(** The manifest of the round-trip example: [a] direct, [b] dev, [c] peer. *)
Definition abcProject : World :=
  machine
    [ ("/proj", Dir);
      ("/proj/package.json",
       File (Some (manifest "proj" None
                     (Some [("a", "1.0.0")]) (Some [("b", "2.0.0")])
                     (Some [("c", "3.0.0")])))) ]
    ["/proj"] None.

(** A manifest one of whose dependency names is a number. *)
Definition numericProject : World :=
  machine
    [ ("/proj", Dir);
      ("/proj/package.json",
       File (Some (manifest "proj" None
                     (Some [("b", "1.0.0"); ("1", "2.0.0")]) None None))) ]
    ["/proj"] None.

(** ** The statements about the tree as the specification words them *)

(** Every node can be expanded exactly when [<ownerDir>/node_modules/<name>]
    is a directory. *)
Definition flagsFollowOwner (this : DepNodeProvider.t) (w : World) : Prop :=
  forall element s nodes d,
    fst (DepNodeProvider.getChildren this w element s) = Ok nodes ->
    In d nodes ->
    (Dependency.isInstalledLocally d = true <->
     isDirectory w (ownerInstallPath d) = true).

(** The children of a node are the names declared by the manifest of the
    copy installed under the node's own owner directory. *)
Definition childrenFollowOwner (this : DepNodeProvider.t) (w : World)
    (element : Dependency.t) : Prop :=
  forall s m children,
    parseFile w (Path.join [ownerInstallPath element; "package.json"]) = Ok m ->
    fst (DepNodeProvider.getChildren this w (Some element) s) = Ok children ->
    map Dependency.label children = declaredNames m.

(** The nodes of a manifest come group by group, each group in the order
    the manifest inserted its keys. *)
Definition rootsInInsertionOrder (this : DepNodeProvider.t) (w : World)
    (packageJsonPath : string) : Prop :=
  forall m roots,
    parseFile w packageJsonPath = Ok m ->
    DepNodeProvider.getDepsInPackageJson this w packageJsonPath = Ok roots ->
    tags roots =
      tagged peer (insertionOrder (NpmPackageInfo.peerDependencies m)) ++
      tagged dep (insertionOrder (NpmPackageInfo.dependencies m)) ++
      tagged dev (insertionOrder (NpmPackageInfo.devDependencies m)).

(** ** Reading the log and the registry *)

(** What a run from [s] to [s'] appended to the log. *)
Definition newEvents (s s' : State) : list Event :=
  skipn (length (log s)) (log s').

(** The run made no request to the registry. *)
Definition noFetch (s s' : State) : Prop :=
  forall u, ~ In (Fetch u) (newEvents s s').

(** [response.ok] *)
Definition okStatus (status : Z) : bool := (200 <=? status) && (status <=? 299).

(** The data a JSON body stands for: [None] for a falsy value. *)
Definition bodyData (body : JsonBody) : option (option NpmPackageInfo.t) :=
  match body with
  | Malformed => None
  | Falsy => Some None
  | Parsed data => Some (Some data)
  end.

(** The request succeeded: a 2xx answer whose body is JSON. *)
Definition fetched (w : World) (u : string) (at_ : Z)
    (data : option NpmPackageInfo.t) (took : Z) : Prop :=
  exists status statusText body,
    fetch w u at_ = (Response status statusText body, took) /\
    okStatus status = true /\ bodyData body = Some data.

(** The request failed: no answer, a non-2xx answer, or a body that is not
    JSON. *)
Definition fetchFailed (w : World) (u : string) (at_ : Z) : Prop :=
  match fst (fetch w u at_) with
  | NetworkFailure => True
  | Response status _ body => okStatus status = false \/ body = Malformed
  end.

(** The cache key as the specification words it: the name, or name and
    version joined by [@] when a version is given. *)
Definition specifiedKey (packageName : string) (version : option string) : string :=
  match version with
  | Some v => packageName +:+ "@" +:+ v
  | None => packageName
  end.

(** A registry that serves every package, release 1 until the clock shows
    one hour and release 2 from then on; every request takes 120 ms. *)
Definition release (packageName version : string) : NpmPackageInfo.t :=
  NpmPackageInfo.mk (Some packageName) (Some version) None None None None.

Definition registry : World :=
  {| fs := fun _ => None;
     realpath := fun _ => None;
     cwd := "/";
     requireResolve := fun _ _ => None;
     execOk := fun _ _ => false;
     execTime := fun _ _ => 40;
     taskExit := fun _ _ => Some (Some 0);
     taskTime := fun _ _ => 2000;
     fetch := fun _ at_ =>
                (Response 200 "OK"
                   (Parsed (release "lodash"
                              (if at_ <? 3600000 then "1.0.0" else "2.0.0"))),
                 120);
     workspaceFolders := [];
     activeEditor := None |}.

(** The state after a first lookup of [lodash] at time 0, 61 minutes after
    the entry was stored. *)
Definition afterFirstLookup : State :=
  snd (NpmApiService.getPackageInfo registry "lodash" None start).

Definition sixtyOneMinutesLater : State :=
  snd (elapse (61 * 60 * 1000) afterFirstLookup).

(** ** Reading the locator *)

(** The directory the manifest search starts from: the real directory of
    the resolved entry point, or the starting directory when the probe is
    skipped or fails. *)
Definition candidateRoot (w : World) (moduleName dir : string) : string :=
  if Str.includes moduleName "@types/" then dir
  else
    match requireResolve w moduleName dir with
    | Some entry =>
        match realpath w (Path.dirname entry) with
        | Some real => if Str.truthy real then real else dir
        | None => dir
        end
    | None => dir
    end.

(** The manifest at [p] can be read: its real path holds a JSON manifest. *)
Definition readsAs (w : World) (p : string) (info : NpmPackageInfo.t) : Prop :=
  exists real, realpath w p = Some real /\ fs w real = Some (File (Some info)).

(** The first two steps of the search take the manifest at [p]: it exists,
    can be read, and its [name] is the dependency name. *)
Definition accepts (w : World) (moduleName p : string) (info : NpmPackageInfo.t)
  : Prop :=
  pathExists w p = true /\ readsAs w p info /\
  NpmPackageInfo.name info = Some moduleName.

(** The specification's wording of the last resort: [null] comes back only
    if the registry, too, has nothing. *)
Definition nullOnlyAfterRegistry (this : DepNodeProvider.t) (w : World)
    (moduleName startDir : string) (s : State) : Prop :=
  fst (DepNodeProvider.findPackageJson this w moduleName startDir s) = None ->
  fst (NpmApiService.getPackageInfo w moduleName None s) = None.

(** A workspace in which the installed manifest of [left-pad] is damaged,
    while the registry serves the package. *)
Definition damagedInstall : World :=
  {| fs := lookupFile [ ("/ws", Dir);
                        ("/ws/node_modules", Dir);
                        ("/ws/node_modules/left-pad", Dir);
                        ("/ws/node_modules/left-pad/package.json", File None) ];
     realpath := fun p => Some p;
     cwd := "/";
     requireResolve := fun _ _ => None;
     execOk := fun _ _ => false;
     execTime := fun _ _ => 40;
     taskExit := fun _ _ => Some (Some 0);
     taskTime := fun _ _ => 2000;
     fetch := fun _ _ =>
                (Response 200 "OK" (Parsed (release "left-pad" "1.3.0")), 120);
     workspaceFolders := ["/ws"];
     activeEditor := None |}.

(** A workspace with [left-pad] installed under the root, its entry point
    in a [dist] directory of its own. *)
Definition hoistedInstall : World :=
  {| fs := lookupFile
             [ ("/ws", Dir);
               ("/ws/package.json", File (Some (manifest "app" None None None None)));
               ("/ws/node_modules", Dir);
               ("/ws/node_modules/left-pad", Dir);
               ("/ws/node_modules/left-pad/package.json",
                File (Some (release "left-pad" "1.3.0")));
               ("/ws/node_modules/left-pad/dist", Dir);
               ("/ws/node_modules/left-pad/dist/index.js", File None) ];
     realpath := fun p => Some p;
     cwd := "/";
     requireResolve := fun name _ =>
                         if String.eqb name "left-pad"
                         then Some "/ws/node_modules/left-pad/dist/index.js"
                         else None;
     execOk := fun _ _ => false;
     execTime := fun _ _ => 40;
     taskExit := fun _ _ => Some (Some 0);
     taskTime := fun _ _ => 2000;
     fetch := fun _ _ => (NetworkFailure, 0);
     workspaceFolders := ["/ws"];
     activeEditor := None |}.

(** ** Reading the removal *)

(** Some dependency group of the manifest holds a truthy value under [k]:
    the test [removePackage] makes. *)
Definition holds (pkg : NpmPackageInfo.t) (k : string) : bool :=
  Js.truthy (Js.getOpt (NpmPackageInfo.dependencies pkg) k)
  || Js.truthy (Js.getOpt (NpmPackageInfo.devDependencies pkg) k)
  || Js.truthy (Js.getOpt (NpmPackageInfo.peerDependencies pkg) k).

Definition groups (pkg : NpmPackageInfo.t) : list (option Js.object) :=
  [ NpmPackageInfo.dependencies pkg; NpmPackageInfo.devDependencies pkg;
    NpmPackageInfo.peerDependencies pkg ].

(** [k] is a key of some dependency group of the manifest. *)
Definition declaredIn (pkg : NpmPackageInfo.t) (k : string) : Prop :=
  exists g version, In (Some g) (groups pkg) /\ Js.getOwn g k = Some version.


(** The probes of the detector for executables on the path. *)
Definition isWhichProbe (e : Event) : Prop :=
  exists cwd, e = Exec "which pnpm" cwd \/ e = Exec "which yarn" cwd.


(** A child process or a shell task. *)
Definition isShellCommand (e : Event) : Prop :=
  match e with
  | Exec _ _ | Task _ _ => True
  | _ => False
  end.


(** The specification's wording of the types step: the task that runs
    includes the removal of the types companion exactly when that companion
    is declared. *)
Definition typesStepFollowsDeclaration (w : World) (packageName dir : string)
    (s : State) : Prop :=
  forall pkg,
    parseFile w (Path.join [dir; "package.json"]) = Ok pkg ->
    (declaredIn pkg ("@types/" +:+ packageName) <->
     exists manager,
       In (Task dir (NpmQuickPickProvider.buildRemoveCommand manager packageName true))
          (newEvents s (snd (NpmQuickPickProvider.removePackage w packageName dir s)))).

(** A project that declares [axios], and its types companion with an empty
    version range. *)
Definition axiosProject : World :=
  machine
    [ ("/proj", Dir);
      ("/proj/package.json",
       File (Some (manifest "proj" None
                     (Some [("axios", "^1.6.0")])
                     (Some [("@types/axios", EmptyString)]) None))) ]
    ["/proj"] None.

(** A project that declares [axios] and its types companion. *)
Definition typedProject : World :=
  machine
    [ ("/proj", Dir);
      ("/proj/package.json",
       File (Some (manifest "proj" None
                     (Some [("axios", "^1.6.0")])
                     (Some [("@types/axios", "^0.14.0")]) None)));
      ("/proj/yarn.lock", File None) ]
    ["/proj"] None.

(** A workspace in which [node_modules/x] is a plain file. *)
Definition strayFile : World :=
  machine
    [ ("/ws", Dir);
      ("/ws/package.json",
       File (Some (manifest "app" None (Some [("x", "^1.0.0")]) None None)));
      ("/ws/node_modules", Dir);
      ("/ws/node_modules/x", File None) ]
    ["/ws"] None.

(** A machine without files and without network. *)
Definition offline : World := machine [] [] None.

(** ** The measure of the upward walk *)

(** ["."] and ["/"] are where [path.dirname] stops; every other path is
    strictly above its [dirname] in this measure. *)
Definition walkMeasure (p : string) : nat :=
  if String.eqb p "." || String.eqb p "/" then O else S (String.length p).

(** * The rest of the tree view and of the registry client *)

(** ** [class NodeDependenciesView] *)

Module NodeDependenciesView.

(** The view object: its tree provider and the manifest path it showed
    last ([null] at the start and while the view is hidden). *)
Record t : Type := {
  depNodeProvider : DepNodeProvider.t;
  lastActivePackageJson : option string
}.

(** The constructor: the provider gets the first workspace folder, if any. *)
Definition new (w : World) : t :=
  {| depNodeProvider :=
       {| DepNodeProvider.workspaceRoot := head (workspaceFolders w) |};
     lastActivePackageJson := None |}.

(** [public getWorkspaceRoot()] *)
Definition getWorkspaceRoot (w : World) : M string :=
  match workspaceFolders w with
  | [] =>
      emit (ShowErrorMessage (Text "No workspace folder found")) ;;;
      ret EmptyString
  | root :: _ => ret root
  end.

(** [currentPackageJson !== this.lastActivePackageJson] *)
Definition differs (current : string) (last : option string) : bool :=
  match last with
  | Some shown => negb (String.eqb current shown)
  | None => true
  end.

(** [private handleDocumentChange()]: the view afterwards, and whether
    [depNodeProvider.refresh()] was called. *)
Definition handleDocumentChange (this : t) (w : World) : t * bool :=
  match DepNodeProvider.getRelevantPackageJsonPath (depNodeProvider this) w with
  | Some currentPackageJson =>
      if Str.truthy currentPackageJson
         && differs currentPackageJson (lastActivePackageJson this)
      then ({| depNodeProvider := depNodeProvider this;
               lastActivePackageJson := Some currentPackageJson |}, true)
      else (this, false)
  | None => (this, false)
  end.

(** [private enableDocumentListener()] *)
Definition enableDocumentListener (this : t) (w : World) : t * bool :=
  handleDocumentChange this w.

(** [private disableDocumentListener()] *)
Definition disableDocumentListener (this : t) : t :=
  {| depNodeProvider := depNodeProvider this; lastActivePackageJson := None |}.

(** The handler of [view.onDidChangeVisibility]. *)
Definition onDidChangeVisibility (this : t) (w : World) (visible : bool)
  : t * bool :=
  if visible then enableDocumentListener this w
  else (disableDocumentListener this, false).

(** The handler of [window.onDidChangeActiveTextEditor], with the current
    [view.visible]. *)
Definition onDidChangeActiveTextEditor (this : t) (w : World) (visible : bool)
  : t * bool :=
  if visible then handleDocumentChange this w else (this, false).

(** What [openPackageJsonInEditor] opens: the document and, for a node, the
    string it searches for. *)
Record Opened : Type := {
  document : string;
  searchString : option string
}.

Definition quote : string := String (ascii_of_nat 34) EmptyString.

(** [private async openPackageJsonInEditor(node?)] *)
Definition openPackageJsonInEditor (w : World) (node : option Dependency.t)
  : M (option Opened) :=
  workspaceRoot <- getWorkspaceRoot w ;;
  if negb (Str.truthy workspaceRoot) then ret None
  else
    let rootPackageJson := Path.join [workspaceRoot; "package.json"] in
    let packageJsonPath :=
      match node with
      | Some n =>
          if Str.truthy (Dependency.workspaceDir n) then
            let nodePackageJsonPath :=
              Path.join [Dependency.workspaceDir n; "package.json"] in
            if pathExists w nodePackageJsonPath then nodePackageJsonPath
            else rootPackageJson
          else rootPackageJson
      | None => rootPackageJson
      end in
    if pathExists w packageJsonPath then
      ret (Some {| document := packageJsonPath;
                   searchString :=
                     (fun n => quote +:+ Dependency.label n +:+ quote) <$> node |})
    else
      emit (ShowErrorMessage (Text "package.json not found")) ;;;
      ret None.

(** [private async removePackage(node)], given the button the user picks in
    the confirmation dialog; the result tells whether
    [depNodeProvider.refresh()] was called. *)
Definition removePackage (w : World) (node : Dependency.t)
    (answer : option string) : M bool :=
  emit (ShowWarningMessage
          (Text ("Are you sure you want to remove " +:+ Dependency.label node
                 +:+ "?"))) ;;;
  match answer with
  | Some button =>
      if negb (String.eqb button "Yes") then ret false
      else
        let packageDir := Dependency.workspaceDir node in
        if negb (Str.truthy packageDir) then
          emit (ShowErrorMessage
                  (Text "Failed to remove package: no package directory found")) ;;;
          ret false
        else
          removed <- NpmQuickPickProvider.removePackage w (Dependency.label node)
                       packageDir ;;
          match removed with
          | Ok _ => ret true
          | Throw e =>
              emit (ShowErrorMessage
                      (TextWithError "Failed to remove package: " e)) ;;;
              ret false
          end
  | None => ret false
  end.

(** [private async viewPackageInfo(node)]: the manifest the panel shows, if
    one is opened. *)
Definition viewPackageInfo (w : World) (node : Dependency.t)
  : M (option NpmPackageInfo.t) :=
  packageInfo <- NpmApiService.getPackageInfo w (Dependency.label node) None ;;
  match packageInfo with
  | Some info => ret (Some info)
  | None =>
      emit (ShowErrorMessage
              (Text ("Failed to load package information for " +:+
                     Dependency.label node))) ;;;
      ret None
  end.

End NodeDependenciesView.

(** ** [class NpmQuickPickProvider]: the actions of the quick pick *)

Module NpmQuickPickActions.

(** [packageName ? `${site}${encodeURIComponent(packageName)}` : home] *)
Definition page (site home packageName : string) : result string :=
  if Str.truthy packageName then
    match Uri.encodeURIComponent packageName with
    | Ok escaped => Ok (site +:+ escaped)
    | Throw e => Throw e
    end
  else Ok home.

(** [private static async handleBrowseAction(action, packageName)]: the
    address handed to [vscode.env.openExternal], if any. *)
Definition handleBrowseAction (action packageName : string)
  : result (option string) :=
  if String.eqb action "browse-npm" then
    match page "https://www.npmjs.com/search?q=" "https://www.npmjs.com/"
               packageName with
    | Ok npmUrl => Ok (Some npmUrl)
    | Throw e => Throw e
    end
  else if String.eqb action "browse-trends" then
    match page "https://npmtrends.com/" "https://npmtrends.com/" packageName with
    | Ok trendsUrl => Ok (Some trendsUrl)
    | Throw e => Throw e
    end
  else Ok None.

(** [private static async handleInstallAction(action, pkg)] *)
Definition handleInstallAction (w : World) (action : string) (pkg : IPackage.t)
  : M (result (option string)) :=
  if String.eqb action "install" then
    NpmQuickPickProvider.installPackage w pkg EmptyString ;;; ret (Ok None)
  else if String.eqb action "install-peer" then
    NpmQuickPickProvider.installPackage w pkg "--save-peer" ;;; ret (Ok None)
  else if String.eqb action "install-dev" then
    NpmQuickPickProvider.installPackage w pkg "--save-dev" ;;; ret (Ok None)
  else ret (handleBrowseAction action (IPackage.name pkg)).

End NpmQuickPickActions.

(** ** Reading the log of an installation or a removal *)

(** A child process or a shell task run in [dir]. *)
Definition runsIn (dir : string) (e : Event) : Prop :=
  exists command, e = Exec command dir \/ e = Task dir command.

(** The message both removal routines show when they fail. *)
Definition removalFailed (e : JsError) : Event :=
  ShowErrorMessage (TextWithError "Failed to remove package: " e).

(** The machine [w] with [pnpm] and [yarn] on the path as [tools] says,
    and every task ending as [exitCode] says. *)
Definition equipped (w : World) (tools : string -> bool)
    (exitCode : option (option Z)) : World :=
  {| fs := fs w;
     realpath := realpath w;
     cwd := cwd w;
     requireResolve := requireResolve w;
     execOk := fun command _ => tools command;
     execTime := execTime w;
     taskExit := fun _ _ => exitCode;
     taskTime := taskTime w;
     fetch := fetch w;
     workspaceFolders := workspaceFolders w;
     activeEditor := activeEditor w |}.

(** Only [yarn] is on the path. *)
Definition yarnOnly (command : string) : bool := String.eqb command "which yarn".

(** A search result to install. *)
Definition lodash : IPackage.t :=
  IPackage.mk "lodash" "4.17.21" "Lodash modular utilities." ["modules"; "stdlib"]
              "2021-02-20T15:42:16.891Z"
              {| IPackage.npm := "https://www.npmjs.com/package/lodash";
                 IPackage.homepage := "https://lodash.com/";
                 IPackage.repository := "https://github.com/lodash/lodash";
                 IPackage.bugs := "https://github.com/lodash/lodash/issues" |}
              {| IPackage.username := "bnjmnt4n"; IPackage.email := "benjamin@dev.ofcr.se" |}
              [].

(** The project of [typedProject] on a machine where every task ends with
    exit code 1. *)
Definition failingProject : World :=
  equipped typedProject (fun _ => false) (Some (Some 1)).

(** The same project on a machine where no task ends within the guard. *)
Definition hangingProject : World := equipped typedProject (fun _ => false) None.

(** The node of [axios] in the tree of that project. *)
Definition axiosNode : Dependency.t :=
  Dependency.new None_ "axios" (Js.str "^1.6.0") dep "/proj".

(** The view of the member package of [monorepo], freshly made. *)
Definition freshView : NodeDependenciesView.t := NodeDependenciesView.new monorepo.

(** The characters that end the host, the path or a query parameter of an
    address. *)
Definition isDelimiter (a : ascii) : bool :=
  existsb (Ascii.eqb a) ["/"; "?"; "#"; "&"; "="; "@"; ":"; " "]%char.

(** A workspace whose manifest is not JSON. *)
Definition brokenProject : World :=
  machine [ ("/proj", Dir); ("/proj/package.json", File None) ] ["/proj"] None.

(** The computation leaves every entry of the registry cache as it is. *)
Definition keeps {A} (m : M A) : Prop :=
  forall s, cache (snd (m s)) = cache s.

(** The project of [typedProject] on a machine where every task ends
    without an exit code. *)
Definition silentExitProject : World :=
  equipped typedProject (fun _ => false) (Some None).

(** A workspace [/ws] beside a directory [/ws2] that is no part of it; the
    active editor shows a file of a package in [/ws2]. *)
Definition siblingWorkspace : World :=
  machine
    [ ("/ws", Dir);
      ("/ws/package.json", File (Some (manifest "root" None None None None)));
      ("/ws2", Dir);
      ("/ws2/a", Dir);
      ("/ws2/a/package.json", File (Some (manifest "a" None None None None)));
      ("/ws2/a/index.ts", File None) ]
    ["/ws"] (Some "/ws2/a/index.ts").

(** A name that holds the surrogate code unit [U+D800] without a partner. *)
Definition loneHigh : string :=
  "pkg" +:+ String (ascii_of_N 237) (String (ascii_of_N 160)
                      (String (ascii_of_N 128) EmptyString)).

(** A registry that answers every request with the JSON value [null], in
    120 ms. *)
Definition nullRegistry : World :=
  {| fs := fun _ => None;
     realpath := fun _ => None;
     cwd := "/";
     requireResolve := fun _ _ => None;
     execOk := fun _ _ => false;
     execTime := fun _ _ => 40;
     taskExit := fun _ _ => Some (Some 0);
     taskTime := fun _ _ => 2000;
     fetch := fun _ _ => (Response 200 "OK" Falsy, 120);
     workspaceFolders := [];
     activeEditor := None |}.

(** The node of a package of which the registry knows nothing. *)
Definition ghostNode : Dependency.t :=
  Dependency.new None_ "ghost" (Js.str "^1.0.0") dep "/proj".

(** No key of the cache holds a surrogate without its partner: the keys
    are keys of lookups whose address could be built. *)
Definition wellKeyed (s : State) : Prop :=
  forall key, is_Some (cache s !! key) -> Uri.loneSurrogate key = false.


(** * Properties *)

(** ** The monad and the log *)

Lemma emits_ret {A} (P : Event -> Prop) (a : A) : emits P (ret a).
Proof. intros s. exists []. simpl. rewrite app_nil_r. auto. Qed.

Lemma emits_emit (P : Event -> Prop) (e : Event) : P e -> emits P (emit e).
Proof. intros H s. exists [e]. simpl. auto. Qed.

Lemma emits_getState (P : Event -> Prop) : emits P getState.
Proof. intros s. exists []. simpl. rewrite app_nil_r. auto. Qed.

Lemma emits_setCache (P : Event -> Prop) c : emits P (setCache c).
Proof. intros s. exists []. simpl. rewrite app_nil_r. auto. Qed.

Lemma emits_elapse (P : Event -> Prop) ms : emits P (elapse ms).
Proof. intros s. exists []. simpl. rewrite app_nil_r. auto. Qed.

Lemma emits_bind {A B} (P : Event -> Prop) (m : M A) (k : A -> M B) :
  emits P m -> (forall a, emits P (k a)) -> emits P (bind m k).
Proof.
  intros Hm Hk s. unfold bind.
  destruct (Hm s) as (evs1 & E1 & F1).
  destruct (m s) as [a s1] eqn:Em. simpl in E1.
  destruct (Hk a s1) as (evs2 & E2 & F2).
  exists (evs1 ++ evs2). split.
  - rewrite E2, E1. now rewrite app_assoc.
  - apply Forall_app. auto.
Qed.

Lemma emits_execAsync (P : Event -> Prop) w command cwd :
  P (Exec command cwd) -> emits P (execAsync w command cwd).
Proof.
  intros H. unfold execAsync. apply emits_bind.
  - now apply emits_emit.
  - intros _. apply emits_bind.
    + apply emits_elapse.
    + intros _. apply emits_ret.
Qed.

Create HintDb emits.
#[local] Hint Resolve emits_ret emits_getState emits_setCache emits_elapse : emits.

(** Break a computation down along binds and case distinctions, leaving the
    side conditions on the single events. *)
Ltac emits_step :=
  match goal with
  | |- emits _ (bind _ _) => apply emits_bind; [| intros ?]
  | |- emits _ (emit _) => apply emits_emit
  | |- emits _ (execAsync _ _ _) => apply emits_execAsync
  | |- emits _ (match ?x with _ => _ end) => destruct x eqn:?
  | |- emits _ (if ?x then _ else _) => destruct x eqn:?
  | |- emits _ (let '(_, _) := ?x in _) => destruct x eqn:?
  | |- emits _ _ => solve [auto with emits]
  end.

(** ** The upward walk terminates within its fuel *)

Lemma length_chars s : length (Str.chars s) = String.length s.
Proof.
  unfold Str.chars. induction s as [| a s IH]; [reflexivity |].
  cbn. now rewrite IH.
Qed.

Lemma length_ofChars l : String.length (Str.ofChars l) = length l.
Proof.
  unfold Str.ofChars. induction l as [| a l IH]; [reflexivity |].
  cbn. now rewrite IH.
Qed.

Lemma dropWhile_length {A} (f : A -> bool) l :
  (length (Path.dropWhile f l) <= length l)%nat.
Proof.
  induction l as [| a l IH]; [reflexivity |].
  cbn. destruct (f a); [| reflexivity]. cbn. lia.
Qed.

Lemma dropWhile_head {A} (f : A -> bool) l a rest :
  Path.dropWhile f l = a :: rest -> f a = false.
Proof.
  induction l as [| b l IH]; [discriminate |].
  cbn. destruct (f b) eqn:E; [exact IH |].
  intros [= <- _]. exact E.
Qed.

(** Skipping the trailing slashes and then the last segment removes at
    least one character besides the slash the scan stops at. *)
Lemma scan_length l a rest :
  Path.dropWhile (fun c => negb (Path.isSlash c)) (Path.dropWhile Path.isSlash l)
  = a :: rest ->
  (S (S (length rest)) <= length l)%nat.
Proof.
  intros H.
  pose proof (dropWhile_length Path.isSlash l) as L.
  destruct (Path.dropWhile Path.isSlash l) as [| x tail] eqn:X; [discriminate |].
  apply dropWhile_head in X. cbn in H. rewrite X in H. cbn in H.
  pose proof (dropWhile_length (fun c => negb (Path.isSlash c)) tail) as L'.
  rewrite H in L'. cbn in L, L'. lia.
Qed.

Lemma walkMeasure_le p : (walkMeasure p <= S (String.length p))%nat.
Proof. unfold walkMeasure. destruct (_ || _); lia. Qed.

Lemma walkMeasure_long p : (2 <= String.length p)%nat -> walkMeasure p = S (String.length p).
Proof.
  intros L. unfold walkMeasure.
  destruct p as [| a [| b p]]; cbn in L; try lia.
  destruct (String.eqb_spec (String a (String b p)) ".") as [C | _];
    [discriminate |].
  destruct (String.eqb_spec (String a (String b p)) "/") as [C | _];
    [discriminate |].
  reflexivity.
Qed.

(** [path.dirname] either returns its argument or goes down in the
    measure. *)
Lemma dirname_decreases p :
  Path.dirname p <> p -> (walkMeasure (Path.dirname p) < walkMeasure p)%nat.
Proof.
  destruct p as [| first body]; [intros _; cbn; lia |].
  unfold Path.dirname.
  destruct (Path.dropWhile _ (Path.dropWhile Path.isSlash (rev (Str.chars body))))
    as [| a before] eqn:Scan.
  - (* no slash in front of the last segment *)
    intros D.
    assert (R : walkMeasure (if Path.isSlash first then "/" else ".") = O)
      by (destruct (Path.isSlash first); reflexivity).
    rewrite R. unfold walkMeasure.
    destruct (String.eqb_spec (String first body) ".") as [E | _].
    { exfalso. injection E as -> ->. apply D. reflexivity. }
    destruct (String.eqb_spec (String first body) "/") as [E | _].
    { exfalso. injection E as -> ->. apply D. reflexivity. }
    cbn. lia.
  - intros _.
    apply scan_length in Scan. rewrite length_rev, length_chars in Scan.
    rewrite (walkMeasure_long (String first body)) by (cbn; lia).
    destruct before as [| b before].
    + destruct (Path.isSlash first).
      * cbn in *. lia.
      * pose proof (walkMeasure_le (String first EmptyString)) as L. cbn in *. lia.
    + pose proof (walkMeasure_le
                    (String first (Str.ofChars (rev (b :: before))))) as L.
      cbn [String.length] in *.
      rewrite length_ofChars, length_rev in L. cbn [length] in *. lia.
Qed.

(** Fuel above the measure is never used up: the walk gives the same
    answer with any larger amount. *)
Lemma walkUp_fuel w rootPath n m dir :
  (walkMeasure dir < n)%nat -> (walkMeasure dir < m)%nat ->
  walkUp w rootPath n dir = walkUp w rootPath m dir.
Proof.
  revert m dir. induction n as [| n IH]; intros m dir Hn Hm; [lia |].
  destruct m as [| m]; [lia |].
  cbn [walkUp].
  destruct (String.eqb_spec dir (Path.dirname dir)) as [E | D]; [reflexivity |].
  cbn [negb andb].
  destruct (Str.startsWith dir rootPath); [| reflexivity].
  destruct (pathExists w (Path.join [dir; "package.json"])); [reflexivity |].
  assert (L : (walkMeasure (Path.dirname dir) < walkMeasure dir)%nat).
  { apply dirname_decreases. congruence. }
  apply IH; lia.
Qed.

(** The fuel the two callers give is above the measure of the directory
    they start from, so their walks do not depend on it. *)
Lemma walkFuel_enough startPath :
  (walkMeasure (Path.dirname startPath) < walkFuel startPath)%nat.
Proof.
  unfold walkFuel.
  destruct (String.eqb_spec (Path.dirname startPath) startPath) as [E | D].
  - rewrite E. pose proof (walkMeasure_le startPath). lia.
  - pose proof (dirname_decreases startPath D).
    pose proof (walkMeasure_le startPath). lia.
Qed.

Lemma walkUp_complete w rootPath startPath extra :
  walkUp w rootPath (walkFuel startPath + extra) (Path.dirname startPath) =
  walkUp w rootPath (walkFuel startPath) (Path.dirname startPath).
Proof.
  pose proof (walkFuel_enough startPath).
  apply walkUp_fuel; lia.
Qed.

(** ** CommandBuilder *)

Lemma checkCommand_not_which manager packageName tool :
  NpmQuickPickProvider.checkCommand manager packageName <> "which " +:+ tool.
Proof. destruct manager; discriminate. Qed.

Lemma emits_detectPackageManager (P : Event -> Prop) w dir :
  P (Exec "which pnpm" dir) -> P (Exec "which yarn" dir) ->
  emits P (NpmQuickPickProvider.detectPackageManager w dir).
Proof.
  intros Hp Hy. unfold NpmQuickPickProvider.detectPackageManager.
  repeat emits_step; assumption.
Qed.

Lemma emits_executeWithTask (P : Event -> Prop) w cwd command manager :
  P (Task cwd command) ->
  emits P (NpmQuickPickProvider.executeWithTask w cwd command manager).
Proof.
  intros H. unfold NpmQuickPickProvider.executeWithTask.
  repeat emits_step; assumption.
Qed.

(** The command line of a peer install. *)
Lemma buildInstallCommand_peer manager pkg includeTypes :
  NpmQuickPickProvider.buildInstallCommand manager pkg "--save-peer" includeTypes =
  match manager with
  | npm => "npm install --save-peer "
  | pnpm => "pnpm add -P "
  | yarn => "yarn add -P "
  end +:+ IPackage.name pkg +:+ "@" +:+ IPackage.version pkg.
Proof.
  unfold NpmQuickPickProvider.buildInstallCommand.
  destruct manager, includeTypes; reflexivity.
Qed.

(** C5. For every package manager and every package, a peer install builds
    the single peer-install command, with or without a types companion
    requested (so [pnpm] on [react@18.0.0] gives ["pnpm add -P
    react@18.0.0"]), and [installPackage] with the peer install type never
    runs the existence probe for a types companion. *)
Theorem C5_peer_install_has_no_types_step :
  (forall manager pkg includeTypes,
      NpmQuickPickProvider.buildInstallCommand manager pkg "--save-peer" includeTypes =
      NpmQuickPickProvider.buildInstallCommand manager pkg "--save-peer" false /\
      NpmQuickPickProvider.buildInstallCommand manager pkg "--save-peer" includeTypes =
      match manager with
      | npm => "npm install --save-peer "
      | pnpm => "pnpm add -P "
      | yarn => "yarn add -P "
      end +:+ IPackage.name pkg +:+ "@" +:+ IPackage.version pkg) /\
  (forall description keywords date links publisher maintainers,
      NpmQuickPickProvider.buildInstallCommand pnpm
        (IPackage.mk "react" "18.0.0" description keywords date links publisher
                     maintainers)
        "--save-peer" true = "pnpm add -P react@18.0.0") /\
  (forall w pkg,
      emits (fun e => ~ isTypesProbe e)
            (NpmQuickPickProvider.installPackage w pkg "--save-peer")).
Proof.
  split; [| split].
  - intros manager pkg includeTypes.
    rewrite !buildInstallCommand_peer. auto.
  - reflexivity.
  - intros w pkg. unfold NpmQuickPickProvider.installPackage.
    repeat first
      [ apply emits_detectPackageManager
      | apply emits_executeWithTask
      | emits_step ];
      try (intros (m & n & c & E); inversion E; fail).
    all: try discriminate.
    all: intros (m & n & c & E); injection E as E _;
      symmetry in E; revert E.
    + apply (checkCommand_not_which m n "pnpm").
    + apply (checkCommand_not_which m n "yarn").
Qed.

(** C6. The install command for npm, the package [lodash] at version
    [4.17.21], a dev install with the types companion included, is exactly
    ["npm install --save-dev lodash@4.17.21 && npm install --save-dev
    @types/lodash"]; in general the command for a dev install with types
    under npm is the install of [name@version], then [&&], then the install
    of [@types/name] as a dev dependency. *)
Theorem C6_npm_dev_install_with_types :
  (forall description keywords date links publisher maintainers,
      NpmQuickPickProvider.buildInstallCommand npm
        (IPackage.mk "lodash" "4.17.21" description keywords date links publisher
                     maintainers)
        "--save-dev" true
      = "npm install --save-dev lodash@4.17.21 && npm install --save-dev @types/lodash") /\
  (forall pkg,
      NpmQuickPickProvider.buildInstallCommand npm pkg "--save-dev" true
      = ("npm install --save-dev " +:+ (IPackage.name pkg +:+ "@" +:+ IPackage.version pkg))
        +:+ " && " +:+ ("npm install --save-dev " +:+ ("@types/" +:+ IPackage.name pkg))).
Proof. split; reflexivity. Qed.

(** ** PackageLocator: the module-resolution probe *)

Lemma startsWith_includes s p : Str.startsWith s p = true -> Str.includes s p = true.
Proof.
  unfold Str.startsWith. intros H.
  destruct s; cbn [Str.includes]; rewrite H; reflexivity.
Qed.

Lemma emits_failed (P : Event -> Prop) e :
  (forall m, P (ShowErrorMessage m)) -> emits P (NpmApiService.failed e).
Proof.
  intros H. unfold NpmApiService.failed. repeat emits_step; auto.
Qed.

Lemma emits_getPackageInfo (P : Event -> Prop) w packageName version :
  (forall u, P (Fetch u)) ->
  (forall m, P (ShowErrorMessage m)) ->
  (forall m, P (ShowWarningMessage m)) ->
  emits P (NpmApiService.getPackageInfo w packageName version).
Proof.
  intros Hf He Hw. unfold NpmApiService.getPackageInfo, NpmApiService.store.
  repeat first [ apply emits_failed | emits_step ]; auto.
Qed.

Lemma emits_findPackageJson (P : Event -> Prop) this w moduleName startDir :
  (forall u, P (Fetch u)) ->
  (forall m, P (ShowErrorMessage m)) ->
  (forall m, P (ShowWarningMessage m)) ->
  emits P (DepNodeProvider.findPackageJson this w moduleName startDir).
Proof.
  intros Hf He Hw. unfold DepNodeProvider.findPackageJson.
  repeat first [ apply emits_getPackageInfo | emits_step ]; auto.
Qed.

(** C8. For every dependency name that begins with [@types/] and every
    starting directory, the candidate-root resolution returns no candidate
    without calling the module resolver, and [locate] is the manifest search
    from the starting directory itself; no resolution probe is logged. *)
Theorem C8_types_names_skip_the_probe :
  forall this w moduleName dir,
    Str.startsWith moduleName "@types/" = true ->
    DepNodeProvider.resolvePackageDir this w moduleName dir = ret None /\
    DepNodeProvider.getPackageJsonFromPath this w moduleName dir =
      DepNodeProvider.findPackageJson this w moduleName dir /\
    emits (fun e => ~ isResolve e)
          (DepNodeProvider.getPackageJsonFromPath this w moduleName dir).
Proof.
  intros this w moduleName dir H.
  apply startsWith_includes in H.
  assert (R : DepNodeProvider.resolvePackageDir this w moduleName dir = ret None).
  { unfold DepNodeProvider.resolvePackageDir. now rewrite H. }
  assert (G : DepNodeProvider.getPackageJsonFromPath this w moduleName dir =
              DepNodeProvider.findPackageJson this w moduleName dir).
  { unfold DepNodeProvider.getPackageJsonFromPath. rewrite R. reflexivity. }
  repeat split; [exact R | exact G |].
  rewrite G. apply emits_findPackageJson;
    intros ? (n & d & E); discriminate.
Qed.

Lemma C8_types_node_witness :
  Str.startsWith "@types/node" "@types/" = true /\
  DepNodeProvider.getPackageJsonFromPath (provider "/proj") bareProject
    "@types/node" "/proj" =
  DepNodeProvider.findPackageJson (provider "/proj") bareProject
    "@types/node" "/proj".
Proof.
  split; [reflexivity |].
  apply (C8_types_names_skip_the_probe (provider "/proj") bareProject
           "@types/node" "/proj").
  reflexivity.
Defined.

(** ** PackageManagerDetector *)

Section Detector.

Variables (w : World) (dir : string).

Let manifestPath := Path.join [dir; "package.json"].










End Detector.



(** ** Object.keys *)

Lemma indexKeys_plain (o : Js.object) :
  forallb (fun k => negb (Js.isIndex k)) (map fst o) = true ->
  Js.indexKeys o = [].
Proof.
  induction o as [| [k v] o IH]; [reflexivity |].
  cbn [map fst forallb]. intros H.
  apply andb_prop in H as [Hk Ho].
  cbn [Js.indexKeys fold_right fst]. fold (Js.indexKeys o).
  rewrite (IH Ho). unfold Js.isIndex in Hk.
  now destruct (Js.arrayIndex k).
Qed.

Lemma filter_all {A} (f : A -> bool) (l : list A) :
  forallb f l = true -> List.filter f l = l.
Proof.
  induction l as [| a l IH]; [reflexivity |].
  cbn. intros H. apply andb_prop in H as [Ha Hl].
  rewrite Ha. now rewrite (IH Hl).
Qed.

(** Without array-index keys, [Object.keys] is the insertion order. *)
Lemma keys_plain (o : Js.object) :
  forallb (fun k => negb (Js.isIndex k)) (map fst o) = true ->
  Js.keys o = map fst o.
Proof.
  intros H. unfold Js.keys.
  rewrite (indexKeys_plain o H). cbn. now apply filter_all.
Qed.

Lemma enumerationOrder_plain group :
  plainKeys group = true -> enumerationOrder group = insertionOrder group.
Proof.
  destruct group as [g |]; [| reflexivity].
  unfold plainKeys. cbn. apply keys_plain.
Qed.

Lemma insertIndex_perm n k l :
  Permutation (Js.insertIndex n k l) ((n, k) :: l).
Proof.
  induction l as [| [m k'] l IH]; [reflexivity |].
  cbn. destruct (n <=? m)%N; [reflexivity |].
  rewrite IH. apply perm_swap.
Qed.

Lemma indexKeys_perm (o : Js.object) :
  Permutation (map snd (Js.indexKeys o)) (List.filter Js.isIndex (map fst o)).
Proof.
  induction o as [| [k v] o IH]; [reflexivity |].
  cbn [Js.indexKeys fold_right fst map List.filter]. fold (Js.indexKeys o).
  unfold Js.isIndex at 1.
  destruct (Js.arrayIndex k) as [n |]; [| exact IH].
  rewrite insertIndex_perm. cbn. now rewrite IH.
Qed.

Lemma insertIndex_sorted n k l :
  Sorted N.le (map fst l) -> Sorted N.le (map fst (Js.insertIndex n k l)).
Proof.
  induction l as [| [m k'] l IH]; cbn; [repeat constructor |].
  intros S. destruct (N.leb_spec n m) as [L | G]; cbn.
  - constructor; [exact S | constructor; exact L].
  - inversion S as [| ? ? S' H]; subst.
    constructor; [now apply IH |].
    destruct l as [| [m' k''] l]; cbn.
    + constructor. lia.
    + destruct (N.leb_spec n m'); cbn; constructor; [lia |].
      now inversion H.
Qed.

(** The array-index keys come in ascending numeric order. *)
Lemma indexKeys_sorted (o : Js.object) : Sorted N.le (map fst (Js.indexKeys o)).
Proof.
  induction o as [| [k v] o IH]; [constructor |].
  cbn [Js.indexKeys fold_right fst]. fold (Js.indexKeys o).
  destruct (Js.arrayIndex k) as [n |]; [| exact IH].
  now apply insertIndex_sorted.
Qed.

Lemma filter_split_perm {A} (f : A -> bool) (l : list A) :
  Permutation (List.filter f l ++ List.filter (fun a => negb (f a)) l) l.
Proof.
  induction l as [| a l IH]; [reflexivity |].
  cbn. destruct (f a); cbn.
  - now rewrite IH.
  - rewrite <- Permutation_middle. now rewrite IH.
Qed.

(** [Object.keys] lists every own key once: it rearranges the insertion
    order. *)
Lemma keys_perm (o : Js.object) : Permutation (Js.keys o) (map fst o).
Proof.
  unfold Js.keys. rewrite indexKeys_perm. apply filter_split_perm.
Qed.

Lemma enumerationOrder_perm group :
  Permutation (enumerationOrder group) (insertionOrder group).
Proof. destruct group as [g |]; [apply keys_perm | reflexivity]. Qed.

(** ** DependencyTreeModel *)

Section Tree.

Variables (this : DepNodeProvider.t) (w : World) (root : string).
Hypothesis rootSet : DepNodeProvider.workspaceRoot this = Some root.

Lemma toDep_fields dir name version ty :
  let d := DepNodeProvider.toDep w root dir name version ty in
  Dependency.label d = name /\ Dependency.type d = ty /\
  Dependency.workspaceDir d = dir /\
  Dependency.collapsibleState d =
    (if pathExists w (Path.join [root; "node_modules"; name])
     then Collapsed else None_).
Proof.
  unfold DepNodeProvider.toDep.
  destruct (pathExists w (Path.join [root; "node_modules"; name]));
    repeat split; reflexivity.
Qed.

Lemma groupDeps_tags dir group ty :
  tags (DepNodeProvider.groupDeps w root dir group ty) =
  tagged ty (enumerationOrder group).
Proof.
  destruct group as [g |]; [| reflexivity].
  unfold DepNodeProvider.groupDeps, tags, tagged, enumerationOrder.
  rewrite map_map. apply map_ext. intros name.
  destruct (toDep_fields dir name (Js.get g name) ty) as (L & T & _).
  now rewrite L, T.
Qed.

Lemma groupDeps_node dir group ty d :
  In d (DepNodeProvider.groupDeps w root dir group ty) ->
  Dependency.workspaceDir d = dir /\
  Dependency.collapsibleState d =
    (if pathExists w (rootInstallPath root d) then Collapsed else None_).
Proof.
  destruct group as [g |]; [| intros []].
  unfold DepNodeProvider.groupDeps. rewrite in_map_iff.
  intros (name & <- & _).
  destruct (toDep_fields dir name (Js.get g name) ty) as (L & _ & D & C).
  unfold rootInstallPath. rewrite L. auto.
Qed.

Lemma getDepsInPackageJson_parsed p m :
  Str.truthy root = true ->
  parseFile w p = Ok m ->
  DepNodeProvider.getDepsInPackageJson this w p =
  Ok ((DepNodeProvider.groupDeps w root (Path.dirname p)
         (NpmPackageInfo.peerDependencies m) peer ++
       DepNodeProvider.groupDeps w root (Path.dirname p)
         (NpmPackageInfo.dependencies m) dep) ++
      DepNodeProvider.groupDeps w root (Path.dirname p)
        (NpmPackageInfo.devDependencies m) dev).
Proof.
  intros T P. unfold DepNodeProvider.getDepsInPackageJson.
  rewrite rootSet, T, P.
  assert (X : pathExists w p = true).
  { unfold parseFile in P. unfold pathExists.
    destruct (fs w p); [reflexivity | discriminate]. }
  now rewrite X.
Qed.

Lemma getDepsInPackageJson_node p nodes d :
  DepNodeProvider.getDepsInPackageJson this w p = Ok nodes ->
  In d nodes ->
  Dependency.workspaceDir d = Path.dirname p /\
  Dependency.collapsibleState d =
    (if pathExists w (rootInstallPath root d) then Collapsed else None_).
Proof.
  unfold DepNodeProvider.getDepsInPackageJson. rewrite rootSet.
  destruct (pathExists w p && Str.truthy root).
  - destruct (parseFile w p) as [m | e]; [| discriminate].
    intros [= <-] H.
    rewrite !in_app_iff in H.
    destruct H as [[H | H] | H]; eapply groupDeps_node; eassumption.
  - intros [= <-] [].
Qed.

(** Whatever [getChildren] answers is a listing by [getDepsInPackageJson],
    or empty. *)
Lemma getChildren_listing element s nodes :
  fst (DepNodeProvider.getChildren this w element s) = Ok nodes ->
  nodes = [] \/
  exists p, DepNodeProvider.getDepsInPackageJson this w p = Ok nodes.
Proof.
  unfold DepNodeProvider.getChildren. rewrite rootSet.
  destruct (negb (Str.truthy root)).
  { cbn. intros [= <-]. now left. }
  destruct element as [element |].
  - cbn. intros H. right. eauto.
  - destruct (DepNodeProvider.getRelevantPackageJsonPath this w) as [p |].
    + destruct (Str.truthy p).
      * cbn. intros H. right. eauto.
      * cbn. intros [= <-]. now left.
    + cbn. intros [= <-]. now left.
Qed.

(** C1, as the code has it.  For every node that [getChildren] returns,
    root or child, the node can be expanded exactly when
    [<workspaceRoot>/node_modules/<name>] exists (as any kind of entry),
    [workspaceRoot] being the provider's workspace root; it is a leaf
    otherwise. *)
Theorem C1_installed_flag_reads_workspace_root :
  forall element s nodes d,
    fst (DepNodeProvider.getChildren this w element s) = Ok nodes ->
    In d nodes ->
    (Dependency.isInstalledLocally d = true <->
     pathExists w (rootInstallPath root d) = true) /\
    Dependency.collapsibleState d =
      (if Dependency.isInstalledLocally d then Collapsed else None_).
Proof.
  intros element s nodes d H I.
  destruct (getChildren_listing element s nodes H) as [-> | (p & L)];
    [destruct I |].
  destruct (getDepsInPackageJson_node p nodes d L I) as (_ & C).
  unfold Dependency.isInstalledLocally. rewrite C.
  destruct (pathExists w (rootInstallPath root d)); split;
    try reflexivity; split; auto; discriminate.
Qed.

(** C2, as the code has it.  Expanding a node reads
    [<workspaceRoot>/node_modules/<name>/package.json], whatever the node's
    own owner directory is (two nodes of the same name have the same
    children): the children are the names that manifest declares, and each
    child's owner directory is the directory of that manifest.  This is
    the owner's installed copy when the owner directory is the workspace
    root. *)
Theorem C2_children_read_workspace_root :
  forall element s,
    Str.truthy root = true ->
    let installed :=
      Path.join [root; "node_modules"; Dependency.label element; "package.json"] in
    DepNodeProvider.getChildren this w (Some element) s =
      (DepNodeProvider.getDepsInPackageJson this w installed, s) /\
    (forall m,
        parseFile w installed = Ok m ->
        exists children,
          DepNodeProvider.getDepsInPackageJson this w installed = Ok children /\
          map Dependency.label children = declaredNames m /\
          Forall (fun d => Dependency.workspaceDir d = Path.dirname installed)
                 children) /\
    (forall other,
        Dependency.label other = Dependency.label element ->
        DepNodeProvider.getChildren this w (Some other) s =
        DepNodeProvider.getChildren this w (Some element) s) /\
    (Dependency.workspaceDir element = root ->
     installed =
       Path.join [Dependency.workspaceDir element; "node_modules";
                  Dependency.label element; "package.json"]).
Proof.
  intros element s T installed. repeat apply conj.
  - unfold DepNodeProvider.getChildren. rewrite rootSet, T. reflexivity.
  - intros m P. eexists. split; [apply getDepsInPackageJson_parsed; [exact T | exact P] |].
    split.
    + assert (E : forall l, map Dependency.label l = map fst (tags l)).
      { intros l. unfold tags. rewrite map_map. reflexivity. }
      rewrite E. unfold tags. rewrite !map_app. fold (tags).
      fold (tags (DepNodeProvider.groupDeps w root (Path.dirname installed)
                    (NpmPackageInfo.peerDependencies m) peer)).
      fold (tags (DepNodeProvider.groupDeps w root (Path.dirname installed)
                    (NpmPackageInfo.dependencies m) dep)).
      fold (tags (DepNodeProvider.groupDeps w root (Path.dirname installed)
                    (NpmPackageInfo.devDependencies m) dev)).
      rewrite !groupDeps_tags. unfold tagged, declaredNames.
      rewrite !map_map. cbn. rewrite !map_id. now rewrite app_assoc.
    + rewrite !Forall_app. repeat split;
        apply List.Forall_forall; intros d I;
        now destruct (groupDeps_node _ _ _ d I).
  - intros other L. unfold DepNodeProvider.getChildren.
    rewrite rootSet, T, L. reflexivity.
  - intros ->. reflexivity.
Qed.

(** C7, as the code has it.  The nodes of a manifest come in the group
    order peer, direct, dev, and within a group in the order of
    [Object.keys]: names that are array indices first, in ascending numeric
    order, then the other names in insertion order.  When no name is an
    array index this is the manifest's insertion order; in any case there
    is one node per entry. *)
Theorem C7_roots_by_group_in_enumeration_order :
  forall p m,
    Str.truthy root = true ->
    parseFile w p = Ok m ->
    exists roots,
      DepNodeProvider.getDepsInPackageJson this w p = Ok roots /\
      tags roots =
        tagged peer (enumerationOrder (NpmPackageInfo.peerDependencies m)) ++
        tagged dep (enumerationOrder (NpmPackageInfo.dependencies m)) ++
        tagged dev (enumerationOrder (NpmPackageInfo.devDependencies m)) /\
      (plainKeys (NpmPackageInfo.peerDependencies m) = true ->
       plainKeys (NpmPackageInfo.dependencies m) = true ->
       plainKeys (NpmPackageInfo.devDependencies m) = true ->
       tags roots =
         tagged peer (insertionOrder (NpmPackageInfo.peerDependencies m)) ++
         tagged dep (insertionOrder (NpmPackageInfo.dependencies m)) ++
         tagged dev (insertionOrder (NpmPackageInfo.devDependencies m))) /\
      Permutation
        (tags roots)
        (tagged peer (insertionOrder (NpmPackageInfo.peerDependencies m)) ++
         tagged dep (insertionOrder (NpmPackageInfo.dependencies m)) ++
         tagged dev (insertionOrder (NpmPackageInfo.devDependencies m))).
Proof.
  intros p m T P. eexists.
  split; [apply getDepsInPackageJson_parsed; [exact T | exact P] |].
  assert (E : forall a b c : list Dependency.t,
             tags ((a ++ b) ++ c) = tags a ++ tags b ++ tags c).
  { intros a b c. unfold tags. now rewrite !map_app, app_assoc. }
  rewrite E, !groupDeps_tags. split; [reflexivity |]. split.
  - intros H1 H2 H3. now rewrite !enumerationOrder_plain.
  - unfold tagged.
    repeat apply Permutation_app; apply Permutation_map, enumerationOrder_perm.
Qed.

End Tree.

(** The editor on a file of the member package makes the member's manifest
    the relevant one, and [z] one of its root nodes. *)
Example monorepo_roots :
  DepNodeProvider.getRelevantPackageJsonPath (provider "/ws") monorepo =
    Some "/ws/packages/a/package.json" /\
  exists roots,
    fst (DepNodeProvider.getChildren (provider "/ws") monorepo None start) = Ok roots /\
    tags roots = [("x", dep); ("y", dep); ("z", dep)] /\
    In zNode roots.
Proof.
  split; [reflexivity |]. eexists. split; [reflexivity |].
  split; [reflexivity |]. right. right. left. reflexivity.
Qed.

Lemma C1_monorepo_witness :
  Dependency.isInstalledLocally zNode = true <->
  pathExists monorepo (rootInstallPath "/ws" zNode) = true.
Proof.
  refine (proj1 (C1_installed_flag_reads_workspace_root
                   (provider "/ws") monorepo "/ws" eq_refl
                   None start _ zNode eq_refl _)).
  right. right. left. reflexivity.
Defined.

(** In the monorepo, [x] is shown as expandable although the member package
    has no [node_modules/x], and [y] as a leaf although it has
    [node_modules/y]. *)
Lemma C1_monorepo_counterexample : ~ flagsFollowOwner (provider "/ws") monorepo.
Proof.
  intros H.
  pose (xNode := Dependency.new Collapsed "x" (Js.str "^1.0.0") dep "/ws/packages/a").
  assert (I : In xNode [xNode;
                        Dependency.new None_ "y" (Js.str "^1.0.0") dep "/ws/packages/a";
                        zNode]) by (left; reflexivity).
  destruct (H None start _ xNode eq_refl I) as [Hx _].
  specialize (Hx eq_refl). vm_compute in Hx. discriminate Hx.
Qed.

Lemma C2_monorepo_witness :
  DepNodeProvider.getChildren (provider "/ws") monorepo (Some zNode) start =
  (DepNodeProvider.getDepsInPackageJson (provider "/ws") monorepo
     "/ws/node_modules/z/package.json", start).
Proof.
  refine (proj1 (C2_children_read_workspace_root
                   (provider "/ws") monorepo "/ws" eq_refl zNode start _)).
  reflexivity.
Defined.

(** In the monorepo, expanding [z] under the member package lists [q], the
    dependency of the copy under the workspace root, not [p], the
    dependency of the member's own copy. *)
Lemma C2_monorepo_counterexample :
  ~ childrenFollowOwner (provider "/ws") monorepo zNode.
Proof.
  intros H.
  specialize (H start _ _ eq_refl eq_refl).
  vm_compute in H. discriminate H.
Qed.

Lemma C7_abc_witness :
  exists roots,
    DepNodeProvider.getDepsInPackageJson (provider "/proj") abcProject
      "/proj/package.json" = Ok roots /\
    tags roots = [("c", peer); ("a", dep); ("b", dev)].
Proof.
  destruct (C7_roots_by_group_in_enumeration_order
              (provider "/proj") abcProject "/proj" eq_refl
              "/proj/package.json" _ eq_refl eq_refl)
    as (roots & E & T & _).
  exists roots. split; [exact E | exact T].
Defined.

(** A manifest that declares [b] and then [1] shows [1] first. *)
Lemma C7_numeric_counterexample :
  ~ rootsInInsertionOrder (provider "/proj") numericProject "/proj/package.json".
Proof.
  intros H.
  specialize (H _ _ eq_refl eq_refl).
  vm_compute in H. discriminate H.
Qed.

(** ** RegistryClient: the metadata cache *)

Section Cache.

Variables (w : World) (packageName : string) (version : option string).

Let key := NpmApiService.cacheKey packageName version.
Let lookup := NpmApiService.getPackageInfo w packageName version.

Lemma newEvents_app s s' evs : log s' = log s ++ evs -> newEvents s s' = evs.
Proof.
  intros E. unfold newEvents. rewrite E.
  rewrite skipn_app, skipn_all, Nat.sub_diag. reflexivity.
Qed.

(** The key of the code is the key of the specification, for every
    version that is not the empty string. *)
Lemma cacheKey_specified :
  version <> Some EmptyString ->
  NpmApiService.cacheKey packageName version = specifiedKey packageName version.
Proof.
  intros Given. unfold NpmApiService.cacheKey, specifiedKey.
  destruct version as [[| c v] |]; [congruence | reflexivity | reflexivity].
Qed.

Lemma getPackageInfo_hit s data :
  NpmApiService.fresh s key = Some data -> lookup s = (data, s).
Proof.
  intros F. unfold lookup, NpmApiService.getPackageInfo, bind, getState.
  fold key. now rewrite F.
Qed.

(** Without a fresh entry, a name or version that cannot be encoded ends
    the lookup before any request. *)
Lemma getPackageInfo_unencodable s e :
  NpmApiService.fresh s key = None ->
  NpmApiService.url packageName version = Throw e ->
  lookup s =
  (None,
   {| cache := cache s; now := now s;
      log := log s ++
             [ShowErrorMessage
                (TextWithError "Failed to fetch package information: " e)] |}).
Proof.
  intros F U. unfold lookup, NpmApiService.getPackageInfo, bind, getState.
  fold key. rewrite F, U. reflexivity.
Qed.

(** A successful request stores what it got under the key, stamped with
    the time at which the answer arrived. *)
Lemma getPackageInfo_miss_fetched s u data took :
  NpmApiService.fresh s key = None ->
  NpmApiService.url packageName version = Ok u ->
  fetched w u (now s) data took ->
  lookup s =
  (data,
   {| cache := <[key := (data, now s + took)]> (cache s);
      now := now s + took;
      log := log s ++ [Fetch u] |}).
Proof.
  intros F U (status & statusText & body & E & O & B).
  unfold lookup, NpmApiService.getPackageInfo, NpmApiService.store, bind, getState.
  fold key. rewrite F, U. cbn. rewrite E. cbn.
  unfold okStatus in O. rewrite O.
  destruct body as [| | parsed]; cbn in B; [discriminate | |];
    injection B as <-; reflexivity.
Qed.

(** A failed request leaves the cache as it was, shows one message and
    yields [null]. *)
Lemma getPackageInfo_miss_failed s u :
  NpmApiService.fresh s key = None ->
  NpmApiService.url packageName version = Ok u ->
  fetchFailed w u (now s) ->
  fst (lookup s) = None /\ cache (snd (lookup s)) = cache s /\
  now (snd (lookup s)) = now s + snd (fetch w u (now s)) /\
  exists message,
    log (snd (lookup s)) = log s ++ [Fetch u; message] /\
    (message =
       ShowWarningMessage
         (Text ("Package '" +:+ packageName +:+ "' not found on npm registry")) \/
     exists e,
       message =
       ShowErrorMessage (TextWithError "Failed to fetch package information: " e)).
Proof.
  intros F U. unfold fetchFailed.
  unfold lookup, NpmApiService.getPackageInfo, bind, getState.
  fold key. rewrite F, U. cbn.
  destruct (fetch w u (now s)) as [[| status statusText body] took]; cbn.
  - intros _. repeat split. eexists. rewrite <- app_assoc.
    split; [reflexivity |]. right. eauto.
  - unfold okStatus.
    destruct ((200 <=? status) && (status <=? 299)) eqn:O.
    + intros [C | ->]; [discriminate |]. cbn.
      repeat split. eexists. rewrite <- app_assoc.
      split; [reflexivity |]. right. eauto.
    + intros _. destruct (status =? 404); cbn;
        repeat split; eexists; rewrite <- app_assoc;
        (split; [reflexivity |]); [now left | right; eauto].
Qed.

Lemma fetched_or_failed u s :
  (exists data took, fetched w u (now s) data took) \/ fetchFailed w u (now s).
Proof.
  unfold fetched, fetchFailed.
  destruct (fetch w u (now s)) as [[| status statusText body] took]; cbn.
  - now right.
  - destruct (okStatus status) eqn:O; [| right; now left].
    destruct body as [| | parsed]; [right; now right | |]; left.
    + exists None, took, status, statusText, Falsy. auto.
    + exists (Some parsed), took, status, statusText, (Parsed parsed). auto.
Qed.

(** Without a fresh entry the registry is asked, once and first of all,
    when the address can be built. *)
Lemma getPackageInfo_miss_log s u :
  NpmApiService.fresh s key = None ->
  NpmApiService.url packageName version = Ok u ->
  exists rest,
    log (snd (lookup s)) = log s ++ Fetch u :: rest /\
    Forall (fun e => ~ isFetch e) rest.
Proof.
  intros F U.
  destruct (fetched_or_failed u s) as [(data & took & H) | H].
  - rewrite (getPackageInfo_miss_fetched s u data took F U H). cbn.
    exists []. auto.
  - destruct (getPackageInfo_miss_failed s u F U H)
      as (_ & _ & _ & message & E & Kind).
    exists [message]. split; [exact E |].
    constructor; [| constructor].
    destruct Kind as [-> | (e & ->)]; intros (x & C); discriminate.
Qed.

Lemma fresh_entry s data timestamp :
  cache s !! key = Some (data, timestamp) ->
  NpmApiService.fresh s key =
  if now s - timestamp <? NpmApiService.CACHE_DURATION then Some data else None.
Proof. intros C. unfold NpmApiService.fresh. now rewrite C. Qed.

(** C9. The cache is keyed by the name, or by name and version joined by
    [@] when a version is given.  For every such key that has an entry,
    the lookup returns the cached data without a request to the registry
    if and only if the entry is less than one hour old (and then changes
    nothing at all); from one hour on, so 61 minutes after the entry was
    stored, it asks the registry at the address of the package, and the
    data so obtained replace the entry, stamped with the time of the
    answer.  (A request that fails yields [null] and leaves the old entry
    in place.)  A version that is given is not the empty string, which the
    code takes for no version; and the address of the package can be
    built, as it can for every key that lookups have stored an entry for
    (lemma [cached_lookups_have_addresses]). *)
Theorem C9_cache_entries_live_one_hour :
  forall s data timestamp u,
    version <> Some EmptyString ->
    cache s !! specifiedKey packageName version = Some (data, timestamp) ->
    NpmApiService.url packageName version = Ok u ->
    let age := now s - timestamp in
    (age < 60 * 60 * 1000 <->
     fst (lookup s) = data /\ noFetch s (snd (lookup s))) /\
    (age < 60 * 60 * 1000 -> lookup s = (data, s)) /\
    (60 * 60 * 1000 <= age ->
     (exists rest, newEvents s (snd (lookup s)) = Fetch u :: rest) /\
     (forall data' took,
         fetched w u (now s) data' took ->
         fst (lookup s) = data' /\
         cache (snd (lookup s)) !! specifiedKey packageName version =
           Some (data', now s + took) /\
         now (snd (lookup s)) = now s + took) /\
     (fetchFailed w u (now s) ->
      fst (lookup s) = None /\ cache (snd (lookup s)) = cache s)) /\
    (age = 61 * 60 * 1000 ->
     exists rest, newEvents s (snd (lookup s)) = Fetch u :: rest).
Proof.
  intros s data timestamp u Given C U age.
  rewrite <- (cacheKey_specified Given) in *. fold key in C |- *.
  pose proof (fresh_entry s data timestamp C) as F. fold age in F.
  change NpmApiService.CACHE_DURATION with (60 * 60 * 1000) in F.
  assert (Hit : age < 60 * 60 * 1000 -> lookup s = (data, s)).
  { intros A. apply getPackageInfo_hit.
    rewrite F. destruct (Z.ltb_spec age (60 * 60 * 1000)); [reflexivity | lia]. }
  assert (Miss : 60 * 60 * 1000 <= age ->
                 exists rest, newEvents s (snd (lookup s)) = Fetch u :: rest).
  { intros A.
    destruct (Z.ltb_spec age (60 * 60 * 1000)); [lia |].
    destruct (getPackageInfo_miss_log s u F U) as (rest & E & _).
    exists rest. now apply newEvents_app. }
  split; [split |]; [| | split; [exact Hit |]; split].
  - intros A. rewrite (Hit A). split; [reflexivity |].
    intros x. unfold newEvents. cbn. rewrite skipn_all. intros [].
  - intros (_ & N).
    destruct (Z.lt_ge_cases age (60 * 60 * 1000)) as [A | A]; [exact A |].
    destruct (Miss A) as (rest & E).
    exfalso. apply (N u). rewrite E. now left.
  - intros A.
    destruct (Z.ltb_spec age (60 * 60 * 1000)); [lia |].
    split; [exact (Miss A) |]. split.
    + intros data' took G.
      rewrite (getPackageInfo_miss_fetched s u data' took F U G). cbn.
      repeat split. apply lookup_insert_eq.
    + intros G.
      destruct (getPackageInfo_miss_failed s u F U G) as (R & K & _). auto.
  - intros A. apply Miss. lia.
Qed.

End Cache.

(** The first lookup stored release 1 at time 120. *)
Example first_lookup_stores :
  cache afterFirstLookup !! "lodash" = Some (Some (release "lodash" "1.0.0"), 120) /\
  now sixtyOneMinutesLater - 120 = 61 * 60 * 1000.
Proof. split; reflexivity. Qed.

(** A lookup with a version uses an entry of its own: the entry of the
    bare name does not serve it. *)
Example versions_have_entries_of_their_own :
  let versioned :=
    NpmApiService.getPackageInfo registry "lodash" (Some "4.17.21") afterFirstLookup in
  newEvents afterFirstLookup (snd versioned) =
    [Fetch "https://registry.npmjs.org/lodash/4.17.21"] /\
  cache (snd versioned) !! "lodash@4.17.21" =
    Some (Some (release "lodash" "1.0.0"), 240) /\
  cache (snd versioned) !! "lodash" = Some (Some (release "lodash" "1.0.0"), 120).
Proof. repeat split. Qed.

Lemma C9_sixty_one_minutes_witness :
  cache sixtyOneMinutesLater !! "lodash" = Some (Some (release "lodash" "1.0.0"), 120) /\
  newEvents sixtyOneMinutesLater
    (snd (NpmApiService.getPackageInfo registry "lodash" None sixtyOneMinutesLater))
  = [Fetch "https://registry.npmjs.org/lodash"] /\
  fst (NpmApiService.getPackageInfo registry "lodash" None sixtyOneMinutesLater)
  = Some (release "lodash" "2.0.0") /\
  cache (snd (NpmApiService.getPackageInfo registry "lodash" None
                sixtyOneMinutesLater)) !! "lodash"
  = Some (Some (release "lodash" "2.0.0"), now sixtyOneMinutesLater + 120).
Proof.
  assert (C : cache sixtyOneMinutesLater !! specifiedKey "lodash" None
              = Some (Some (release "lodash" "1.0.0"), 120)) by reflexivity.
  assert (Given : @None string <> Some EmptyString) by discriminate.
  destruct (C9_cache_entries_live_one_hour registry "lodash" None
              sixtyOneMinutesLater _ _ "https://registry.npmjs.org/lodash"
              Given C eq_refl) as (_ & _ & Old & _).
  destruct Old as (_ & New & _); [vm_compute; discriminate |].
  destruct (New (Some (release "lodash" "2.0.0")) 120) as (R & K & _).
  { exists 200, "OK", (Parsed (release "lodash" "2.0.0")).
    repeat split; reflexivity. }
  split; [exact C | split; [reflexivity | split; [exact R | exact K]]].
Defined.

(** ** PackageLocator: the order of the search *)

Section Locator.

Variables (this : DepNodeProvider.t) (w : World) (moduleName : string).

(** [readFileAsJson] gives the manifest at the real path of the file, and
    [null] when there is none to read. *)
Lemma readFileAsJson_spec p info :
  DepNodeProvider.readFileAsJson w p = Some info <-> readsAs w p info.
Proof.
  unfold DepNodeProvider.readFileAsJson, readsAs, pathExists, parseFile. split.
  - destruct (realpath w p) as [real |]; [| discriminate].
    destruct (fs w real) as [[| [json |]] |] eqn:F; try discriminate.
    intros [= <-]. eauto.
  - intros (real & R & F). now rewrite R, F.
Qed.

(** A manifest probe succeeds exactly when the file exists, can be read,
    and carries the name looked for. *)
Lemma named_spec p info :
  DepNodeProvider.named w moduleName p = Some info <-> accepts w moduleName p info.
Proof.
  unfold accepts. rewrite <- readFileAsJson_spec.
  unfold DepNodeProvider.named.
  destruct (pathExists w p); [| split; [discriminate | intros (C & _); discriminate]].
  destruct (DepNodeProvider.readFileAsJson w p) as [read |];
    [| split; [discriminate | intros (_ & C & _); discriminate]].
  destruct (NpmPackageInfo.name read) as [name |] eqn:N.
  - destruct (String.eqb_spec name moduleName) as [-> | D].
    + split.
      * intros [= <-]. auto.
      * intros (_ & [= <-] & _). reflexivity.
    + split; [discriminate |].
      intros (_ & [= <-] & C). rewrite N in C. congruence.
  - split; [discriminate |].
    intros (_ & [= <-] & C). rewrite N in C. discriminate.
Qed.

Lemma named_none p :
  DepNodeProvider.named w moduleName p = None <->
  forall info, ~ accepts w moduleName p info.
Proof.
  split.
  - intros N info A. apply named_spec in A. congruence.
  - intros N. destruct (DepNodeProvider.named w moduleName p) as [info |] eqn:E;
      [| reflexivity].
    apply named_spec in E. now destruct (N info).
Qed.

(** [locate] is the manifest search from the candidate root, after the
    probe. *)
Lemma getPackageJsonFromPath_search dir s :
  DepNodeProvider.getPackageJsonFromPath this w moduleName dir s =
  DepNodeProvider.findPackageJson this w moduleName
    (candidateRoot w moduleName dir)
    (snd (DepNodeProvider.resolvePackageDir this w moduleName dir s)).
Proof.
  unfold DepNodeProvider.getPackageJsonFromPath,
    DepNodeProvider.resolvePackageDir, candidateRoot, bind.
  destruct (Str.includes moduleName "@types/"); [reflexivity |].
  cbn. destruct (requireResolve w moduleName dir) as [entry |]; [| reflexivity].
  cbn. destruct (realpath w (Path.dirname entry)) as [real |]; [| reflexivity].
  cbn. destruct (Str.truthy real); reflexivity.
Qed.

(** The last two steps of [findPackageJson], once the first two have
    found nothing. *)
Lemma findPackageJson_fallback startDir s :
  (forall info, ~ accepts w moduleName (Path.join [startDir; "package.json"]) info) ->
  (forall info,
      ~ accepts w moduleName
          (Path.resolve (cwd w) [startDir; ".."; "package.json"]) info) ->
  DepNodeProvider.findPackageJson this w moduleName startDir s =
  match DepNodeProvider.workspaceRoot this with
  | Some root =>
      if Str.truthy root
         && pathExists w (Path.resolve (cwd w)
                            [root; "node_modules"; moduleName; "package.json"])
      then (DepNodeProvider.readFileAsJson w
              (Path.resolve (cwd w)
                 [root; "node_modules"; moduleName; "package.json"]), s)
      else NpmApiService.getPackageInfo w moduleName None s
  | None => NpmApiService.getPackageInfo w moduleName None s
  end.
Proof.
  intros Here Above. apply named_none in Here, Above.
  unfold DepNodeProvider.findPackageJson. rewrite Here, Above.
  unfold DepNodeProvider.atRoot.
  destruct (DepNodeProvider.workspaceRoot this) as [root |]; [| reflexivity].
  destruct (Str.truthy root); [| reflexivity].
  cbn [andb]. now destruct (pathExists w _).
Qed.

(** C3, as the code has it.  From the candidate root the search goes, first
    success winning: (1) [root/package.json], taken if it exists, can be
    read and its name is the dependency name; (2) one level up,
    [root/../package.json], same test; (3)
    [<workspaceRoot>/node_modules/<name>/package.json], taken as soon as
    the file exists, without a name test: the answer is its parsed
    content, or [null] if it cannot be read, and the registry is not asked;
    (4) the registry.  The search does not throw, and it answers [null]
    exactly when (1) and (2) fail and either the file of (3) exists but
    cannot be read, or it does not exist and the registry has nothing.
    [locate] itself is this search from the candidate root. *)
Theorem C3_locate_search_order :
  forall startDir s,
    let here := Path.join [startDir; "package.json"] in
    let above := Path.resolve (cwd w) [startDir; ".."; "package.json"] in
    let fromRegistry := NpmApiService.getPackageInfo w moduleName None s in
    let answer := DepNodeProvider.findPackageJson this w moduleName startDir s in
    let installed root :=
      Path.resolve (cwd w) [root; "node_modules"; moduleName; "package.json"] in
    let hoisted root :=
      DepNodeProvider.workspaceRoot this = Some root /\ Str.truthy root = true /\
      pathExists w (installed root) = true in
    (* (1) *)
    (forall info, accepts w moduleName here info -> answer = (Some info, s)) /\
    (* (2) *)
    ((forall info, ~ accepts w moduleName here info) ->
     forall info, accepts w moduleName above info -> answer = (Some info, s)) /\
    (* (3) and (4) *)
    ((forall info, ~ accepts w moduleName here info) ->
     (forall info, ~ accepts w moduleName above info) ->
     (forall root,
         hoisted root ->
         (forall info, readsAs w (installed root) info -> answer = (Some info, s)) /\
         ((forall info, ~ readsAs w (installed root) info) -> answer = (None, s))) /\
     ((forall root, ~ hoisted root) -> answer = fromRegistry)) /\
    (* [null] *)
    (fst answer = None <->
     (forall info, ~ accepts w moduleName here info) /\
     (forall info, ~ accepts w moduleName above info) /\
     ((exists root,
          hoisted root /\ forall info, ~ readsAs w (installed root) info) \/
      (forall root, ~ hoisted root) /\ fst fromRegistry = None)) /\
    (* [locate] *)
    (forall dir,
        DepNodeProvider.getPackageJsonFromPath this w moduleName dir s =
        DepNodeProvider.findPackageJson this w moduleName
          (candidateRoot w moduleName dir)
          (snd (DepNodeProvider.resolvePackageDir this w moduleName dir s))).
Proof.
  intros startDir s here above fromRegistry answer installed hoisted.
  assert (First : forall info,
             accepts w moduleName here info -> answer = (Some info, s)).
  { intros info A. apply named_spec in A.
    unfold answer, DepNodeProvider.findPackageJson. fold here. now rewrite A. }
  assert (Second : (forall info, ~ accepts w moduleName here info) ->
                   forall info, accepts w moduleName above info ->
                                answer = (Some info, s)).
  { intros N info A. apply named_none in N. apply named_spec in A.
    unfold answer, DepNodeProvider.findPackageJson. fold here above.
    now rewrite N, A. }
  assert (Rest : (forall info, ~ accepts w moduleName here info) ->
                 (forall info, ~ accepts w moduleName above info) ->
                 (forall root,
                     hoisted root ->
                     answer = (DepNodeProvider.readFileAsJson w (installed root), s)) /\
                 ((forall root, ~ hoisted root) -> answer = fromRegistry)).
  { intros N1 N2. unfold answer.
    rewrite (findPackageJson_fallback startDir s N1 N2). unfold hoisted.
    destruct (DepNodeProvider.workspaceRoot this) as [root |].
    - fold (installed root).
      destruct (Str.truthy root) eqn:T, (pathExists w (installed root)) eqn:X;
        cbn [andb]; split;
        try (intros r ([= <-] & C1 & C2); congruence);
        try (intros _; reflexivity).
      intros C. now destruct (C root).
    - split; [intros r (C & _); discriminate | reflexivity]. }
  refine (conj First (conj Second (conj _ (conj _ _)))).
  - intros N1 N2. destruct (Rest N1 N2) as (Hoisted & Registry).
    split; [| exact Registry].
    intros root H. rewrite (Hoisted root H). split.
    + intros info R. apply readFileAsJson_spec in R. now rewrite R.
    + intros N.
      destruct (DepNodeProvider.readFileAsJson w (installed root)) as [info |] eqn:R;
        [| reflexivity].
      apply readFileAsJson_spec in R. now destruct (N info).
  - destruct (DepNodeProvider.named w moduleName here) as [info |] eqn:E1.
    { apply named_spec in E1. rewrite (First info E1). cbn. split; [discriminate |].
      intros (N & _). now destruct (N info). }
    pose proof (proj1 (named_none here) E1) as N1. clear E1.
    destruct (DepNodeProvider.named w moduleName above) as [info |] eqn:E2.
    { apply named_spec in E2. rewrite (Second N1 info E2). cbn.
      split; [discriminate |]. intros (_ & N & _). now destruct (N info). }
    pose proof (proj1 (named_none above) E2) as N2. clear E2.
    destruct (Rest N1 N2) as (Hoisted & Registry).
    assert (Decide : (exists root, hoisted root) \/ forall root, ~ hoisted root).
    { unfold hoisted. destruct (DepNodeProvider.workspaceRoot this) as [root |].
      - destruct (Str.truthy root) eqn:T, (pathExists w (installed root)) eqn:X;
          try (right; intros r ([= <-] & C1 & C2); congruence).
        left. exists root. auto.
      - right. intros r (C & _). discriminate. }
    destruct Decide as [(root & H) | None_hoisted].
    + rewrite (Hoisted root H). cbn [fst]. split.
      * intros R. repeat split; auto. left. exists root. split; [exact H |].
        intros info C. apply readFileAsJson_spec in C. congruence.
      * intros (_ & _ & [(root' & H' & Unreadable) | (C & _)]);
          [| now destruct (C root)].
        destruct H as (W1 & _), H' as (W1' & _).
        rewrite W1 in W1'. injection W1' as <-.
        destruct (DepNodeProvider.readFileAsJson w (installed root)) as [info |] eqn:R;
          [| reflexivity].
        apply readFileAsJson_spec in R. now destruct (Unreadable info).
    + rewrite (Registry None_hoisted). split.
      * intros R. repeat split; auto.
      * intros (_ & _ & [(root & H & _) | (_ & R)]); [now destruct (None_hoisted root) | exact R].
  - intros dir. apply getPackageJsonFromPath_search.
Qed.

End Locator.

(** In [hoistedInstall] the entry point of [left-pad] lies in [dist], which
    has no manifest: the manifest one level up is taken.  Searched from the
    workspace root itself, the manifest there is passed over for its name
    ([app]), and the installed one is taken. *)
Lemma C3_hoisted_witness :
  DepNodeProvider.getPackageJsonFromPath (provider "/ws") hoistedInstall
    "left-pad" "/ws" start
  = (Some (release "left-pad" "1.3.0"),
     {| cache := ∅; now := 0; log := [Resolve "left-pad" "/ws"] |}) /\
  DepNodeProvider.findPackageJson (provider "/ws") hoistedInstall
    "left-pad" "/ws" start
  = (Some (release "left-pad" "1.3.0"), start).
Proof.
  split.
  - rewrite getPackageJsonFromPath_search.
    destruct (C3_locate_search_order (provider "/ws") hoistedInstall "left-pad"
                (candidateRoot hoistedInstall "left-pad" "/ws")
                (snd (DepNodeProvider.resolvePackageDir (provider "/ws")
                        hoistedInstall "left-pad" "/ws" start)))
      as (_ & Above & _).
    apply Above.
    + intros info (X & _). discriminate X.
    + split; [reflexivity |]. split; [| reflexivity].
      exists "/ws/node_modules/left-pad/package.json". split; reflexivity.
  - destruct (C3_locate_search_order (provider "/ws") hoistedInstall "left-pad"
                "/ws" start) as (_ & _ & Rest & _).
    destruct Rest as (Hoisted & _).
    + intros info (_ & (real & R & F) & N).
      injection R as <-. injection F as <-. discriminate N.
    + intros info (X & _). discriminate X.
    + apply (Hoisted "/ws"); [repeat split |].
      exists "/ws/node_modules/left-pad/package.json". split; reflexivity.
Defined.

(** With the installed manifest damaged, the search answers [null] although
    the registry would have served the package. *)
Lemma C3_damaged_counterexample :
  ~ nullOnlyAfterRegistry (provider "/ws") damagedInstall "left-pad" "/ws" start.
Proof.
  intros H. specialize (H eq_refl). vm_compute in H. discriminate H.
Qed.

(** ** Removing a package *)

Lemma append_empty (a : string) : a +:+ EmptyString = a.
Proof.
  induction a as [| c a IH]; [reflexivity |].
  change (String c (a +:+ EmptyString) = String c a). now rewrite IH.
Qed.

Lemma truthy_or a b : Js.truthy (Js.or a b) = Js.truthy a || Js.truthy b.
Proof. unfold Js.or. destruct (Js.truthy a) eqn:E; [exact E | reflexivity]. Qed.








Section Remove.

Variables (w : World) (packageName dir : string) (s : State).

Let manifestPath := Path.join [dir; "package.json"].
Let typesPackage := "@types/" +:+ packageName.
Let run := NpmQuickPickProvider.removePackage w packageName dir s.
Let news := newEvents s (snd run).
Let manager := fst (NpmQuickPickProvider.detectPackageManager w dir s).



End Remove.



(** With the types companion declared under an empty version range, the
    task removes [axios] alone. *)
Example empty_range_drops_types_step :
  ~ typesStepFollowsDeclaration axiosProject "axios" "/proj" start.
Proof.
  intros H. destruct (H _ eq_refl) as [Declared _].
  destruct Declared as (manager & I).
  { exists [("@types/axios", EmptyString)], EmptyString.
    split; [right; left; reflexivity | reflexivity]. }
  vm_compute in I.
  destruct manager;
    destruct I as [E | [E | [E | [E | []]]]]; discriminate E.
Qed.

(** In a directory without a manifest and without lock files, the detector
    still runs its probes before the error message is shown. *)
Example remove_without_manifest_probes :
  newEvents start
    (snd (NpmQuickPickProvider.removePackage bareProject "axios" "/nowhere" start))
  = [ Exec "which pnpm" "/nowhere"; Exec "which yarn" "/nowhere";
      ShowErrorMessage (Text "No package.json found in dir ${workspaceRoot}") ].
Proof. reflexivity. Qed.

(** ** Further examples *)

(** An entry of any kind under [node_modules] makes the node expandable. *)
Example flag_on_plain_file :
  isDirectory strayFile "/ws/node_modules/x" = false /\
  exists node,
    fst (DepNodeProvider.getChildren (provider "/ws") strayFile None start) = Ok [node] /\
    Dependency.label node = "x" /\
    Dependency.isInstalledLocally node = true.
Proof. split; [reflexivity |]. eexists. repeat split. Qed.

(** A name that every object inherits passes the test of [removePackage]
    without being declared. *)
Example remove_inherited_name :
  newEvents start
    (snd (NpmQuickPickProvider.removePackage typedProject "constructor" "/proj" start))
  = [ Task "/proj" "yarn remove constructor";
      ShowInformationMessage (Text "Successfully removed constructor using yarn") ].
Proof. reflexivity. Qed.

(** With the registry out of reach 61 minutes after the entry was stored,
    the lookup asks, answers [null] and keeps the old entry. *)
Example expired_entry_survives_failure :
  let after := NpmApiService.getPackageInfo offline "lodash" None sixtyOneMinutesLater in
  fst after = None /\
  cache (snd after) !! "lodash" = Some (Some (release "lodash" "1.0.0"), 120) /\
  newEvents sixtyOneMinutesLater (snd after)
  = [ Fetch "https://registry.npmjs.org/lodash";
      ShowErrorMessage
        (TextWithError "Failed to fetch package information: " FetchError) ].
Proof. repeat split. Qed.

(** * Further properties of the code *)

(** ** Choosing the package: the upward walk and its two callers *)

Lemma startsWith_refl s : Str.startsWith s s = true.
Proof.
  unfold Str.startsWith. induction s as [| a s IH]; [reflexivity |].
  cbn. destruct (ascii_dec a a) as [_ | C]; [exact IH | contradiction].
Qed.

(** A walk that finds a directory found it on the chain of [dirname]s of
    its start: the directory holds a manifest, lies under the root (as a
    string prefix), and no directory before it on the chain holds one. *)
Lemma walkUp_found w rootPath fuel dir found :
  walkUp w rootPath fuel dir = Some found ->
  exists k,
    found = Nat.iter k Path.dirname dir /\
    pathExists w (Path.join [found; "package.json"]) = true /\
    Str.startsWith found rootPath = true /\
    forall j, (j < k)%nat ->
      pathExists w (Path.join [Nat.iter j Path.dirname dir; "package.json"]) = false.
Proof.
  revert dir. induction fuel as [| fuel IH]; intros dir; [discriminate |].
  cbn [walkUp].
  destruct (negb (String.eqb dir (Path.dirname dir))); [| discriminate].
  cbn [andb].
  destruct (Str.startsWith dir rootPath) eqn:P; [| discriminate].
  destruct (pathExists w (Path.join [dir; "package.json"])) eqn:X.
  - intros [= <-]. exists O. cbn. repeat split; auto. intros j L. lia.
  - intros H. destruct (IH _ H) as (k & E & X' & P' & Before).
    exists (S k). rewrite Nat.iter_succ_r. repeat split; auto.
    intros [| j] L; [exact X |].
    rewrite Nat.iter_succ_r. apply Before. lia.
Qed.

(** What [getPackageDirectory] answers with: a directory that holds a
    manifest, under the first workspace folder, the nearest one above the
    active file when it comes from the walk. *)
Lemma getPackageDirectory_found :
  forall w dir,
    NpmQuickPickProvider.getPackageDirectory w = Some dir ->
    exists rootPath,
      head (workspaceFolders w) = Some rootPath /\
      pathExists w (Path.join [dir; "package.json"]) = true /\
      Str.startsWith dir rootPath = true /\
      (dir = rootPath \/
       exists activeFilePath k,
         activeEditor w = Some activeFilePath /\
         dir = Nat.iter (S k) Path.dirname activeFilePath /\
         forall j, (j < k)%nat ->
           pathExists w
             (Path.join [Nat.iter (S j) Path.dirname activeFilePath; "package.json"])
           = false).
Proof.
  intros w dir. unfold NpmQuickPickProvider.getPackageDirectory.
  destruct (workspaceFolders w) as [| rootPath rest]; [discriminate |].
  assert (Root : (if pathExists w (Path.join [rootPath; "package.json"])
                  then Some rootPath else None) = Some dir ->
                 exists r,
                   head (rootPath :: rest) = Some r /\
                   pathExists w (Path.join [dir; "package.json"]) = true /\
                   Str.startsWith dir r = true /\
                   (dir = r \/
                    exists activeFilePath k,
                      activeEditor w = Some activeFilePath /\
                      dir = Nat.iter (S k) Path.dirname activeFilePath /\
                      forall j, (j < k)%nat ->
                        pathExists w
                          (Path.join [Nat.iter (S j) Path.dirname activeFilePath;
                                      "package.json"]) = false)).
  { destruct (pathExists w (Path.join [rootPath; "package.json"])) eqn:X;
      [| discriminate].
    intros [= <-]. exists rootPath. repeat split; auto using startsWith_refl. }
  destruct (activeEditor w) as [activeFilePath |]; [| exact Root].
  destruct (negb (Str.startsWith activeFilePath rootPath)); [exact Root |].
  destruct (walkUp w rootPath (walkFuel activeFilePath) (Path.dirname activeFilePath))
    as [found |] eqn:W; [| exact Root].
  intros [= <-].
  destruct (walkUp_found _ _ _ _ _ W) as (k & E & X & P & Before).
  exists rootPath. repeat split; auto.
  right. exists activeFilePath, k. rewrite Nat.iter_succ_r.
  repeat split; auto.
  intros j L. rewrite Nat.iter_succ_r. now apply Before.
Qed.

(** X1. [getPackageDirectory] answers only with a directory that holds a
    [package.json] and that has the first workspace folder as a prefix;
    when it comes from the walk, it is the nearest such directory above
    the active file. *)
Theorem X1_package_directory_holds_a_manifest :
  forall w dir,
    NpmQuickPickProvider.getPackageDirectory w = Some dir ->
    exists rootPath,
      head (workspaceFolders w) = Some rootPath /\
      pathExists w (Path.join [dir; "package.json"]) = true /\
      Str.startsWith dir rootPath = true /\
      (dir = rootPath \/
       exists activeFilePath k,
         activeEditor w = Some activeFilePath /\
         dir = Nat.iter (S k) Path.dirname activeFilePath /\
         forall j, (j < k)%nat ->
           pathExists w
             (Path.join [Nat.iter (S j) Path.dirname activeFilePath; "package.json"])
           = false).
Proof. exact getPackageDirectory_found. Qed.

Lemma X1_monorepo_witness :
  pathExists monorepo (Path.join ["/ws/packages/a"; "package.json"]) = true /\
  Str.startsWith "/ws/packages/a" "/ws" = true.
Proof.
  destruct (X1_package_directory_holds_a_manifest monorepo "/ws/packages/a" eq_refl)
    as (rootPath & R & X & P & _).
  injection R as <-. split; [exact X | exact P].
Defined.

Lemma truthy_append_r a b : Str.truthy a = true -> Str.truthy (a +:+ b) = true.
Proof. destruct a; [discriminate | reflexivity]. Qed.

(** [path.join] never returns the empty string. *)
Lemma join_truthy parts : Str.truthy (Path.join parts) = true.
Proof.
  unfold Path.join.
  set (joined := Str.join "/" (List.filter Str.truthy parts)).
  destruct (Str.isEmpty joined) eqn:J; [reflexivity |].
  unfold Path.normalize. rewrite J. cbv zeta.
  destruct (Path.isAbsolute joined), (Path.endsWithSlash joined); cbn [negb];
    match goal with
    | |- context [Path.normalizeString joined ?b] =>
        destruct (Path.normalizeString joined b) as [| c body]
    end; reflexivity.
Qed.

(** The manifest paths the tree provider computes are paths of files that
    exist. *)
Lemma relevant_manifest_exists :
  forall this w,
    (forall startPath p,
        DepNodeProvider.findPackageJsonUpward this w startPath = Some p ->
        pathExists w p = true) /\
    (forall p,
        DepNodeProvider.getRelevantPackageJsonPath this w = Some p ->
        pathExists w p = true).
Proof.
  intros this w.
  assert (Up : forall startPath p,
             DepNodeProvider.findPackageJsonUpward this w startPath = Some p ->
             pathExists w p = true).
  { intros startPath p. unfold DepNodeProvider.findPackageJsonUpward.
    destruct (DepNodeProvider.workspaceRoot this) as [root |]; [| discriminate].
    destruct (negb (Str.truthy root)); [discriminate |].
    destruct (negb (Str.startsWith startPath root)); [discriminate |].
    destruct (walkUp w root (walkFuel startPath) (Path.dirname startPath))
      as [dir |] eqn:W.
    - intros [= <-]. now destruct (walkUp_found _ _ _ _ _ W) as (k & _ & X & _).
    - destruct (pathExists w (Path.join [root; "package.json"])) eqn:X;
        [| discriminate].
      now intros [= <-]. }
  split; [exact Up |].
  intros p. unfold DepNodeProvider.getRelevantPackageJsonPath,
    DepNodeProvider.getActivePackageJsonPath.
  set (rootPackageJson :=
         Path.join [default EmptyString (DepNodeProvider.workspaceRoot this);
                    "package.json"]).
  assert (Root : (if pathExists w rootPackageJson then Some rootPackageJson else None)
                 = Some p -> pathExists w p = true).
  { destruct (pathExists w rootPackageJson) eqn:X; [| discriminate].
    now intros [= <-]. }
  destruct (activeEditor w) as [activeFilePath |]; [| exact Root].
  destruct (DepNodeProvider.findPackageJsonUpward this w activeFilePath)
    as [active |] eqn:A; [| exact Root].
  destruct (Str.truthy active); [| exact Root].
  intros [= <-]. exact (Up _ _ A).
Qed.

(** X2. Whatever [findPackageJsonUpward] and [getRelevantPackageJsonPath]
    answer is the path of a file that exists. *)
Theorem X2_relevant_manifest_exists :
  forall this w,
    (forall startPath p,
        DepNodeProvider.findPackageJsonUpward this w startPath = Some p ->
        pathExists w p = true) /\
    (forall p,
        DepNodeProvider.getRelevantPackageJsonPath this w = Some p ->
        pathExists w p = true).
Proof. exact relevant_manifest_exists. Qed.

(** X3. With the provider on the first workspace folder, the manifest the
    tree shows is the [package.json] of the directory the installer works
    in: [getRelevantPackageJsonPath] and [getPackageDirectory] pick the
    same package, or none. *)
Theorem X3_tree_and_installer_pick_the_same_package :
  forall this w rootPath others,
    workspaceFolders w = rootPath :: others ->
    DepNodeProvider.workspaceRoot this = Some rootPath ->
    Str.truthy rootPath = true ->
    DepNodeProvider.getRelevantPackageJsonPath this w =
    (fun dir => Path.join [dir; "package.json"]) <$>
      NpmQuickPickProvider.getPackageDirectory w.
Proof.
  intros this w rootPath others F R T.
  unfold DepNodeProvider.getRelevantPackageJsonPath,
    DepNodeProvider.getActivePackageJsonPath,
    DepNodeProvider.findPackageJsonUpward,
    NpmQuickPickProvider.getPackageDirectory.
  rewrite F, R, T. cbn [negb default from_option id].
  destruct (activeEditor w) as [activeFilePath |].
  - destruct (Str.startsWith activeFilePath rootPath); cbn [negb].
    + destruct (walkUp w rootPath (walkFuel activeFilePath)
                  (Path.dirname activeFilePath)) as [dir |].
      * now rewrite join_truthy.
      * destruct (pathExists w (Path.join [rootPath; "package.json"])) eqn:X.
        -- now rewrite join_truthy.
        -- reflexivity.
    + now destruct (pathExists w (Path.join [rootPath; "package.json"])).
  - now destruct (pathExists w (Path.join [rootPath; "package.json"])).
Qed.

Lemma X3_monorepo_witness :
  DepNodeProvider.getRelevantPackageJsonPath (provider "/ws") monorepo =
  (fun dir => Path.join [dir; "package.json"]) <$>
    NpmQuickPickProvider.getPackageDirectory monorepo.
Proof.
  apply (X3_tree_and_installer_pick_the_same_package
           (provider "/ws") monorepo "/ws" []); reflexivity.
Defined.

(** A walk that finds nothing has climbed, past directories without a
    manifest, to a directory at which the loop condition fails. *)
Lemma walkUp_none w rootPath fuel dir :
  (walkMeasure dir < fuel)%nat ->
  walkUp w rootPath fuel dir = None ->
  exists k,
    (Path.dirname (Nat.iter k Path.dirname dir) = Nat.iter k Path.dirname dir \/
     Str.startsWith (Nat.iter k Path.dirname dir) rootPath = false) /\
    forall j, (j < k)%nat ->
      pathExists w (Path.join [Nat.iter j Path.dirname dir; "package.json"]) = false.
Proof.
  revert dir. induction fuel as [| fuel IH]; intros dir L; [lia |].
  cbn [walkUp].
  destruct (String.eqb_spec dir (Path.dirname dir)) as [E | D]; cbn [negb andb].
  { intros _. exists O. split; [left; cbn; congruence | intros j Lj; lia]. }
  destruct (Str.startsWith dir rootPath) eqn:P.
  2:{ intros _. exists O. split; [right; exact P | intros j Lj; lia]. }
  destruct (pathExists w (Path.join [dir; "package.json"])) eqn:X; [discriminate |].
  intros H. apply IH in H.
  - destruct H as (k & Stop & Before). exists (S k).
    rewrite Nat.iter_succ_r. split; [exact Stop |].
    intros [| j] Lj; [exact X |]. rewrite Nat.iter_succ_r. apply Before. lia.
  - assert (Path.dirname dir <> dir) as D' by congruence.
    pose proof (dirname_decreases dir D'). lia.
Qed.

(** X4. The loop that climbs from the active file stops by its own
    condition: the rounds the model allows are never used up (any larger
    number gives the same answer), and a walk that finds nothing has
    reached a directory that is its own [dirname] or does not start with
    the root, with no manifest in the directories before it. *)
Theorem X4_upward_walk_stops_by_its_own_condition :
  forall w rootPath startPath,
    (forall extra,
        walkUp w rootPath (walkFuel startPath + extra) (Path.dirname startPath) =
        walkUp w rootPath (walkFuel startPath) (Path.dirname startPath)) /\
    (walkUp w rootPath (walkFuel startPath) (Path.dirname startPath) = None ->
     exists k,
       (Path.dirname (Nat.iter (S k) Path.dirname startPath) =
        Nat.iter (S k) Path.dirname startPath \/
        Str.startsWith (Nat.iter (S k) Path.dirname startPath) rootPath = false) /\
       forall j, (j < k)%nat ->
         pathExists w
           (Path.join [Nat.iter (S j) Path.dirname startPath; "package.json"])
         = false).
Proof.
  intros w rootPath startPath. split.
  - intros extra. apply walkUp_complete.
  - intros H. apply walkUp_none in H; [| apply walkFuel_enough].
    destruct H as (k & Stop & Before). exists k.
    rewrite Nat.iter_succ_r. split; [exact Stop |].
    intros j Lj. rewrite Nat.iter_succ_r. now apply Before.
Qed.

(** ** The two package-manager detectors *)

(** What the installer's detector adds to the log, and how long it
    takes. *)
Lemma detectPackageManager_probes w dir s :
  exists probes elapsed,
    snd (NpmQuickPickProvider.detectPackageManager w dir s) =
      {| cache := cache s; now := now s + elapsed; log := log s ++ probes |} /\
    (probes = [] /\ elapsed = 0 \/
     NpmQuickPickProvider.byManifest w dir = Ok None /\
     NpmQuickPickProvider.byLockFile w dir = None /\
     (probes = [Exec "which pnpm" dir] /\
      elapsed = execTime w "which pnpm" dir /\
      execOk w "which pnpm" dir = true /\
      fst (NpmQuickPickProvider.detectPackageManager w dir s) = pnpm \/
      probes = [Exec "which pnpm" dir; Exec "which yarn" dir] /\
      elapsed = execTime w "which pnpm" dir + execTime w "which yarn" dir /\
      execOk w "which pnpm" dir = false /\
      fst (NpmQuickPickProvider.detectPackageManager w dir s) =
        if execOk w "which yarn" dir then yarn else npm)).
Proof.
  unfold NpmQuickPickProvider.detectPackageManager.
  assert (Same : forall manager : PackageManager,
             exists probes elapsed,
               snd (ret manager s) =
                 {| cache := cache s; now := now s + elapsed;
                    log := log s ++ probes |} /\
               (probes = [] /\ elapsed = 0 \/
                NpmQuickPickProvider.byManifest w dir = Ok None /\
                NpmQuickPickProvider.byLockFile w dir = None /\
                (probes = [Exec "which pnpm" dir] /\
                 elapsed = execTime w "which pnpm" dir /\
                 execOk w "which pnpm" dir = true /\
                 fst (ret manager s) = pnpm \/
                 probes = [Exec "which pnpm" dir; Exec "which yarn" dir] /\
                 elapsed = execTime w "which pnpm" dir + execTime w "which yarn" dir /\
                 execOk w "which pnpm" dir = false /\
                 fst (ret manager s) =
                   if execOk w "which yarn" dir then yarn else npm))).
  { intros manager. exists [], 0. cbn. rewrite app_nil_r, Z.add_0_r.
    split; [now destruct s | now left]. }
  destruct (NpmQuickPickProvider.byManifest w dir) as [[manager |] | e]; auto.
  destruct (NpmQuickPickProvider.byLockFile w dir) as [manager |]; auto.
  unfold execAsync, bind, emit, elapse, ret. cbn.
  destruct (execOk w "which pnpm" dir) eqn:P; cbn.
  - exists [Exec "which pnpm" dir], (execTime w "which pnpm" dir).
    split; [reflexivity |]. right. repeat split. left. auto.
  - exists [Exec "which pnpm" dir; Exec "which yarn" dir],
      (execTime w "which pnpm" dir + execTime w "which yarn" dir).
    split.
    { destruct (execOk w "which yarn" dir); cbn;
        now rewrite <- app_assoc, Z.add_assoc. }
    right. repeat split. right. repeat split.
    now destruct (execOk w "which yarn" dir).
Qed.

(** X5. The installer's detector leaves the cache alone, and looks for
    executables on the path only as a last resort: when the manifest names
    no manager and no lock file exists.  Then it asks for [pnpm] first,
    and for [yarn] only if [pnpm] is missing.  The clock moves by the time
    the probes take, and not at all without them. *)
Theorem X5_detector_probes_the_path_last :
  forall w dir s,
    let run := NpmQuickPickProvider.detectPackageManager w dir s in
    cache (snd run) = cache s /\
    (newEvents s (snd run) = [] /\ now (snd run) = now s \/
     NpmQuickPickProvider.byManifest w dir = Ok None /\
     NpmQuickPickProvider.byLockFile w dir = None /\
     (newEvents s (snd run) = [Exec "which pnpm" dir] /\
      now (snd run) = now s + execTime w "which pnpm" dir /\
      execOk w "which pnpm" dir = true /\ fst run = pnpm \/
      newEvents s (snd run) = [Exec "which pnpm" dir; Exec "which yarn" dir] /\
      now (snd run) =
        now s + (execTime w "which pnpm" dir + execTime w "which yarn" dir) /\
      execOk w "which pnpm" dir = false /\
      fst run = if execOk w "which yarn" dir then yarn else npm)).
Proof.
  intros w dir s run. subst run.
  destruct (detectPackageManager_probes w dir s) as (probes & elapsed & E & H).
  rewrite E. cbn [cache now]. split; [reflexivity |].
  rewrite (newEvents_app s _ probes) by reflexivity.
  destruct H as [(-> & ->) | (M & L & [(-> & -> & P & R) | (-> & -> & P & R)])].
  - left. split; [reflexivity | apply Z.add_0_r].
  - right. repeat split; auto.
  - right. repeat split; auto.
Qed.

(** Without symbolic links in the way, the two detectors read the same
    manifest signal. *)
Lemma byManifest_agree w dir :
  (pathExists w (Path.join [dir; "package.json"]) = true ->
   realpath w (Path.join [dir; "package.json"]) =
   Some (Path.join [dir; "package.json"])) ->
  match NpmQuickPickProvider.byManifest w dir with
  | Ok signal => DepNodeProvider.byManifest w dir = Ok signal
  | Throw _ => DepNodeProvider.byManifest w dir = Throw TypeError
  end.
Proof.
  intros Real.
  unfold NpmQuickPickProvider.byManifest, DepNodeProvider.byManifest,
    DepNodeProvider.readFileAsJson.
  destruct (pathExists w (Path.join [dir; "package.json"])) eqn:X; [| reflexivity].
  rewrite (Real eq_refl), X.
  destruct (parseFile w (Path.join [dir; "package.json"])) as [json | e];
    [| reflexivity].
  destruct (NpmPackageInfo.packageManager json) as [field |]; [| reflexivity].
  destruct (Str.truthy field); reflexivity.
Qed.

(** X6. The tree's detector is the installer's detector without the look
    at the path: where the manifest path is its own real path, the two
    give the same manager whenever the installer's ran no child process,
    and otherwise the tree's says npm. *)
Theorem X6_detectors_agree_up_to_the_path_probes :
  forall w dir s,
    (pathExists w (Path.join [dir; "package.json"]) = true ->
     realpath w (Path.join [dir; "package.json"]) =
     Some (Path.join [dir; "package.json"])) ->
    let run := NpmQuickPickProvider.detectPackageManager w dir s in
    (newEvents s (snd run) = [] ->
     DepNodeProvider.detectPackageManager w dir = fst run) /\
    (newEvents s (snd run) <> [] ->
     DepNodeProvider.detectPackageManager w dir = npm).
Proof.
  intros w dir s Real run. subst run.
  pose proof (byManifest_agree w dir Real) as A.
  unfold DepNodeProvider.detectPackageManager,
    NpmQuickPickProvider.detectPackageManager.
  assert (Quiet : forall manager : PackageManager,
             newEvents s (snd (ret manager s)) = []).
  { intros manager. apply newEvents_app. cbn. now rewrite app_nil_r. }
  destruct (NpmQuickPickProvider.byManifest w dir) as [[manager |] | e];
    rewrite A.
  - split; [reflexivity | intros C; now rewrite Quiet in C].
  - destruct (NpmQuickPickProvider.byLockFile w dir) as [manager |].
    + split; [reflexivity | intros C; now rewrite Quiet in C].
    + split; [| reflexivity].
      unfold execAsync, bind, emit, elapse, ret. cbn.
      destruct (execOk w "which pnpm" dir); cbn.
      * rewrite (newEvents_app s _ [Exec "which pnpm" dir]) by reflexivity.
        discriminate.
      * destruct (execOk w "which yarn" dir); cbn;
          rewrite (newEvents_app s _ [Exec "which pnpm" dir; Exec "which yarn" dir])
            by (cbn; now rewrite <- app_assoc);
          discriminate.
  - split; [reflexivity | intros C; now rewrite Quiet in C].
Qed.

Lemma X6_typed_project_witness :
  DepNodeProvider.detectPackageManager typedProject "/proj" = yarn /\
  DepNodeProvider.detectPackageManager (equipped offline yarnOnly None) "/nowhere"
  = npm.
Proof.
  split.
  - apply (X6_detectors_agree_up_to_the_path_probes typedProject "/proj" start);
      reflexivity.
  - apply (X6_detectors_agree_up_to_the_path_probes
             (equipped offline yarnOnly None) "/nowhere" start);
      [discriminate | discriminate].
Defined.

(** ** Installing and removing *)

Lemma which_runsIn dir probes :
  probes = [] \/ probes = [Exec "which pnpm" dir] \/
  probes = [Exec "which pnpm" dir; Exec "which yarn" dir] ->
  Forall (runsIn dir) probes /\ Forall isWhichProbe probes.
Proof.
  intros [-> | [-> | ->]]; split; repeat constructor;
    try (eexists; left; reflexivity); exists dir; auto.
Qed.

Lemma detectPackageManager_in_dir w dir s :
  exists probes,
    cache (snd (NpmQuickPickProvider.detectPackageManager w dir s)) = cache s /\
    log (snd (NpmQuickPickProvider.detectPackageManager w dir s)) =
      log s ++ probes /\
    Forall (runsIn dir) probes /\ Forall isWhichProbe probes.
Proof.
  destruct (detectPackageManager_probes w dir s) as (probes & elapsed & E & H).
  exists probes. rewrite E. cbn [cache log].
  split; [reflexivity |]. split; [reflexivity |]. apply which_runsIn.
  destruct H as [(-> & _) | (_ & _ & [(-> & _) | (-> & _)])]; auto.
Qed.

(** What [installPackage] adds to the log once it has a directory to work
    in. *)
Lemma installPackage_run w pkg installType s dir :
  NpmQuickPickProvider.getPackageDirectory w = Some dir ->
  Str.truthy dir = true ->
  let manager := fst (NpmQuickPickProvider.detectPackageManager w dir s) in
  let isPeer := String.eqb installType "--save-peer" in
  let probe :=
    Exec (NpmQuickPickProvider.checkCommand manager (IPackage.name pkg)) dir in
  let includeTypes :=
    negb isPeer &&
    execOk w (NpmQuickPickProvider.checkCommand manager (IPackage.name pkg)) dir in
  let command :=
    NpmQuickPickProvider.buildInstallCommand manager pkg installType includeTypes in
  exists probes message,
    newEvents s (snd (NpmQuickPickProvider.installPackage w pkg installType s)) =
      probes ++ (if isPeer then [] else [probe]) ++ [Task dir command; message] /\
    Forall (runsIn dir) probes /\ Forall isWhichProbe probes /\
    match taskExit w dir command with
    | Some exitCode =>
        if NpmQuickPickProvider.exitedZero exitCode
        then exists text, message = ShowInformationMessage (Text text)
        else message =
             ShowErrorMessage
               (TextWithError "Failed to install package: " (TaskFailed exitCode))
    | None => exists text, message = ShowInformationMessage (Text text)
    end.
Proof.
  intros D T manager isPeer probe includeTypes command.
  subst probe includeTypes command isPeer manager.
  destruct (detectPackageManager_in_dir w dir s) as (probes & _ & L & In_dir & Which).
  exists probes.
  unfold NpmQuickPickProvider.installPackage. rewrite D, T. cbn [negb].
  unfold bind at 1.
  destruct (NpmQuickPickProvider.detectPackageManager w dir s) as [pm s1].
  cbn [fst snd] in *.
  unfold NpmQuickPickProvider.checkTypesPackageExists,
    NpmQuickPickProvider.executeWithTask, execAsync, bind, emit, elapse, ret.
  destruct (String.eqb installType "--save-peer"); cbn [negb andb app fst snd log].
  - destruct (taskExit w dir _) as [code |];
      [destruct (NpmQuickPickProvider.exitedZero code) |];
      eexists;
      (split; [apply newEvents_app; cbn; rewrite L, <- !app_assoc; reflexivity |]);
      (split; [exact In_dir |]); (split; [exact Which |]); eauto.
  - destruct (execOk w _ dir);
      (destruct (taskExit w dir _) as [code |];
       [destruct (NpmQuickPickProvider.exitedZero code) |]);
      eexists;
      (split; [apply newEvents_app; cbn; rewrite L, <- !app_assoc; reflexivity |]);
      (split; [exact In_dir |]); (split; [exact Which |]); eauto.
Qed.

(** X7. Once [installPackage] has a package directory, it runs exactly one
    task, in that directory, with the command built for the detected
    manager; before it come only the detector's probes and, unless the
    install is a peer install, the probe for the types companion, whose
    outcome decides whether the types step is part of the command.  The
    message that follows reports success when the task ends with exit
    code 0 or does not end within the guard, and the failure otherwise
    (also when the task ends without an exit code). *)
Theorem X7_install_runs_one_task :
  forall w pkg installType s dir,
    NpmQuickPickProvider.getPackageDirectory w = Some dir ->
    Str.truthy dir = true ->
    let manager := fst (NpmQuickPickProvider.detectPackageManager w dir s) in
    let isPeer := String.eqb installType "--save-peer" in
    let probe :=
      Exec (NpmQuickPickProvider.checkCommand manager (IPackage.name pkg)) dir in
    let includeTypes :=
      negb isPeer &&
      execOk w (NpmQuickPickProvider.checkCommand manager (IPackage.name pkg)) dir in
    let command :=
      NpmQuickPickProvider.buildInstallCommand manager pkg installType includeTypes in
    exists probes message,
      newEvents s (snd (NpmQuickPickProvider.installPackage w pkg installType s)) =
        probes ++ (if isPeer then [] else [probe]) ++ [Task dir command; message] /\
      Forall isWhichProbe probes /\
      match taskExit w dir command with
      | Some exitCode =>
          if NpmQuickPickProvider.exitedZero exitCode
          then exists text, message = ShowInformationMessage (Text text)
          else message =
               ShowErrorMessage
                 (TextWithError "Failed to install package: " (TaskFailed exitCode))
      | None => exists text, message = ShowInformationMessage (Text text)
      end.
Proof.
  intros w pkg installType s dir D T.
  destruct (installPackage_run w pkg installType s dir D T)
    as (probes & message & E & _ & Which & Outcome).
  exists probes, message. auto.
Qed.

Lemma X7_bare_project_witness :
  exists probes message,
    newEvents start
      (snd (NpmQuickPickProvider.installPackage bareProject lodash "--save-dev" start)) =
      probes ++ [Exec "npm view @types/lodash version" "/proj"] ++
      [Task "/proj" "npm install --save-dev lodash@4.17.21"; message] /\
    Forall isWhichProbe probes /\
    exists text, message = ShowInformationMessage (Text text).
Proof.
  exact (X7_install_runs_one_task bareProject lodash "--save-dev" start "/proj"
           eq_refl eq_refl).
Defined.

(** X8. Whatever [installPackage] runs, child process or task, it runs in
    the directory [getPackageDirectory] chose: one that holds a
    [package.json] and whose path has the path of the first workspace
    folder as a string prefix.  This is the test of the code; it does not
    keep the directory inside the workspace folder (Example
    [install_beside_the_workspace]: for the workspace [/ws] the task runs
    in [/ws2/a]).  With no such directory nothing is run. *)
Theorem X8_install_runs_in_the_package_directory :
  forall w pkg installType s e,
    In e (newEvents s
            (snd (NpmQuickPickProvider.installPackage w pkg installType s))) ->
    isShellCommand e ->
    exists dir rootPath,
      runsIn dir e /\
      NpmQuickPickProvider.getPackageDirectory w = Some dir /\
      head (workspaceFolders w) = Some rootPath /\
      pathExists w (Path.join [dir; "package.json"]) = true /\
      Str.startsWith dir rootPath = true.
Proof.
  intros w pkg installType s e.
  destruct (NpmQuickPickProvider.getPackageDirectory w) as [dir |] eqn:D.
  2:{ unfold NpmQuickPickProvider.installPackage. rewrite D.
      rewrite (newEvents_app s _ [ShowErrorMessage
                                    (Text "No package.json found in workspace")])
        by reflexivity.
      intros [<- | []] []. }
  destruct (Str.truthy dir) eqn:T.
  2:{ unfold NpmQuickPickProvider.installPackage. rewrite D, T. cbn [negb].
      rewrite (newEvents_app s _ [ShowErrorMessage
                                    (Text "No package.json found in workspace")])
        by reflexivity.
      intros [<- | []] []. }
  destruct (installPackage_run w pkg installType s dir D T)
    as (probes & message & -> & In_dir & _ & Outcome).
  destruct (getPackageDirectory_found w dir D) as (rootPath & R & X & P & _).
  intros I Shell. exists dir, rootPath. repeat split; auto.
  apply in_app_or in I. destruct I as [I | I].
  { rewrite List.Forall_forall in In_dir. now apply In_dir. }
  apply in_app_or in I. destruct I as [I | [<- | [<- | []]]].
  - destruct (String.eqb installType "--save-peer"); [destruct I |].
    destruct I as [<- | []]. eexists. left. reflexivity.
  - eexists. right. reflexivity.
  - exfalso. destruct (taskExit w dir _) as [code |];
      [destruct (NpmQuickPickProvider.exitedZero code) |];
      try (destruct Outcome as (text & ->)); try subst message; exact Shell.
Qed.

Lemma X8_monorepo_witness :
  exists dir rootPath,
    runsIn dir (Task "/ws/packages/a" "npm install lodash@4.17.21") /\
    NpmQuickPickProvider.getPackageDirectory monorepo = Some dir /\
    head (workspaceFolders monorepo) = Some rootPath /\
    pathExists monorepo (Path.join [dir; "package.json"]) = true /\
    Str.startsWith dir rootPath = true.
Proof.
  apply (X8_install_runs_in_the_package_directory monorepo lodash EmptyString start).
  - vm_compute. do 3 right. left. reflexivity.
  - exact I.
Defined.

(** The prefix is one of strings, not of directories: with the workspace
    [/ws] and the editor on a file of [/ws2/a], the installation runs in
    [/ws2/a]. *)
Example install_beside_the_workspace :
  NpmQuickPickProvider.getPackageDirectory siblingWorkspace = Some "/ws2/a" /\
  In (Task "/ws2/a" "npm install lodash@4.17.21")
     (newEvents start
        (snd (NpmQuickPickProvider.installPackage siblingWorkspace lodash
                EmptyString start))).
Proof. split; [reflexivity |]. vm_compute. do 3 right. left. reflexivity. Qed.

Lemma parseFile_exists w p json : parseFile w p = Ok json -> pathExists w p = true.
Proof.
  unfold parseFile, pathExists. destruct (fs w p) as [[| [j |]] |]; now intros.
Qed.

Lemma holds_negb pkg k :
  negb (Js.truthy (Js.getOpt (NpmPackageInfo.dependencies pkg) k))
  && negb (Js.truthy (Js.getOpt (NpmPackageInfo.devDependencies pkg) k))
  && negb (Js.truthy (Js.getOpt (NpmPackageInfo.peerDependencies pkg) k))
  = negb (holds pkg k).
Proof. unfold holds. now rewrite !negb_orb. Qed.

Lemma holds_or pkg k :
  Js.truthy
    (Js.or (Js.or (Js.getOpt (NpmPackageInfo.devDependencies pkg) k)
                  (Js.getOpt (NpmPackageInfo.peerDependencies pkg) k))
           (Js.getOpt (NpmPackageInfo.dependencies pkg) k))
  = holds pkg k.
Proof.
  unfold holds. rewrite !truthy_or.
  destruct (Js.truthy (Js.getOpt (NpmPackageInfo.dependencies pkg) k)),
           (Js.truthy (Js.getOpt (NpmPackageInfo.devDependencies pkg) k)),
           (Js.truthy (Js.getOpt (NpmPackageInfo.peerDependencies pkg) k));
    reflexivity.
Qed.

(** X9. Removing a package that the manifest holds runs one task, and the
    way the task ends decides the rest: exit code 0, or no end within the
    guard, gives a normal return and the success message; any other end,
    with another exit code or with none, makes [removePackage] show the
    failure and throw it. *)
Theorem X9_removal_follows_the_exit_code :
  forall w packageName dir s pkg,
    parseFile w (Path.join [dir; "package.json"]) = Ok pkg ->
    holds pkg packageName = true ->
    let manager := fst (NpmQuickPickProvider.detectPackageManager w dir s) in
    let command :=
      NpmQuickPickProvider.buildRemoveCommand
        manager packageName (holds pkg ("@types/" +:+ packageName)) in
    let run := NpmQuickPickProvider.removePackage w packageName dir s in
    exists probes,
      Forall isWhichProbe probes /\
      match taskExit w dir command with
      | Some exitCode =>
          if NpmQuickPickProvider.exitedZero exitCode then
            fst run = Ok tt /\
            exists text,
              newEvents s (snd run) =
              probes ++ [Task dir command; ShowInformationMessage (Text text)]
          else
            fst run = Throw (TaskFailed exitCode) /\
            newEvents s (snd run) =
            probes ++ [Task dir command; removalFailed (TaskFailed exitCode)]
      | None =>
          fst run = Ok tt /\
          exists text,
            newEvents s (snd run) =
            probes ++ [Task dir command; ShowInformationMessage (Text text)]
      end.
Proof.
  intros w packageName dir s pkg Parsed Held manager command run.
  subst run command manager.
  destruct (detectPackageManager_in_dir w dir s) as (probes & _ & L & _ & Which).
  exists probes. split; [exact Which |].
  unfold NpmQuickPickProvider.removePackage, bind.
  destruct (NpmQuickPickProvider.detectPackageManager w dir s) as [pm s1].
  cbn [fst snd] in *.
  rewrite (parseFile_exists _ _ _ Parsed), Parsed. cbn [negb].
  unfold NpmQuickPickProvider.declared.
  rewrite holds_negb, Held, holds_or. cbn [negb].
  unfold NpmQuickPickProvider.executeWithTask, bind, emit, elapse, ret, removalFailed.
  cbn [fst snd log].
  destruct (taskExit w dir _) as [code |];
    [destruct (NpmQuickPickProvider.exitedZero code) |];
    cbn [fst snd]; (split; [reflexivity |]);
    try eexists; apply newEvents_app; cbn; rewrite L, <- !app_assoc; reflexivity.
Qed.

Lemma X9_failing_and_hanging_witness :
  (exists probes,
      Forall isWhichProbe probes /\
      fst (NpmQuickPickProvider.removePackage failingProject "axios" "/proj" start)
      = Throw (TaskFailed (Some 1)) /\
      newEvents start
        (snd (NpmQuickPickProvider.removePackage failingProject "axios" "/proj" start))
      = probes ++ [Task "/proj" "yarn remove axios && yarn remove @types/axios";
                   removalFailed (TaskFailed (Some 1))]) /\
  (exists probes,
      Forall isWhichProbe probes /\
      fst (NpmQuickPickProvider.removePackage hangingProject "axios" "/proj" start)
      = Ok tt /\
      exists text,
        newEvents start
          (snd (NpmQuickPickProvider.removePackage hangingProject "axios" "/proj" start))
        = probes ++ [Task "/proj" "yarn remove axios && yarn remove @types/axios";
                     ShowInformationMessage (Text text)]).
Proof.
  split.
  - exact (X9_removal_follows_the_exit_code failingProject "axios" "/proj" start
             _ eq_refl eq_refl).
  - exact (X9_removal_follows_the_exit_code hangingProject "axios" "/proj" start
             _ eq_refl eq_refl).
Defined.

(** Every way [removePackage] has of throwing. *)
Lemma removePackage_throws w packageName dir s e :
  fst (NpmQuickPickProvider.removePackage w packageName dir s) = Throw e ->
  let manifestPath := Path.join [dir; "package.json"] in
  exists before,
    log (snd (NpmQuickPickProvider.removePackage w packageName dir s)) =
    log s ++ before ++ [removalFailed e] /\
    Forall isShellCommand before /\
    (e = ReadError manifestPath /\ pathExists w manifestPath = true /\
     parseFile w manifestPath = Throw e \/
     exists pkg command exitCode,
       parseFile w manifestPath = Ok pkg /\ holds pkg packageName = true /\
       e = TaskFailed exitCode /\ exitCode <> Some 0 /\
       taskExit w dir command = Some exitCode /\
       In (Task dir command) before).
Proof.
  cbv zeta.
  destruct (detectPackageManager_in_dir w dir s) as (probes & _ & L & In_dir & _).
  assert (Shell : Forall isShellCommand probes).
  { eapply List.Forall_impl; [| exact In_dir].
    intros ev (c & [-> | ->]); exact I. }
  unfold NpmQuickPickProvider.removePackage, bind.
  destruct (NpmQuickPickProvider.detectPackageManager w dir s) as [pm s1].
  cbn [fst snd] in *.
  destruct (pathExists w (Path.join [dir; "package.json"])) eqn:X; cbn [negb].
  2:{ cbn. discriminate. }
  destruct (parseFile w (Path.join [dir; "package.json"])) as [pkg | err] eqn:Parsed.
  2:{ cbn. intros [= ->]. exists probes. split; [now rewrite L, <- app_assoc |].
      split; [exact Shell |].
      left. repeat split.
      unfold parseFile in Parsed.
      destruct (fs w (Path.join [dir; "package.json"])) as [[| [j |]] |];
        congruence. }
  unfold NpmQuickPickProvider.declared.
  rewrite holds_negb, holds_or.
  destruct (holds pkg packageName) eqn:Held; cbn [negb].
  2:{ cbn. discriminate. }
  unfold NpmQuickPickProvider.executeWithTask, bind, emit, elapse, ret, removalFailed.
  cbn [fst snd log].
  destruct (taskExit w dir _) as [code |] eqn:Exit;
    [destruct (NpmQuickPickProvider.exitedZero code) eqn:Zero |];
    cbn [fst snd]; try discriminate.
  intros [= <-]. eexists (probes ++ [Task dir _]). split.
  { cbn. rewrite L, <- !app_assoc. reflexivity. }
  split.
  { apply Forall_app. split; [exact Shell | repeat constructor]. }
  right. exists pkg. eexists. exists code. repeat split; eauto.
  - intros ->. cbn in Zero. discriminate.
  - apply in_or_app. right. left. reflexivity.
Qed.

(** X10. [removePackage] throws in two cases only: the manifest is there
    but cannot be read as JSON, or the task it ran ended, within the
    guard, otherwise than with exit code 0: with another exit code, or
    with none.  Each time the last thing it did was to show the failure
    message, and all it did before was to run commands. *)
Theorem X10_removal_throws_for_the_manifest_or_the_task :
  forall w packageName dir s e,
    fst (NpmQuickPickProvider.removePackage w packageName dir s) = Throw e ->
    let manifestPath := Path.join [dir; "package.json"] in
    (exists before,
        newEvents s (snd (NpmQuickPickProvider.removePackage w packageName dir s)) =
        before ++ [removalFailed e] /\
        Forall isShellCommand before) /\
    (e = ReadError manifestPath /\ pathExists w manifestPath = true /\
     parseFile w manifestPath = Throw e \/
     exists pkg command exitCode,
       parseFile w manifestPath = Ok pkg /\ holds pkg packageName = true /\
       e = TaskFailed exitCode /\ exitCode <> Some 0 /\
       taskExit w dir command = Some exitCode /\
       In (Task dir command)
          (newEvents s (snd (NpmQuickPickProvider.removePackage w packageName dir s)))).
Proof.
  intros w packageName dir s e Thrown.
  destruct (removePackage_throws w packageName dir s e Thrown)
    as (before & L & Shell & Cases).
  assert (E : newEvents s
                (snd (NpmQuickPickProvider.removePackage w packageName dir s)) =
              before ++ [removalFailed e]) by now apply newEvents_app.
  split; [now exists before |].
  destruct Cases as [Manifest | (pkg & command & code & P & H & -> & N & X & I)];
    [now left | right].
  exists pkg, command, code. repeat split; auto.
  rewrite E. apply in_or_app. now left.
Qed.

(** A task that ends with exit code 1, and one that ends without an exit
    code. *)
Lemma X10_failing_project_witness :
  (exists before,
      newEvents start
        (snd (NpmQuickPickProvider.removePackage failingProject "axios" "/proj" start)) =
      before ++ [removalFailed (TaskFailed (Some 1))] /\
      Forall isShellCommand before) /\
  (exists before,
      newEvents start
        (snd (NpmQuickPickProvider.removePackage silentExitProject "axios" "/proj"
                start)) =
      before ++ [removalFailed (TaskFailed None)] /\
      Forall isShellCommand before).
Proof.
  split.
  - exact (proj1 (X10_removal_throws_for_the_manifest_or_the_task
                    failingProject "axios" "/proj" start (TaskFailed (Some 1))
                    eq_refl)).
  - exact (proj1 (X10_removal_throws_for_the_manifest_or_the_task
                    silentExitProject "axios" "/proj" start (TaskFailed None)
                    eq_refl)).
Defined.

(** X11. The view's [removePackage]: unless the user answers [Yes], it
    does nothing beyond the dialog and does not refresh the tree.  After a
    [Yes] on a node with a package directory, it refreshes the tree exactly
    when [NpmQuickPickProvider.removePackage] returns normally (also when
    that routine removed nothing); when the routine throws, the tree is
    not refreshed and the failure message is shown a second time. *)
Theorem X11_view_removal_refreshes_unless_it_fails :
  forall w node answer s,
    let confirm :=
      ShowWarningMessage
        (Text ("Are you sure you want to remove " +:+ Dependency.label node +:+ "?")) in
    let run := NodeDependenciesView.removePackage w node answer s in
    let inner :=
      NpmQuickPickProvider.removePackage
        w (Dependency.label node) (Dependency.workspaceDir node)
        (snd (emit confirm s)) in
    (answer <> Some "Yes" ->
     fst run = false /\ newEvents s (snd run) = [confirm]) /\
    (answer = Some "Yes" ->
     Str.truthy (Dependency.workspaceDir node) = true ->
     match fst inner with
     | Ok _ => fst run = true /\ snd run = snd inner
     | Throw e =>
         fst run = false /\
         exists before,
           newEvents s (snd run) =
           confirm :: before ++ [removalFailed e; removalFailed e] /\
           Forall isShellCommand before
     end).
Proof.
  intros w node answer s confirm run inner. subst run inner. split.
  - intros No. unfold NodeDependenciesView.removePackage. fold confirm.
    unfold bind at 1. cbn [emit].
    destruct answer as [button |].
    + destruct (String.eqb_spec button "Yes") as [-> | _]; [congruence |].
      cbn. split; [reflexivity |]. now apply newEvents_app.
    + cbn. split; [reflexivity |]. now apply newEvents_app.
  - intros -> T. unfold NodeDependenciesView.removePackage. fold confirm.
    unfold bind. cbn [emit snd]. cbn [String.eqb Ascii.eqb Bool.eqb negb].
    rewrite T. cbn [negb].
    set (s0 := {| cache := cache s; now := now s; log := log s ++ [confirm] |}).
    pose proof (removePackage_throws w (Dependency.label node)
                  (Dependency.workspaceDir node) s0) as Thrown.
    destruct (NpmQuickPickProvider.removePackage w (Dependency.label node)
                (Dependency.workspaceDir node) s0) as [[[] | e] s1].
    + cbn. auto.
    + cbn [fst snd] in *. split; [reflexivity |].
      destruct (Thrown e eq_refl) as (before & L & Shell & _).
      exists before. split; [| exact Shell].
      apply newEvents_app. cbn. rewrite L. subst s0. cbn.
      rewrite <- !app_assoc. reflexivity.
Qed.

Example view_removal_shows_the_failure_twice :
  NodeDependenciesView.removePackage failingProject axiosNode (Some "Yes") start =
  (false,
   {| cache := ∅; now := 2000;
      log := [ ShowWarningMessage (Text "Are you sure you want to remove axios?");
               Task "/proj" "yarn remove axios && yarn remove @types/axios";
               removalFailed (TaskFailed (Some 1));
               removalFailed (TaskFailed (Some 1)) ] |}).
Proof. reflexivity. Qed.

(** X12. The command name handed to the task definition, the text of the
    command up to its first blank, is the name of the detected package
    manager, for every installation and every removal; the probe for the
    types companion starts with it as well. *)
Theorem X12_commands_start_with_the_manager :
  forall manager pkg installType includeTypes packageName hasTypesPackage,
    Str.split0 " " (NpmQuickPickProvider.buildInstallCommand
                      manager pkg installType includeTypes)
    = PackageManager_toString manager /\
    Str.split0 " " (NpmQuickPickProvider.buildRemoveCommand
                      manager packageName hasTypesPackage)
    = PackageManager_toString manager /\
    Str.split0 " " (NpmQuickPickProvider.checkCommand manager packageName)
    = PackageManager_toString manager.
Proof.
  intros manager pkg installType includeTypes packageName hasTypesPackage.
  unfold NpmQuickPickProvider.buildInstallCommand,
    NpmQuickPickProvider.buildRemoveCommand, NpmQuickPickProvider.checkCommand.
  repeat split.
  - destruct manager, includeTypes,
      (String.eqb installType "--save-dev"), (String.eqb installType "--save-peer");
      reflexivity.
  - destruct manager, hasTypesPackage; reflexivity.
  - destruct manager; reflexivity.
Qed.

(** ** The view: following the active editor, opening the manifest *)

Lemma relevant_manifest_truthy this w p :
  DepNodeProvider.getRelevantPackageJsonPath this w = Some p ->
  Str.truthy p = true.
Proof.
  unfold DepNodeProvider.getRelevantPackageJsonPath.
  destruct (DepNodeProvider.getActivePackageJsonPath this w) as [active |].
  - destruct (Str.truthy active) eqn:T; [now intros [= <-] |].
    destruct (pathExists w _); [| discriminate].
    intros [= <-]. apply join_truthy.
  - destruct (pathExists w _); [| discriminate].
    intros [= <-]. apply join_truthy.
Qed.

(** X13. [handleDocumentChange] refreshes the tree only for a manifest
    that exists and differs from the one shown last, and records it; a
    second notification in the same surroundings neither refreshes nor
    changes the view. *)
Theorem X13_document_change_refreshes_once :
  forall this w,
    let after := fst (NodeDependenciesView.handleDocumentChange this w) in
    NodeDependenciesView.handleDocumentChange after w = (after, false) /\
    (snd (NodeDependenciesView.handleDocumentChange this w) = true ->
     exists p,
       DepNodeProvider.getRelevantPackageJsonPath
         (NodeDependenciesView.depNodeProvider this) w = Some p /\
       NodeDependenciesView.lastActivePackageJson this <> Some p /\
       NodeDependenciesView.lastActivePackageJson after = Some p /\
       pathExists w p = true).
Proof.
  intros this w after. subst after.
  unfold NodeDependenciesView.handleDocumentChange.
  destruct (DepNodeProvider.getRelevantPackageJsonPath
              (NodeDependenciesView.depNodeProvider this) w) as [p |] eqn:R.
  2:{ cbn [fst snd]. rewrite R. split; [reflexivity | discriminate]. }
  rewrite (relevant_manifest_truthy _ _ _ R). cbn [andb].
  destruct (NodeDependenciesView.differs p
              (NodeDependenciesView.lastActivePackageJson this)) eqn:D;
    cbn [fst snd NodeDependenciesView.depNodeProvider
         NodeDependenciesView.lastActivePackageJson].
  - rewrite R, (relevant_manifest_truthy _ _ _ R).
    cbn [andb NodeDependenciesView.differs]. rewrite String.eqb_refl.
    split; [reflexivity |]. intros _. exists p. repeat split.
    + intros E. rewrite E in D. cbn in D. now rewrite String.eqb_refl in D.
    + exact (proj2 (relevant_manifest_exists _ w) p R).
  - rewrite R, (relevant_manifest_truthy _ _ _ R), D.
    split; [reflexivity | discriminate].
Qed.

(** X14. While the view is hidden, a change of editor neither refreshes
    nor changes the view.  Hiding forgets the manifest shown last, so that
    showing the view again refreshes the tree whenever a manifest is
    relevant, also when it is the one shown before. *)
Theorem X14_showing_the_view_refreshes :
  forall this w w',
    NodeDependenciesView.onDidChangeActiveTextEditor this w false = (this, false) /\
    snd (NodeDependenciesView.onDidChangeVisibility this w false) = false /\
    snd (NodeDependenciesView.onDidChangeVisibility
           (fst (NodeDependenciesView.onDidChangeVisibility this w false)) w' true)
    = match DepNodeProvider.getRelevantPackageJsonPath
              (NodeDependenciesView.depNodeProvider this) w' with
      | Some _ => true
      | None => false
      end.
Proof.
  intros this w w'. repeat split.
  unfold NodeDependenciesView.onDidChangeVisibility,
    NodeDependenciesView.enableDocumentListener,
    NodeDependenciesView.disableDocumentListener,
    NodeDependenciesView.handleDocumentChange.
  cbn [fst snd NodeDependenciesView.depNodeProvider
       NodeDependenciesView.lastActivePackageJson NodeDependenciesView.differs].
  destruct (DepNodeProvider.getRelevantPackageJsonPath
              (NodeDependenciesView.depNodeProvider this) w') as [p |] eqn:R;
    [| reflexivity].
  now rewrite (relevant_manifest_truthy _ _ _ R).
Qed.

Example view_follows_the_editor :
  let shown := NodeDependenciesView.onDidChangeVisibility freshView monorepo true in
  shown =
    ({| NodeDependenciesView.depNodeProvider := provider "/ws";
        NodeDependenciesView.lastActivePackageJson :=
          Some "/ws/packages/a/package.json" |}, true) /\
  NodeDependenciesView.onDidChangeActiveTextEditor (fst shown) monorepo true =
    (fst shown, false).
Proof. split; reflexivity. Qed.

Lemma bind_ret {A B} (a : A) (k : A -> M B) : bind (ret a) k = k a.
Proof. reflexivity. Qed.

(** X15. [openPackageJsonInEditor] opens only a file that exists: the
    manifest in the node's own directory if there is one, else the
    manifest of the first workspace folder; for a node it then searches
    for the node's name in double quotes.  It opens nothing, with an error
    message, when there is no workspace folder or when the manifest of the
    first workspace folder is missing too. *)
Theorem X15_editor_opens_only_existing_manifests :
  forall w node s,
    let run := NodeDependenciesView.openPackageJsonInEditor w node s in
    match fst run with
    | Some opened =>
        snd run = s /\
        pathExists w (NodeDependenciesView.document opened) = true /\
        NodeDependenciesView.searchString opened =
          (fun n => NodeDependenciesView.quote +:+ Dependency.label n +:+
                    NodeDependenciesView.quote) <$> node /\
        exists root,
          head (workspaceFolders w) = Some root /\
          ((exists n,
               node = Some n /\ Str.truthy (Dependency.workspaceDir n) = true /\
               NodeDependenciesView.document opened =
               Path.join [Dependency.workspaceDir n; "package.json"]) \/
           NodeDependenciesView.document opened = Path.join [root; "package.json"] /\
           forall n,
             node = Some n -> Str.truthy (Dependency.workspaceDir n) = true ->
             pathExists w (Path.join [Dependency.workspaceDir n; "package.json"])
             = false)
    | None =>
        match workspaceFolders w with
        | [] =>
            newEvents s (snd run) =
            [ShowErrorMessage (Text "No workspace folder found")]
        | root :: _ =>
            if Str.truthy root then
              pathExists w (Path.join [root; "package.json"]) = false /\
              newEvents s (snd run) =
              [ShowErrorMessage (Text "package.json not found")]
            else snd run = s
        end
    end.
Proof.
  intros w node s run. subst run.
  unfold NodeDependenciesView.openPackageJsonInEditor,
    NodeDependenciesView.getWorkspaceRoot.
  destruct (workspaceFolders w) as [| root rest].
  { cbn. now apply newEvents_app. }
  rewrite bind_ret.
  destruct (Str.truthy root) eqn:T; cbn [negb]; [| reflexivity].
  cbv zeta.
  assert (Root : forall searched,
             (forall n,
                 node = Some n -> Str.truthy (Dependency.workspaceDir n) = true ->
                 pathExists w (Path.join [Dependency.workspaceDir n; "package.json"])
                 = false) ->
             let run :=
               (if pathExists w (Path.join [root; "package.json"])
                then ret (Some {| NodeDependenciesView.document :=
                                    Path.join [root; "package.json"];
                                  NodeDependenciesView.searchString := searched |})
                else emit (ShowErrorMessage (Text "package.json not found")) ;;;
                     ret None) s in
             match fst run with
             | Some opened =>
                 snd run = s /\
                 pathExists w (NodeDependenciesView.document opened) = true /\
                 NodeDependenciesView.searchString opened = searched /\
                 exists r,
                   head (root :: rest) = Some r /\
                   ((exists n,
                        node = Some n /\
                        Str.truthy (Dependency.workspaceDir n) = true /\
                        NodeDependenciesView.document opened =
                        Path.join [Dependency.workspaceDir n; "package.json"]) \/
                    NodeDependenciesView.document opened =
                    Path.join [r; "package.json"] /\
                    forall n,
                      node = Some n ->
                      Str.truthy (Dependency.workspaceDir n) = true ->
                      pathExists w
                        (Path.join [Dependency.workspaceDir n; "package.json"])
                      = false)
             | None =>
                 pathExists w (Path.join [root; "package.json"]) = false /\
                 newEvents s (snd run) =
                 [ShowErrorMessage (Text "package.json not found")]
             end).
  { intros searched Missing.
    destruct (pathExists w (Path.join [root; "package.json"])) eqn:X; cbn.
    - repeat split; auto. exists root. split; [reflexivity |]. right. auto.
    - split; [reflexivity |]. now apply newEvents_app. }
  destruct node as [n |].
  2:{ apply Root. discriminate. }
  destruct (Str.truthy (Dependency.workspaceDir n)) eqn:D.
  2:{ apply Root. intros n' [= <-]. congruence. }
  destruct (pathExists w (Path.join [Dependency.workspaceDir n; "package.json"])) eqn:X.
  2:{ apply Root. now intros n' [= <-]. }
  rewrite X. cbn. repeat split; auto.
  exists root. split; [reflexivity |]. left. exists n. auto.
Qed.

(** ** The registry client: what the cache remembers *)

Section CacheMore.

Variables (w : World) (packageName : string) (version : option string).

Let key := NpmApiService.cacheKey packageName version.
Let lookup := NpmApiService.getPackageInfo w packageName version.

(** The message of the [catch] block of [getPackageInfo]. *)
Let failure (e : JsError) : Event :=
  ShowErrorMessage (TextWithError "Failed to fetch package information: " e).

(** The warning for a package the registry does not know. *)
Let unknown : Event :=
  ShowWarningMessage
    (Text ("Package '" +:+ packageName +:+ "' not found on npm registry")).

(** Every way a lookup has of going, by what it finds. *)
Lemma getPackageInfo_cases s :
  (* a fresh entry *)
  (exists data, NpmApiService.fresh s key = Some data /\ lookup s = (data, s)) \/
  NpmApiService.fresh s key = None /\
  ((* no address *)
   (exists e,
       NpmApiService.url packageName version = Throw e /\
       lookup s =
       (None, {| cache := cache s; now := now s; log := log s ++ [failure e] |})) \/
   exists u,
     NpmApiService.url packageName version = Ok u /\
     ((* an answer that is stored *)
      (exists data took,
          fetched w u (now s) data took /\
          lookup s =
          (data,
           {| cache := <[key := (data, now s + took)]> (cache s);
              now := now s + took;
              log := log s ++ [Fetch u] |})) \/
      (* a failure *)
      fetchFailed w u (now s) /\
      fst (lookup s) = None /\ cache (snd (lookup s)) = cache s /\
      now (snd (lookup s)) = now s + snd (fetch w u (now s)) /\
      exists message,
        log (snd (lookup s)) = log s ++ [Fetch u; message] /\
        (message = unknown \/ exists e, message = failure e))).
Proof.
  unfold lookup, key.
  destruct (NpmApiService.fresh s (NpmApiService.cacheKey packageName version))
    as [cached |] eqn:F.
  { left. exists cached. split; [reflexivity |]. now apply getPackageInfo_hit. }
  right. split; [reflexivity |].
  destruct (NpmApiService.url packageName version) as [u | e] eqn:U.
  2:{ left. exists e. split; [reflexivity |]. now apply getPackageInfo_unencodable. }
  right. exists u. split; [reflexivity |].
  destruct (fetched_or_failed w u s) as [(data & took & H) | H].
  - left. exists data, took. split; [exact H |].
    now apply getPackageInfo_miss_fetched.
  - right. split; [exact H |].
    now apply (getPackageInfo_miss_failed w packageName version s u).
Qed.

(** A lookup that yields data has the data in the cache afterwards,
    stamped no later than the clock shows. *)
Lemma getPackageInfo_some s data :
  fst (lookup s) = Some data ->
  NpmApiService.fresh s key = Some (Some data) /\ lookup s = (Some data, s) \/
  NpmApiService.fresh s key = None /\
  exists u took,
    NpmApiService.url packageName version = Ok u /\
    lookup s =
    (Some data,
     {| cache := <[key := (Some data, now s + took)]> (cache s);
        now := now s + took;
        log := log s ++ [Fetch u] |}).
Proof.
  intros R.
  destruct (getPackageInfo_cases s)
    as [(cached & F & E) |
        (F & [(e & U & E) |
              (u & U & [(fetchedData & took & H & E) | (_ & N & _)])])].
  - rewrite E in R. cbn in R. subst cached. now left.
  - rewrite E in R. discriminate R.
  - rewrite E in R. cbn in R. subst fetchedData. right. split; [exact F |].
    now exists u, took.
  - congruence.
Qed.

(** X16. A lookup touches at most the cache entry of its own key: every
    other entry stays as it is, and no entry is ever removed. *)
Theorem X16_lookup_touches_one_key :
  forall s k,
    (k <> key -> cache (snd (lookup s)) !! k = cache s !! k) /\
    (is_Some (cache s !! k) -> is_Some (cache (snd (lookup s)) !! k)).
Proof.
  intros s k.
  destruct (getPackageInfo_cases s)
    as [(cached & F & E) |
        (F & [(e & U & E) |
              (u & U & [(data & took & H & E) | (_ & _ & C & _)])])];
    try (rewrite E; cbn [snd cache]; auto; fail).
  - rewrite E. cbn [snd cache]. unfold key. split.
    + intros N. now rewrite lookup_insert_ne.
    + intros I.
      destruct (decide (NpmApiService.cacheKey packageName version = k)) as [<- | N].
      * rewrite lookup_insert_eq. eauto.
      * now rewrite lookup_insert_ne.
  - rewrite C. auto.
Qed.

(** X17. Data that a lookup has returned is remembered: the same lookup
    made again at once is answered from the cache with the same data,
    whatever has become of the network, and changes nothing.  When the
    data came from the registry this stays so for every moment less than
    an hour after the answer arrived. *)
Theorem X17_successful_lookup_is_remembered :
  forall w' s data,
    fst (lookup s) = Some data ->
    let s1 := snd (lookup s) in
    NpmApiService.getPackageInfo w' packageName version s1 = (Some data, s1) /\
    (NpmApiService.fresh s key = None ->
     forall ms,
       ms < NpmApiService.CACHE_DURATION ->
       NpmApiService.getPackageInfo w' packageName version (snd (elapse ms s1)) =
       (Some data, snd (elapse ms s1))).
Proof.
  intros w' s data R s1. subst s1.
  destruct (getPackageInfo_some s data R) as [(F & E) | (F & u & took & U & E)];
    rewrite E; cbn [snd]; unfold key in *.
  - split; [| congruence].
    now apply getPackageInfo_hit.
  - split.
    + apply getPackageInfo_hit. unfold NpmApiService.fresh. cbn [cache now].
      rewrite lookup_insert_eq.
      replace (now s + took - (now s + took)) with 0 by lia. reflexivity.
    + intros _ ms L. apply getPackageInfo_hit.
      unfold NpmApiService.fresh, elapse. cbn [snd cache now].
      rewrite lookup_insert_eq.
      replace (now s + took + ms - (now s + took)) with ms by lia.
      apply Z.ltb_lt in L. now rewrite L.
Qed.



(** X19. [clearCache] empties the cache and touches nothing else; the
    next lookup of any package is not answered from the cache: it asks the
    registry, unless the name or the version cannot be encoded, in which
    case it shows the error and makes no request. *)
Theorem X19_clearing_the_cache_forces_a_request :
  forall s,
    let cleared := snd (NpmApiService.clearCache s) in
    cache cleared = ∅ /\ now cleared = now s /\ log cleared = log s /\
    match NpmApiService.url packageName version with
    | Ok u => exists rest, newEvents cleared (snd (lookup cleared)) = Fetch u :: rest
    | Throw e => newEvents cleared (snd (lookup cleared)) = [failure e]
    end.
Proof.
  intros s cleared. subst cleared.
  unfold NpmApiService.clearCache, setCache. cbn [snd cache now log].
  split; [reflexivity |]. split; [reflexivity |]. split; [reflexivity |].
  assert (F : NpmApiService.fresh
                {| cache := ∅; now := now s; log := log s |} key = None).
  { unfold NpmApiService.fresh. cbn [cache]. now rewrite lookup_empty. }
  destruct (NpmApiService.url packageName version) as [u | e] eqn:U.
  - destruct (getPackageInfo_miss_log w packageName version _ u F U)
      as (rest & E & _).
    exists rest. now apply newEvents_app.
  - unfold lookup. rewrite (getPackageInfo_unencodable w packageName version _ e F U).
    now apply newEvents_app.
Qed.

End CacheMore.

Lemma X17_registry_witness :
  NpmApiService.getPackageInfo offline "lodash" None afterFirstLookup =
  (Some (release "lodash" "1.0.0"), afterFirstLookup).
Proof.
  exact (proj1 (X17_successful_lookup_is_remembered
                  registry "lodash" None offline start
                  (release "lodash" "1.0.0") eq_refl)).
Defined.


(** ** The registry client: the address of a package *)

Lemma encode_hex a :
  Uri.unreserved (Uri.hexDigit (N_of_ascii a / 16)) = true /\
  Uri.unreserved (Uri.hexDigit (N_of_ascii a mod 16)) = true.
Proof. destruct a as [[] [] [] [] [] [] [] []]; split; reflexivity. Qed.

(** The escaping writes unreserved characters and percent signs only. *)
Lemma escape_alphabet s a :
  In a (Str.chars (Uri.escape s)) ->
  Uri.unreserved a = true \/ a = "%"%char.
Proof.
  unfold Str.chars. induction s as [| c s IH]; cbn [Uri.escape].
  { intros []. }
  destruct (Uri.unreserved c) eqn:U; cbn [list_ascii_of_string In].
  - intros [<- | I]; auto.
  - destruct (encode_hex c) as (High & Low).
    intros [<- | [<- | [<- | I]]]; auto.
Qed.

Lemma escape_no_slash s : ~ In "/"%char (Str.chars (Uri.escape s)).
Proof.
  intros I. apply escape_alphabet in I.
  destruct I as [U | E]; discriminate.
Qed.

(** What [encodeURIComponent] returns, it has escaped. *)
Lemma encodeURIComponent_ok s escaped :
  Uri.encodeURIComponent s = Ok escaped <->
  Uri.loneSurrogate s = false /\ escaped = Uri.escape s.
Proof.
  unfold Uri.encodeURIComponent. destruct (Uri.loneSurrogate s); split.
  - discriminate.
  - intros (C & _). discriminate.
  - intros [= <-]. auto.
  - intros (_ & ->). reflexivity.
Qed.

Lemma encodeURIComponent_throws s e :
  Uri.encodeURIComponent s = Throw e <->
  Uri.loneSurrogate s = true /\ e = URIError.
Proof.
  unfold Uri.encodeURIComponent. destruct (Uri.loneSurrogate s); split.
  - intros [= <-]. auto.
  - intros (_ & ->). reflexivity.
  - discriminate.
  - intros (C & _). discriminate.
Qed.

Lemma split_plain c x : ~ In c (Str.chars x) -> Str.split c x = [x].
Proof.
  unfold Str.chars. induction x as [| a x IH]; [reflexivity |].
  cbn [list_ascii_of_string In Str.split]. intros N.
  destruct (Ascii.eqb_spec a c) as [-> | _]; [tauto |].
  rewrite IH by tauto. reflexivity.
Qed.

Lemma split_app c x y :
  ~ In c (Str.chars x) -> Str.split c (x +:+ String c y) = x :: Str.split c y.
Proof.
  unfold Str.chars. induction x as [| a x IH].
  - intros _. change (EmptyString +:+ String c y) with (String c y).
    cbn [Str.split]. now rewrite Ascii.eqb_refl.
  - cbn [list_ascii_of_string In]. intros N.
    change (String a x +:+ String c y) with (String a (x +:+ String c y)).
    cbn [Str.split].
    destruct (Ascii.eqb_spec a c) as [-> | _]; [tauto |].
    rewrite IH by tauto. reflexivity.
Qed.

Lemma append_assoc (a b c : string) : (a +:+ b) +:+ c = a +:+ (b +:+ c).
Proof.
  induction a as [| x a IH]; [reflexivity |].
  change (String x ((a +:+ b) +:+ c) = String x (a +:+ (b +:+ c))).
  now rewrite IH.
Qed.

(** The address of a lookup, when it can be built, and its path
    segments. *)
Lemma url_segments packageName version :
  match NpmApiService.url packageName version with
  | Ok u =>
      Uri.loneSurrogate packageName = false /\
      (forall v, version = Some v -> Str.truthy v = true ->
                 Uri.loneSurrogate v = false) /\
      Str.split "/" u =
      ["https:"; EmptyString; "registry.npmjs.org"; Uri.escape packageName] ++
      match version with
      | Some v => if Str.truthy v then [Uri.escape v] else []
      | None => []
      end
  | Throw e =>
      e = URIError /\
      (Uri.loneSurrogate packageName = true \/
       exists v, version = Some v /\ Str.truthy v = true /\
                 Uri.loneSurrogate v = true)
  end.
Proof.
  assert (Base : forall rest,
             Str.split "/" (NpmApiService.NPM_REGISTRY +:+ "/" +:+ rest) =
             "https:" :: EmptyString :: "registry.npmjs.org" :: Str.split "/" rest).
  { intros rest.
    change (NpmApiService.NPM_REGISTRY +:+ "/" +:+ rest)
      with ("https:" +:+ String "/" (EmptyString +:+ String "/"
              ("registry.npmjs.org" +:+ String "/" rest))).
    rewrite !split_app; [reflexivity | | |]; cbn; intuition discriminate. }
  assert (Plain : Str.split "/" (NpmApiService.NPM_REGISTRY +:+ "/" +:+
                                 Uri.escape packageName) =
                  ["https:"; EmptyString; "registry.npmjs.org";
                   Uri.escape packageName]).
  { rewrite Base, split_plain by apply escape_no_slash. reflexivity. }
  unfold NpmApiService.url, Uri.encodeURIComponent.
  destruct (Uri.loneSurrogate packageName) eqn:Name; [auto |].
  cbv zeta.
  destruct version as [v |].
  2:{ split; [reflexivity |]. split; [discriminate |]. now rewrite Plain, app_nil_r. }
  destruct (Str.truthy v) eqn:T.
  2:{ split; [reflexivity |]. split; [intros v' [= <-]; congruence |].
      now rewrite Plain, app_nil_r. }
  destruct (Uri.loneSurrogate v) eqn:Version.
  { split; [reflexivity |]. right. exists v. auto. }
  split; [reflexivity |]. split; [now intros v' [= <-] |].
  rewrite !append_assoc, Base.
  change ("/" +:+ Uri.escape v) with (String "/" (Uri.escape v)).
  rewrite split_app by apply escape_no_slash.
  rewrite split_plain by apply escape_no_slash. reflexivity.
Qed.

(** X20. The address [getPackageInfo] asks for has the registry's host
    and then one path segment for the package name and, for a version,
    one more: whatever slash the name or the version holds is escaped.
    The address cannot be built, with a [URIError], exactly when the name,
    or the version in use, holds a surrogate without its partner. *)
Theorem X20_registry_url_segments :
  forall packageName version,
    match NpmApiService.url packageName version with
    | Ok u =>
        Uri.loneSurrogate packageName = false /\
        (forall v, version = Some v -> Str.truthy v = true ->
                   Uri.loneSurrogate v = false) /\
        Str.split "/" u =
        ["https:"; EmptyString; "registry.npmjs.org"; Uri.escape packageName] ++
        match version with
        | Some v => if Str.truthy v then [Uri.escape v] else []
        | None => []
        end
    | Throw e =>
        e = URIError /\
        (Uri.loneSurrogate packageName = true \/
         exists v, version = Some v /\ Str.truthy v = true /\
                   Uri.loneSurrogate v = true)
    end.
Proof. exact url_segments. Qed.

Lemma hexDigit_code n :
  (n < 16)%N ->
  N_of_ascii (Uri.hexDigit n) = if (n <? 10)%N then (48 + n)%N else (55 + n)%N.
Proof.
  intros L. unfold Uri.hexDigit.
  destruct (n <? 10)%N; apply N_ascii_embedding; lia.
Qed.

Lemma hexDigit_inj n m :
  (n < 16)%N -> (m < 16)%N -> Uri.hexDigit n = Uri.hexDigit m -> n = m.
Proof.
  intros Ln Lm E. apply (f_equal N_of_ascii) in E.
  rewrite !hexDigit_code in E by assumption.
  destruct (N.ltb_spec n 10), (N.ltb_spec m 10); lia.
Qed.

(** The two hexadecimal digits determine the character. *)
Lemma encode_hex_inj a b :
  Uri.hexDigit (N_of_ascii a / 16) = Uri.hexDigit (N_of_ascii b / 16) ->
  Uri.hexDigit (N_of_ascii a mod 16) = Uri.hexDigit (N_of_ascii b mod 16) ->
  a = b.
Proof.
  intros High Low.
  pose proof (N_ascii_bounded a) as La. pose proof (N_ascii_bounded b) as Lb.
  apply hexDigit_inj in High;
    [| apply N.Div0.div_lt_upper_bound; lia | apply N.Div0.div_lt_upper_bound; lia].
  apply hexDigit_inj in Low; [| apply N.mod_lt; lia | apply N.mod_lt; lia].
  rewrite <- (ascii_N_embedding a), <- (ascii_N_embedding b). f_equal.
  rewrite (N.div_mod (N_of_ascii a) 16), (N.div_mod (N_of_ascii b) 16) by lia.
  now rewrite High, Low.
Qed.

Lemma escape_inj a b : Uri.escape a = Uri.escape b -> a = b.
Proof.
  revert b. induction a as [| x a IH]; intros [| y b]; cbn [Uri.escape].
  - reflexivity.
  - destruct (Uri.unreserved y); discriminate.
  - destruct (Uri.unreserved x); discriminate.
  - destruct (Uri.unreserved x) eqn:Ux, (Uri.unreserved y) eqn:Uy.
    + intros [= -> E]. now rewrite (IH _ E).
    + intros [= -> E]. discriminate.
    + intros [= <- E]. discriminate.
    + intros [= High Low E].
      now rewrite (encode_hex_inj _ _ High Low), (IH _ E).
Qed.

(** X21. The address determines the lookup: two lookups that ask for the
    same address are lookups of the same package name, and they share
    their cache key. *)
Theorem X21_registry_url_determines_the_package :
  forall a va b vb u,
    NpmApiService.url a va = Ok u ->
    NpmApiService.url b vb = Ok u ->
    a = b /\ NpmApiService.cacheKey a va = NpmApiService.cacheKey b vb.
Proof.
  intros a va b vb u Ua Ub.
  pose proof (url_segments a va) as Sa. pose proof (url_segments b vb) as Sb.
  rewrite Ua in Sa. rewrite Ub in Sb.
  destruct Sa as (_ & _ & Sa), Sb as (_ & _ & Sb).
  rewrite Sa in Sb. cbn [app] in Sb.
  injection Sb as Name Version. apply escape_inj in Name. subst b.
  split; [reflexivity |].
  unfold NpmApiService.cacheKey.
  destruct va as [v |], vb as [v' |];
    try destruct (Str.truthy v) eqn:T; try destruct (Str.truthy v') eqn:T';
    try discriminate; try reflexivity.
  injection Version as Version. apply escape_inj in Version.
  now subst v'.
Qed.

Lemma X21_empty_version_witness :
  ("lodash" = "lodash") /\
  (NpmApiService.cacheKey "lodash" (Some EmptyString) =
   NpmApiService.cacheKey "lodash" None).
Proof.
  exact (X21_registry_url_determines_the_package
           "lodash" (Some EmptyString) "lodash" None
           "https://registry.npmjs.org/lodash" eq_refl eq_refl).
Defined.

Example scoped_package_url :
  NpmApiService.url "@babel/core" (Some "7.0.0") =
  Ok "https://registry.npmjs.org/%40babel%2Fcore/7.0.0".
Proof. reflexivity. Qed.

Example lone_surrogate_has_no_url :
  NpmApiService.url loneHigh None = Throw URIError.
Proof. reflexivity. Qed.

(** *** The keys of the cache are keys of lookups that had an address *)

Lemma loneSurrogate_at a b :
  Uri.loneSurrogate (a +:+ String "@" b) =
  Uri.loneSurrogate a || Uri.loneSurrogate b.
Proof.
  induction a as [| x a IH].
  - change (EmptyString +:+ String "@" b) with (String "@" b).
    cbn [Uri.loneSurrogate orb]. destruct b as [| y b]; reflexivity.
  - change (String x a +:+ String "@" b) with (String x (a +:+ String "@" b)).
    destruct a as [| y a].
    + change (EmptyString +:+ String "@" b) with (String "@" b) in *.
      change (Uri.loneSurrogate (String x (String "@" b)))
        with (Uri.surrogateLead x "@" || Uri.loneSurrogate (String "@" b)).
      rewrite IH. cbn [Uri.loneSurrogate orb].
      replace (Uri.surrogateLead x "@") with false; [reflexivity |].
      unfold Uri.surrogateLead. cbn. now rewrite andb_false_r.
    + change (String y a +:+ String "@" b) with (String y (a +:+ String "@" b)) in *.
      change (Uri.loneSurrogate (String x (String y (a +:+ String "@" b))))
        with (Uri.surrogateLead x y ||
              Uri.loneSurrogate (String y (a +:+ String "@" b))).
      rewrite IH.
      change (Uri.loneSurrogate (String x (String y a)))
        with (Uri.surrogateLead x y || Uri.loneSurrogate (String y a)).
      now rewrite orb_assoc.
Qed.

(** The address of a lookup can be built exactly when its cache key holds
    no lone surrogate. *)
Lemma url_ok_iff packageName version :
  (exists u, NpmApiService.url packageName version = Ok u) <->
  Uri.loneSurrogate (NpmApiService.cacheKey packageName version) = false.
Proof.
  unfold NpmApiService.url, NpmApiService.cacheKey, Uri.encodeURIComponent.
  destruct version as [v |]; [destruct (Str.truthy v) |].
  - change (packageName +:+ "@" +:+ v) with (packageName +:+ String "@" v).
    rewrite loneSurrogate_at.
    destruct (Uri.loneSurrogate packageName), (Uri.loneSurrogate v); cbn;
      split; try discriminate; eauto; intros (u & C); discriminate.
  - destruct (Uri.loneSurrogate packageName); cbn;
      split; try discriminate; eauto; intros (u & C); discriminate.
  - destruct (Uri.loneSurrogate packageName); cbn;
      split; try discriminate; eauto; intros (u & C); discriminate.
Qed.

Lemma wellKeyed_start : wellKeyed start.
Proof. intros key [entry C]. cbn in C. now rewrite lookup_empty in C. Qed.

Lemma wellKeyed_clearCache s : wellKeyed (snd (NpmApiService.clearCache s)).
Proof. intros key [entry C]. cbn in C. now rewrite lookup_empty in C. Qed.

Lemma wellKeyed_keeps {A} (m : M A) s : keeps m -> wellKeyed s -> wellKeyed (snd (m s)).
Proof. intros K W key. rewrite (K s). apply W. Qed.

(** Lookups keep the keys well formed: an entry is stored only after the
    address has been built. *)
Lemma wellKeyed_getPackageInfo w packageName version s :
  wellKeyed s ->
  wellKeyed (snd (NpmApiService.getPackageInfo w packageName version s)).
Proof.
  intros W key.
  destruct (getPackageInfo_cases w packageName version s)
    as [(cached & F & E) |
        (F & [(e & U & E) |
              (u & U & [(data & took & H & E) | (_ & _ & C & _)])])];
    try (rewrite E; cbn [snd cache]; apply W).
  - rewrite E. cbn [snd cache].
    destruct (decide (NpmApiService.cacheKey packageName version = key)) as [<- | N].
    + intros _. apply url_ok_iff. eauto.
    + rewrite lookup_insert_ne by exact N. apply W.
  - rewrite C. apply W.
Qed.

(** So the lookup of a key that has an entry has an address. *)
Lemma cached_lookups_have_addresses s packageName version :
  wellKeyed s ->
  is_Some (cache s !! NpmApiService.cacheKey packageName version) ->
  exists u, NpmApiService.url packageName version = Ok u.
Proof. intros W I. apply url_ok_iff. now apply W. Qed.

(** ** The tree: when there is nothing to list *)

Lemma getDepsInPackageJson_throws this w p e :
  DepNodeProvider.getDepsInPackageJson this w p = Throw e ->
  e = ReadError p /\ pathExists w p = true /\ parseFile w p = Throw e.
Proof.
  unfold DepNodeProvider.getDepsInPackageJson.
  destruct (DepNodeProvider.workspaceRoot this) as [root |]; [| discriminate].
  destruct (pathExists w p) eqn:X; cbn [andb]; [| discriminate].
  destruct (Str.truthy root); [| discriminate].
  destruct (parseFile w p) as [json | err] eqn:Parsed; [discriminate |].
  intros [= ->]. repeat split.
  unfold parseFile in Parsed.
  destruct (fs w p) as [[| [j |]] |]; congruence.
Qed.

(** X22. [getChildren] changes neither the cache nor the clock and runs
    nothing; it shows at most one note, and then lists nothing.  It fails
    only on a manifest that exists but cannot be read as JSON.  A node
    whose package has no manifest under the [node_modules] of the
    workspace root has no children, without any note. *)
Theorem X22_children_fail_only_on_unreadable_manifests :
  forall this w element s,
    let run := DepNodeProvider.getChildren this w element s in
    cache (snd run) = cache s /\ now (snd run) = now s /\
    (newEvents s (snd run) = [] \/
     fst run = Ok [] /\
     exists text, newEvents s (snd run) = [ShowInformationMessage (Text text)]) /\
    (forall e,
        fst run = Throw e ->
        exists p, e = ReadError p /\ pathExists w p = true /\
                  parseFile w p = Throw e) /\
    (forall root node,
        DepNodeProvider.workspaceRoot this = Some root ->
        Str.truthy root = true ->
        element = Some node ->
        pathExists w (Path.join [root; "node_modules"; Dependency.label node;
                                 "package.json"]) = false ->
        run = (Ok [], s)).
Proof.
  intros this w element s run. subst run.
  unfold DepNodeProvider.getChildren.
  assert (Note : forall text,
             let run := (emit (ShowInformationMessage (Text text)) ;;;
                         ret (Ok [])) s in
             cache (snd run) = cache s /\ now (snd run) = now s /\
             (newEvents s (snd run) = [] \/
              fst run = @Ok (list Dependency.t) [] /\
              exists text, newEvents s (snd run) = [ShowInformationMessage (Text text)]) /\
             (forall e,
                 fst run = Throw e ->
                 exists p, e = ReadError p /\ pathExists w p = true /\
                           parseFile w p = Throw e)).
  { intros text. cbn. repeat split.
    - right. split; [reflexivity |]. exists text. now apply newEvents_app.
    - discriminate. }
  assert (Quiet : forall p,
             let run := ret (DepNodeProvider.getDepsInPackageJson this w p) s in
             cache (snd run) = cache s /\ now (snd run) = now s /\
             (newEvents s (snd run) = [] \/
              fst run = Ok [] /\
              exists text, newEvents s (snd run) = [ShowInformationMessage (Text text)]) /\
             (forall e,
                 fst run = Throw e ->
                 exists p, e = ReadError p /\ pathExists w p = true /\
                           parseFile w p = Throw e)).
  { intros p. cbn. repeat split.
    - left. apply newEvents_app. now rewrite app_nil_r.
    - intros e Thrown. exists p. now apply (getDepsInPackageJson_throws this). }
  cbv zeta.
  destruct (DepNodeProvider.workspaceRoot this) as [root |] eqn:Root.
  2:{ destruct (Note "No dependency in empty workspace") as (C & N & L & T).
      repeat split; auto. discriminate. }
  destruct (Str.truthy root) eqn:T; cbn [negb].
  2:{ destruct (Note "No dependency in empty workspace") as (C & N & L & Th).
      repeat split; auto. intros r node [= <-]. congruence. }
  destruct element as [node |].
  - destruct (Quiet (Path.join [root; "node_modules"; Dependency.label node;
                                "package.json"])) as (C & N & L & Th).
    repeat split; auto.
    intros r n [= <-] _ [= <-] Missing. unfold ret. f_equal.
    unfold DepNodeProvider.getDepsInPackageJson. now rewrite Root, Missing.
  - destruct (DepNodeProvider.getRelevantPackageJsonPath this w) as [p |].
    + destruct (Str.truthy p).
      * destruct (Quiet p) as (C & N & L & Th). repeat split; auto. discriminate.
      * destruct (Note "No package.json found in current context")
          as (C & N & L & Th).
        repeat split; auto. discriminate.
    + destruct (Note "No package.json found in current context")
        as (C & N & L & Th).
      repeat split; auto. discriminate.
Qed.

Example broken_manifest_fails_the_tree :
  DepNodeProvider.getChildren (provider "/proj") brokenProject None start =
  (Throw (ReadError "/proj/package.json"), start).
Proof. reflexivity. Qed.

(** ** The quick pick and the information panel *)

Lemma escape_no_delimiter s a :
  In a (Str.chars (Uri.escape s)) -> isDelimiter a = false.
Proof.
  intros I. apply escape_alphabet in I.
  destruct I as [U | ->]; [| reflexivity].
  destruct a as [[] [] [] [] [] [] [] []]; try reflexivity; discriminate.
Qed.

(** X23. Of the actions of the quick pick only [install], [install-peer]
    and [install-dev] run anything, and they open no address; every other
    action leaves everything as it is, and what it opens, if anything, is
    the home page of npmjs.com or npmtrends.com, or their page for the
    package, the name being written without any character that could end
    the path or the query.  An action fails only when it is one of the two
    browse actions and the name of the package holds a surrogate without
    its partner: then nothing is opened and nothing has changed. *)
Theorem X23_browse_actions_run_nothing :
  forall w action pkg s,
    let run := NpmQuickPickActions.handleInstallAction w action pkg s in
    (In action ["install"; "install-peer"; "install-dev"] -> fst run = Ok None) /\
    (~ In action ["install"; "install-peer"; "install-dev"] -> snd run = s) /\
    (forall address,
        fst run = Ok (Some address) ->
        snd run = s /\
        exists site name,
          address = site +:+ name /\
          In site ["https://www.npmjs.com/search?q="; "https://www.npmjs.com/";
                   "https://npmtrends.com/"] /\
          forall a, In a (Str.chars name) -> isDelimiter a = false) /\
    (forall e,
        fst run = Throw e ->
        e = URIError /\ snd run = s /\
        In action ["browse-npm"; "browse-trends"] /\
        Uri.loneSurrogate (IPackage.name pkg) = true).
Proof.
  intros w action pkg s run. subst run.
  unfold NpmQuickPickActions.handleInstallAction.
  destruct (String.eqb_spec action "install") as [-> | N1].
  { unfold bind.
    destruct (NpmQuickPickProvider.installPackage w pkg EmptyString s) as [[] s1].
    cbn. repeat split; try discriminate. intros C. exfalso. apply C. now left. }
  destruct (String.eqb_spec action "install-peer") as [-> | N2].
  { unfold bind.
    destruct (NpmQuickPickProvider.installPackage w pkg "--save-peer" s) as [[] s1].
    cbn. repeat split; try discriminate.
    intros C. exfalso. apply C. right. now left. }
  destruct (String.eqb_spec action "install-dev") as [-> | N3].
  { unfold bind.
    destruct (NpmQuickPickProvider.installPackage w pkg "--save-dev" s) as [[] s1].
    cbn. repeat split; try discriminate.
    intros C. exfalso. apply C. right. right. now left. }
  cbn [ret fst snd]. split.
  { intros [<- | [<- | [<- | []]]]; congruence. }
  split; [reflexivity |].
  assert (Page : forall site home,
             In site ["https://www.npmjs.com/search?q="; "https://www.npmjs.com/";
                      "https://npmtrends.com/"] ->
             In home ["https://www.npmjs.com/search?q="; "https://www.npmjs.com/";
                      "https://npmtrends.com/"] ->
             match NpmQuickPickActions.page site home (IPackage.name pkg) with
             | Ok address =>
                 exists site' name,
                   address = site' +:+ name /\
                   In site' ["https://www.npmjs.com/search?q=";
                             "https://www.npmjs.com/"; "https://npmtrends.com/"] /\
                   forall a, In a (Str.chars name) -> isDelimiter a = false
             | Throw e =>
                 e = URIError /\ Uri.loneSurrogate (IPackage.name pkg) = true
             end).
  { intros site home Site Home. unfold NpmQuickPickActions.page.
    destruct (Str.truthy (IPackage.name pkg)).
    - unfold Uri.encodeURIComponent.
      destruct (Uri.loneSurrogate (IPackage.name pkg)); [auto |].
      exists site, (Uri.escape (IPackage.name pkg)).
      repeat split; auto. apply escape_no_delimiter.
    - exists home, EmptyString. rewrite append_empty.
      repeat split; auto. intros a []. }
  unfold NpmQuickPickActions.handleBrowseAction.
  destruct (String.eqb_spec action "browse-npm") as [-> | B1].
  { pose proof (Page "https://www.npmjs.com/search?q=" "https://www.npmjs.com/")
      as P.
    destruct (NpmQuickPickActions.page _ _ _) as [address | e].
    - split; [| discriminate]. intros a [= <-]. split; [reflexivity |].
      apply P; cbn; auto.
    - split; [discriminate |]. intros e' [= <-].
      destruct P as (-> & Lone); [cbn; auto | cbn; auto |].
      repeat split; cbn; auto. }
  destruct (String.eqb_spec action "browse-trends") as [-> | B2].
  { pose proof (Page "https://npmtrends.com/" "https://npmtrends.com/") as P.
    destruct (NpmQuickPickActions.page _ _ _) as [address | e].
    - split; [| discriminate]. intros a [= <-]. split; [reflexivity |].
      apply P; cbn; auto.
    - split; [discriminate |]. intros e' [= <-].
      destruct P as (-> & Lone); [cbn; auto | cbn; auto |].
      repeat split; cbn; auto. }
  split; discriminate.
Qed.

Example browse_scoped_package :
  NpmQuickPickActions.handleBrowseAction "browse-npm" "@babel/core" =
  Ok (Some "https://www.npmjs.com/search?q=%40babel%2Fcore").
Proof. reflexivity. Qed.


Example viewing_a_package_of_which_nothing_is_known :
  NodeDependenciesView.viewPackageInfo nullRegistry ghostNode start =
  (None,
   {| cache := {[ "ghost" := (None, 120) ]};
      now := 120;
      log := [Fetch "https://registry.npmjs.org/ghost";
              ShowErrorMessage
                (Text "Failed to load package information for ghost")] |}).
Proof. reflexivity. Qed.

(** ** What the lookups and the package-manager runs leave alone *)

(** X25. Looking up the manifest of a package for its tooltip runs no
    child process and no task: all it adds to the log is at most one
    probe of the module resolver, first of all, and then only the request
    and the messages of the registry client. *)
Theorem X25_tooltip_lookup_runs_no_command :
  forall this w moduleName dir s,
    let news :=
      newEvents s (snd (DepNodeProvider.getLocalPackageInfo this w moduleName dir s)) in
    Forall (fun e => ~ isShellCommand e) news /\
    exists rest,
      (news = rest \/ news = Resolve moduleName dir :: rest) /\
      Forall (fun e => ~ isResolve e) rest.
Proof.
  intros this w moduleName dir s news. subst news.
  unfold DepNodeProvider.getLocalPackageInfo.
  rewrite getPackageJsonFromPath_search.
  set (s1 := snd (DepNodeProvider.resolvePackageDir this w moduleName dir s)).
  assert (Probe : exists probe,
             log s1 = log s ++ probe /\
             (probe = [] \/ probe = [Resolve moduleName dir])).
  { subst s1. unfold DepNodeProvider.resolvePackageDir.
    destruct (Str.includes moduleName "@types/").
    - exists []. cbn. rewrite app_nil_r. auto.
    - exists [Resolve moduleName dir]. unfold bind, emit. cbn.
      destruct (requireResolve w moduleName dir); cbn; auto. }
  destruct Probe as (probe & L1 & Shape).
  destruct (emits_findPackageJson
              (fun e => ~ isShellCommand e /\ ~ isResolve e)
              this w moduleName (candidateRoot w moduleName dir)) with (s := s1)
    as (rest & L2 & Quiet).
  { intros u0. split; [intros [] | intros (n & d & C); discriminate]. }
  { intros m. split; [intros [] | intros (n & d & C); discriminate]. }
  { intros m. split; [intros [] | intros (n & d & C); discriminate]. }
  rewrite (newEvents_app s _ (probe ++ rest))
    by (rewrite L2, L1; now rewrite app_assoc).
  split.
  - apply Forall_app. split.
    + destruct Shape as [-> | ->]; repeat constructor. intros [].
    + eapply List.Forall_impl; [| exact Quiet]. now intros e (Shell & _).
  - exists rest. split.
    + destruct Shape as [-> | ->]; auto.
    + eapply List.Forall_impl; [| exact Quiet]. now intros e (_ & R).
Qed.










Example installation_outlasts_an_entry :
  let s := {| cache := {[ "lodash" := (Some (release "lodash" "1.0.0"), 0) ]};
              now := 60 * 60 * 1000 - 1000; log := [] |} in
  let after := snd (NpmQuickPickProvider.installPackage typedProject lodash
                      EmptyString s) in
  NpmApiService.fresh s "lodash" = Some (Some (release "lodash" "1.0.0")) /\
  cache after = cache s /\
  NpmApiService.fresh after "lodash" = None.
Proof. vm_compute. repeat split. Qed.
